(** * EchoTask: synchronisation and conflict resolution

    A shallow embedding of the synchronisation core of the EchoTask notes
    application:

    - [src/types/notes.ts]                  the data model,
    - [src/hooks/database-service.ts]       the local store (SQLite on native
                                            platforms, AsyncStorage on web),
    - [src/hooks/firebase-sync-service.ts]  the sync engine, the conflict
                                            resolver and the realtime listener,
    - [src/hooks/notes-store.ts]            the sync status aggregator.

    Asynchronous methods become computations in a state-and-exception monad
    over a [World] that holds the two service singletons, the remote
    collection and the environment (device clock, random source, network).
    Every [await] is a sequencing point; exceptions keep the state reached so
    far, as in the source, where nothing is rolled back. A computation runs a
    call to its end; where two calls of [syncNotes] overlap, the call is cut
    at its [await]s ([syncNotes_called], [syncNotes_resumed]).

    Conventions of the embedding:
    - a [Date] is its [getTime()], an integer number of milliseconds; there
      is no invalid date;
    - an optional field [f?: T] is an [option T], [undefined] is [None];
    - a checklist item carries the order in which it enumerates its four
      properties; it has no other property;
    - a JSON text column or AsyncStorage entry is the value it parses to;
    - [ORDER BY] keeps rows with equal keys in table order, and SQLite does
      not enforce the foreign key of [checklist_items] (its default);
    - every document of the remote collection carries [lastModified], the
      field all its queries order by. *)

From stdpp Require Import gmap strings list pretty.
From Stdlib Require Import ZArith Lia Ascii Sorted.

Local Open Scope string_scope.
Local Open Scope Z_scope.

(** ** JavaScript helpers *)

Module Js.

(** [!!s] for a value of type [string | null | undefined]. *)
Definition truthy (o : option string) : bool :=
  match o with
  | Some s => negb (String.eqb s "")
  | None => false
  end.

(** [a || b] on such a value. *)
Definition or_else (o : option string) (d : string) : string :=
  if truthy o then default d o else d.

(** [Array.prototype.sort(cmp)]: stable; [cmp a b <= 0] keeps [a] first. *)
Fixpoint insert {A} (cmp : A → A → Z) (x : A) (l : list A) : list A :=
  match l with
  | [] => [x]
  | y :: ys => if cmp x y <=? 0 then x :: y :: ys else y :: insert cmp x ys
  end.

Fixpoint sort {A} (cmp : A → A → Z) (l : list A) : list A :=
  match l with
  | [] => []
  | x :: xs => insert cmp x (sort cmp xs)
  end.

(** [Array.prototype.find]. *)
Definition find {A} (p : A → bool) (l : list A) : option A := List.find p l.

(** [Array.prototype.findIndex]; [None] stands for [-1]. *)
Fixpoint findIndex {A} (p : A → bool) (l : list A) : option nat :=
  match l with
  | [] => None
  | x :: xs => if p x then Some 0%nat else S <$> findIndex p xs
  end.

(** The property names every plain object inherits from [Object.prototype].
    Reading one of them gives the inherited member unless the object has a
    property of its own with that name, and assigning a string to
    [__proto__] creates no property. *)
Definition inheritedNames : list string :=
  ["__proto__"; "constructor"; "hasOwnProperty"; "isPrototypeOf";
   "propertyIsEnumerable"; "toLocaleString"; "toString"; "valueOf";
   "__defineGetter__"; "__defineSetter__"; "__lookupGetter__";
   "__lookupSetter__"].

Definition inherited (key : string) : bool :=
  bool_decide (key ∈ inheritedNames).

Definition digit (c : Ascii.ascii) : option Z :=
  let n := Z.of_N (Ascii.N_of_ascii c) in
  if (48 <=? n) && (n <=? 57) then Some (n - 48) else None.

Fixpoint parseDigits (s : string) (acc : option Z) : option Z :=
  match s with
  | EmptyString => acc
  | String c s' =>
      match digit c with
      | Some d => parseDigits s' (Some (10 * default 0 acc + d))
      | None => acc
      end
  end.

(** [parseInt(s)] on text that starts with a digit or with [-], as every
    watermark that [downloadRemoteChanges] writes does: leading white space,
    a [+] sign and the prefix [0x] are left out. [None] stands for [NaN]. *)
Definition parseInt (s : string) : option Z :=
  match s with
  | String "-"%char s' => Z.opp <$> parseDigits s' None
  | _ => parseDigits s None
  end.

(** The keys of [{...o, k: v}], given those of [o]: a property that [o] has
    keeps its place, a new one goes last. *)
Definition assign {K} `{EqDecision K} (k : K) (keys : list K) : list K :=
  if bool_decide (k ∈ keys) then keys else (keys ++ [k])%list.

(** The text produced by [JSON.stringify], kept as its token sequence.
    A [Date] serialises to its ISO-8601 string, one per millisecond. *)
Inductive JsonToken :=
| TArrayOpen | TArrayClose | TObjectOpen | TObjectClose
| TKey (k : string)
| TString (s : string)
| TBool (b : bool)
| TIsoDate (ms : Z).

Global Instance JsonToken_eq_dec : EqDecision JsonToken.
Proof. solve_decision. Defined.

End Js.

(** ** Data model ([src/types/notes.ts]) *)

(** The properties of a checklist item. *)
Module ItemKey.
Inductive t := id | text | completed | createdAt.
Global Instance eq_dec : EqDecision t.
Proof. solve_decision. Defined.

Definition name (k : t) : string :=
  match k with
  | id => "id"
  | text => "text"
  | completed => "completed"
  | createdAt => "createdAt"
  end.

(** The order of the interface, and of the object literals that build an
    item. *)
Definition all : list t := [id; text; completed; createdAt].
End ItemKey.

(** An object of the interface [ChecklistItem]. It has the four properties;
    [keys] is the order in which it enumerates them, which is the order in
    which they were put into it, and the order in which [{...item}] and
    [JSON.stringify] go through them. *)
Module ChecklistItem.
Record t := mk {
  id : string;
  text : string;
  completed : bool;
  createdAt : Z;
  keys : list ItemKey.t
}.
Global Instance eq_dec : EqDecision t.
Proof. solve_decision. Defined.

(** What the item holds, whatever the order of its properties. *)
Definition value (item : t) : string * string * bool * Z :=
  (id item, text item, completed item, createdAt item).

End ChecklistItem.

Module RichTextSegment.
Record t := mk {
  text : string;
  bold : option bool;
  italic : option bool;
  highlight : option bool;
  bulletPoint : option bool
}.
Global Instance eq_dec : EqDecision t.
Proof. solve_decision. Defined.
End RichTextSegment.

Module AudioNote.
Record t := mk {
  id : string;
  uri : string;
  duration : Z;
  transcript : option string;
  createdAt : Z
}.
Global Instance eq_dec : EqDecision t.
Proof. solve_decision. Defined.
End AudioNote.

Inductive NoteType := note | task.
Inductive Priority := low | medium | high.

Global Instance NoteType_eq_dec : EqDecision NoteType.
Proof. solve_decision. Defined.
Global Instance Priority_eq_dec : EqDecision Priority.
Proof. solve_decision. Defined.

(** [Omit<Note, 'id' | 'createdAt' | 'updatedAt' | 'deviceId'>], the argument
    type of [saveNote]. An optional field [f?: T] is an [option T]. *)
Module NoteInput.
Record t := mk {
  title : string;
  content : string;
  richContent : option (list RichTextSegment.t);
  type : NoteType;
  completed : option bool;
  checklist : option (list ChecklistItem.t);
  tags : list string;
  folderId : option string;
  audioNotes : option (list AudioNote.t);
  priority : option Priority;
  dueDate : option Z;
  reminderDate : option Z;
  isStarred : option bool;
  isPinned : option bool;
  isArchived : option bool;
  syncId : option string;
  lastSyncAt : option Z;
  conflictVersion : option Z;
  isDeleted : option bool
}.
Global Instance eq_dec : EqDecision t.
Proof. solve_decision. Defined.
End NoteInput.

(** [Note]: the four fields [saveNote] fills in, and the rest. Dates are
    milliseconds since the epoch ([Date.getTime()]). *)
Module Note.
Record t := mk {
  id : string;
  createdAt : Z;
  updatedAt : Z;
  deviceId : string;
  fields : NoteInput.t
}.
Global Instance eq_dec : EqDecision t.
Proof. solve_decision. Defined.
End Note.

Coercion Note.fields : Note.t >-> NoteInput.t.

(** [Partial<Note>]. [None] is an absent key. For a field that is optional
    in [Note], [Some None] is a key that is present with value [undefined],
    which an object spread copies and a [!== undefined] test skips. *)
Module PartialNote.
Record t := mk {
  id : option string;
  createdAt : option Z;
  updatedAt : option Z;
  deviceId : option string;
  title : option string;
  content : option string;
  richContent : option (option (list RichTextSegment.t));
  type : option NoteType;
  completed : option (option bool);
  checklist : option (option (list ChecklistItem.t));
  tags : option (list string);
  folderId : option (option string);
  audioNotes : option (option (list AudioNote.t));
  priority : option (option Priority);
  dueDate : option (option Z);
  reminderDate : option (option Z);
  isStarred : option (option bool);
  isPinned : option (option bool);
  isArchived : option (option bool);
  syncId : option (option string);
  lastSyncAt : option (option Z);
  conflictVersion : option (option Z);
  isDeleted : option (option bool)
}.

(** The object [{}]. *)
Definition empty : t :=
  mk None None None None None None None None None None None None
     None None None None None None None None None None None.

(** [{ ...n, ...u }]. *)
Definition spread (n : Note.t) (u : t) : Note.t :=
  {| Note.id := default (Note.id n) (id u);
     Note.createdAt := default (Note.createdAt n) (createdAt u);
     Note.updatedAt := default (Note.updatedAt n) (updatedAt u);
     Note.deviceId := default (Note.deviceId n) (deviceId u);
     Note.fields :=
       {| NoteInput.title := default (NoteInput.title n) (title u);
          NoteInput.content := default (NoteInput.content n) (content u);
          NoteInput.richContent := default (NoteInput.richContent n) (richContent u);
          NoteInput.type := default (NoteInput.type n) (type u);
          NoteInput.completed := default (NoteInput.completed n) (completed u);
          NoteInput.checklist := default (NoteInput.checklist n) (checklist u);
          NoteInput.tags := default (NoteInput.tags n) (tags u);
          NoteInput.folderId := default (NoteInput.folderId n) (folderId u);
          NoteInput.audioNotes := default (NoteInput.audioNotes n) (audioNotes u);
          NoteInput.priority := default (NoteInput.priority n) (priority u);
          NoteInput.dueDate := default (NoteInput.dueDate n) (dueDate u);
          NoteInput.reminderDate := default (NoteInput.reminderDate n) (reminderDate u);
          NoteInput.isStarred := default (NoteInput.isStarred n) (isStarred u);
          NoteInput.isPinned := default (NoteInput.isPinned n) (isPinned u);
          NoteInput.isArchived := default (NoteInput.isArchived n) (isArchived u);
          NoteInput.syncId := default (NoteInput.syncId n) (syncId u);
          NoteInput.lastSyncAt := default (NoteInput.lastSyncAt n) (lastSyncAt u);
          NoteInput.conflictVersion :=
            default (NoteInput.conflictVersion n) (conflictVersion u);
          NoteInput.isDeleted := default (NoteInput.isDeleted n) (isDeleted u) |} |}.
End PartialNote.

Module SyncConflict.
Record t := mk {
  noteId : string;
  localVersion : Note.t;
  remoteVersion : Note.t;
  conflictFields : list string
}.
Global Instance eq_dec : EqDecision t.
Proof. solve_decision. Defined.
End SyncConflict.

Module SyncStatus.
Record t := mk {
  isOnline : bool;
  isSyncing : bool;
  lastSyncAt : option Z;
  pendingChanges : Z;
  conflicts : list SyncConflict.t
}.
End SyncStatus.

(** ** Storage and remote documents *)

(** A row of the SQLite table [notes]. JSON text columns ([rich_content],
    [tags]) are kept as the value they parse to, 0/1 integer columns as
    booleans. *)
Module NoteRow.
Record t := mk {
  id : string;
  title : string;
  content : string;
  rich_content : option (list RichTextSegment.t);
  type : NoteType;
  completed : bool;
  tags : list string;
  created_at : Z;
  updated_at : Z;
  sync_id : option string;
  last_sync_at : option Z;
  conflict_version : Z;
  is_deleted : bool;
  device_id : string
}.
End NoteRow.

(** A row of the SQLite table [checklist_items]. *)
Module ChecklistRow.
Record t := mk {
  id : string;
  note_id : string;
  text : string;
  completed : bool;
  created_at : Z
}.
End ChecklistRow.

(** The SQLite database [notes_app.db]: the three tables of [createTables].
    [sync_metadata] maps a key to its value and [updated_at]. *)
Module Sqlite.
Record t := mk {
  notes : list NoteRow.t;
  checklist_items : list ChecklistRow.t;
  sync_metadata : gmap string (string * Z)
}.
End Sqlite.

(** The AsyncStorage entries the web path uses, by the value their JSON text
    parses to; [None] is a missing entry ([getItem] returns [null]). *)
Module AsyncStorage.
Record t := mk {
  notes_storage : option (list Note.t);
  sync_metadata : option (gmap string string)
}.
End AsyncStorage.

(** A checklist entry inside a Firestore document. *)
Module FirebaseChecklistItem.
Record t := mk {
  id : string;
  text : string;
  completed : bool;
  createdAt : option Z;
  keys : list ItemKey.t
}.
End FirebaseChecklistItem.

(** The data of a document of the Firestore collection [notes]. The fields
    that [mapFirebaseToNote] guards with [||] or [?.] may be missing. *)
Module FirebaseNote.
Record t := mk {
  id : string;
  title : string;
  content : string;
  richContent : option (list RichTextSegment.t);
  type : NoteType;
  completed : option bool;
  checklist : option (list FirebaseChecklistItem.t);
  tags : option (list string);
  createdAt : option Z;
  updatedAt : option Z;
  isDeleted : option bool;
  deviceId : string;
  conflictVersion : option Z;
  lastModified : Z
}.
End FirebaseNote.

(** ** The world *)

(** The fields of the [DatabaseService] singleton. *)
Module DatabaseState.
Record t := mk {
  db : option Sqlite.t;
  deviceId : option string;
  isWeb : bool
}.
End DatabaseState.

(** The fields of the [FirebaseSyncService] singleton; [db] tells whether
    the Firestore handle [this.db] is set, [listeners] how many
    unsubscribe functions are held. *)
Module SyncState.
Record t := mk {
  db : bool;
  isInitialized : bool;
  syncInProgress : bool;
  listeners : nat
}.
End SyncState.

(** What the code reads from outside: the [k]-th reading of the device clock
    ([new Date()], [Date.now()]), the [k]-th random suffix
    ([Math.random().toString(36).substr(2, 9)]), and for the [k]-th Firestore
    request whether it succeeds and the server time it is stamped with. *)
Module Env.
Record t := mk {
  clock : nat → Z;
  ticks : nat;
  random : nat → string;
  draws : nat;
  network : nat → bool;
  serverTime : nat → Z;
  requests : nat;
  online : bool
}.
End Env.

Module World.
Record t := mk {
  database : DatabaseState.t;
  storage : AsyncStorage.t;
  sync : SyncState.t;
  firestore : gmap string FirebaseNote.t;
  env : Env.t
}.

Definition set_database (d : DatabaseState.t) (w : t) : t :=
  mk d (storage w) (sync w) (firestore w) (env w).
Definition set_storage (s : AsyncStorage.t) (w : t) : t :=
  mk (database w) s (sync w) (firestore w) (env w).
Definition set_sync (s : SyncState.t) (w : t) : t :=
  mk (database w) (storage w) s (firestore w) (env w).
Definition set_firestore (f : gmap string FirebaseNote.t) (w : t) : t :=
  mk (database w) (storage w) (sync w) f (env w).
Definition set_env (e : Env.t) (w : t) : t :=
  mk (database w) (storage w) (sync w) (firestore w) e.

(** The local store: what [DatabaseService] persists on the device. *)
Definition local (w : t) : DatabaseState.t * AsyncStorage.t :=
  (database w, storage w).
End World.

(** ** Asynchronous computations *)

Inductive Error :=
| DatabaseNotInitialized   (* 'Database not initialized' *)
| FirebaseNotInitialized   (* 'Firebase not initialized' *)
| ConstraintFailed         (* SQLite: UNIQUE constraint failed *)
| RequestFailed            (* a Firestore request rejected *)
| InvalidDate.             (* Timestamp.fromDate on an invalid Date *)

Inductive Result (A : Type) :=
| Ok (a : A)
| Throw (e : Error).
Arguments Ok {A} a.
Arguments Throw {A} e.

(** A [Promise<A>]-returning method: from the world before the call to the
    world after it and the value it resolves to, or the error it rejects
    with. *)
Definition Async (A : Type) : Type := World.t → World.t * Result A.

Definition ret {A} (a : A) : Async A := fun w => (w, Ok a).

Definition throw {A} (e : Error) : Async A := fun w => (w, Throw e).

Definition bind {A B} (m : Async A) (k : A → Async B) : Async B :=
  fun w =>
    match m w with
    | (w', Ok a) => k a w'
    | (w', Throw e) => (w', Throw e)
    end.

(** [try { m } catch (error) { h }]. *)
Definition try_catch {A} (m : Async A) (h : Error → Async A) : Async A :=
  fun w =>
    match m w with
    | (w', Ok a) => (w', Ok a)
    | (w', Throw e) => h e w'
    end.

(** [try { m } finally { f }], where [f] does not throw. *)
Definition finally {A} (m : Async A) (f : World.t → World.t) : Async A :=
  fun w => let (w', r) := m w in (f w', r).

Definition get : Async World.t := fun w => (w, Ok w).

Definition modify (f : World.t → World.t) : Async unit := fun w => (f w, Ok tt).

Declare Scope async_scope.
Delimit Scope async_scope with async.
Notation "x <~ m ;; k" := (bind m (fun x => k))
  (at level 100, m at next level, right associativity) : async_scope.
Notation "m ;;; k" := (bind m (fun _ => k))
  (at level 100, right associativity) : async_scope.
Local Open Scope async_scope.

(** [for (const x of xs) { await body(x) }]. *)
Fixpoint forEach {A} (xs : list A) (body : A → Async unit) : Async unit :=
  match xs with
  | [] => ret tt
  | x :: xs' => body x ;;; forEach xs' body
  end.

(** Sequential [map] with an asynchronous function. *)
Fixpoint mapAsync {A B} (f : A → Async B) (xs : list A) : Async (list B) :=
  match xs with
  | [] => ret []
  | x :: xs' => y <~ f x ;; ys <~ mapAsync f xs' ;; ret (y :: ys)
  end.

(** [new Date()] and [Date.now()]: the next reading of the device clock. *)
Definition now : Async Z :=
  fun w =>
    let e := World.env w in
    (World.set_env
       (Env.mk (Env.clock e) (S (Env.ticks e)) (Env.random e) (Env.draws e)
               (Env.network e) (Env.serverTime e) (Env.requests e) (Env.online e)) w,
     Ok (Env.clock e (Env.ticks e))).

(** [Math.random().toString(36).substr(2, 9)]. *)
Definition randomSuffix : Async string :=
  fun w =>
    let e := World.env w in
    (World.set_env
       (Env.mk (Env.clock e) (Env.ticks e) (Env.random e) (S (Env.draws e))
               (Env.network e) (Env.serverTime e) (Env.requests e) (Env.online e)) w,
     Ok (Env.random e (Env.draws e))).

(** One Firestore request: it rejects or yields the server's timestamp. *)
Definition request : Async Z :=
  fun w =>
    let e := World.env w in
    let w' :=
      World.set_env
        (Env.mk (Env.clock e) (Env.ticks e) (Env.random e) (Env.draws e)
                (Env.network e) (Env.serverTime e) (S (Env.requests e)) (Env.online e)) w in
    if Env.network e (Env.requests e)
    then (w', Ok (Env.serverTime e (Env.requests e)))
    else (w', Throw RequestFailed).

(** ** The local store ([src/hooks/database-service.ts]) *)

Module DatabaseService.

Definition isWeb : Async bool :=
  fun w => (w, Ok (DatabaseState.isWeb (World.database w))).

(** [if (!this.db) throw new Error('Database not initialized')]. *)
Definition requireDb : Async Sqlite.t :=
  fun w =>
    match DatabaseState.db (World.database w) with
    | Some d => (w, Ok d)
    | None => (w, Throw DatabaseNotInitialized)
    end.

(** The effect of a statement run on [this.db]. *)
Definition putDb (d : Sqlite.t) : Async unit :=
  modify (fun w =>
    let s := World.database w in
    World.set_database
      (DatabaseState.mk (Some d) (DatabaseState.deviceId s) (DatabaseState.isWeb s)) w).

(** [JSON.parse(await AsyncStorage.getItem(NOTES_STORAGE_KEY))]. *)
Definition getNotesItem : Async (option (list Note.t)) :=
  fun w => (w, Ok (AsyncStorage.notes_storage (World.storage w))).

(** [AsyncStorage.setItem(NOTES_STORAGE_KEY, JSON.stringify(notes))]. *)
Definition setNotesItem (notes : list Note.t) : Async unit :=
  modify (fun w =>
    World.set_storage
      (AsyncStorage.mk (Some notes) (AsyncStorage.sync_metadata (World.storage w))) w).

Definition getMetadataItem : Async (option (gmap string string)) :=
  fun w => (w, Ok (AsyncStorage.sync_metadata (World.storage w))).

Definition setMetadataItem (metadata : gmap string string) : Async unit :=
  modify (fun w =>
    World.set_storage
      (AsyncStorage.mk (AsyncStorage.notes_storage (World.storage w)) (Some metadata)) w).

(** [!note.isDeleted]. *)
Definition notDeleted (n : Note.t) : bool :=
  negb (default false (NoteInput.isDeleted n)).

Definition getAllNotesWeb : Async (list Note.t) :=
  notesJson <~ getNotesItem ;;
  match notesJson with
  | None => ret []
  | Some notes =>
      ret (Js.sort (fun a b => Note.updatedAt b - Note.updatedAt a)
                   (List.filter notDeleted notes))
  end.

Definition itemOfRow (row : ChecklistRow.t) : ChecklistItem.t :=
  {| ChecklistItem.id := ChecklistRow.id row;
     ChecklistItem.text := ChecklistRow.text row;
     ChecklistItem.completed := ChecklistRow.completed row;
     ChecklistItem.createdAt := ChecklistRow.created_at row;
     ChecklistItem.keys :=
       [ItemKey.id; ItemKey.text; ItemKey.completed; ItemKey.createdAt] |}.

(** [SELECT * FROM checklist_items WHERE note_id = ? ORDER BY created_at ASC];
    rows with equal [created_at] come in table order. *)
Definition selectChecklistItems (db : Sqlite.t) (noteId : string)
  : list ChecklistItem.t :=
  map itemOfRow
    (Js.sort (fun a b => ChecklistRow.created_at a - ChecklistRow.created_at b)
       (List.filter (fun r => String.eqb (ChecklistRow.note_id r) noteId)
                    (Sqlite.checklist_items db))).

Definition getChecklistItems (noteId : string) : Async (list ChecklistItem.t) :=
  db <~ requireDb ;;
  ret (selectChecklistItems db noteId).

(** The object literal that [mapRowToNote] returns. *)
Definition noteOfRow (row : NoteRow.t) (checklist : list ChecklistItem.t) : Note.t :=
  {| Note.id := NoteRow.id row;
     Note.createdAt := NoteRow.created_at row;
     Note.updatedAt := NoteRow.updated_at row;
     Note.deviceId := NoteRow.device_id row;
     Note.fields :=
       {| NoteInput.title := NoteRow.title row;
          NoteInput.content := NoteRow.content row;
          NoteInput.richContent := NoteRow.rich_content row;
          NoteInput.type := NoteRow.type row;
          NoteInput.completed := Some (NoteRow.completed row);
          NoteInput.checklist :=
            if (0 <? length checklist)%nat then Some checklist else None;
          NoteInput.tags := NoteRow.tags row;
          NoteInput.folderId := None;
          NoteInput.audioNotes := None;
          NoteInput.priority := None;
          NoteInput.dueDate := None;
          NoteInput.reminderDate := None;
          NoteInput.isStarred := None;
          NoteInput.isPinned := None;
          NoteInput.isArchived := None;
          NoteInput.syncId := NoteRow.sync_id row;
          NoteInput.lastSyncAt :=
            match NoteRow.last_sync_at row with
            | Some t => if t =? 0 then None else Some t
            | None => None
            end;
          NoteInput.conflictVersion := Some (NoteRow.conflict_version row);
          NoteInput.isDeleted := Some (NoteRow.is_deleted row) |} |}.

Definition mapRowToNote (row : NoteRow.t) : Async Note.t :=
  checklist <~ getChecklistItems (NoteRow.id row) ;;
  ret (noteOfRow row checklist).

(** [SELECT * FROM notes WHERE is_deleted = 0 ORDER BY updated_at DESC]. *)
Definition getAllNotes : Async (list Note.t) :=
  web <~ isWeb ;;
  if web then getAllNotesWeb
  else
    db <~ requireDb ;;
    mapAsync mapRowToNote
      (Js.sort (fun a b => NoteRow.updated_at b - NoteRow.updated_at a)
         (List.filter (fun r => negb (NoteRow.is_deleted r)) (Sqlite.notes db))).

Definition getNoteByIdWeb (id : string) : Async (option Note.t) :=
  notes <~ getAllNotesWeb ;;
  ret (Js.find (fun n => String.eqb (Note.id n) id) notes).

(** [SELECT * FROM notes WHERE id = ? AND is_deleted = 0]. *)
Definition getNoteById (id : string) : Async (option Note.t) :=
  web <~ isWeb ;;
  if web then getNoteByIdWeb id
  else
    db <~ requireDb ;;
    match List.find (fun r => String.eqb (NoteRow.id r) id && negb (NoteRow.is_deleted r))
                    (Sqlite.notes db) with
    | None => ret None
    | Some row => n <~ mapRowToNote row ;; ret (Some n)
    end.

Definition rowOfItem (noteId : string) (item : ChecklistItem.t) : ChecklistRow.t :=
  {| ChecklistRow.id := ChecklistItem.id item;
     ChecklistRow.note_id := noteId;
     ChecklistRow.text := ChecklistItem.text item;
     ChecklistRow.completed := ChecklistItem.completed item;
     ChecklistRow.created_at := ChecklistItem.createdAt item |}.

(** One [INSERT INTO checklist_items]; [id] is the primary key. *)
Definition insertChecklistRow (row : ChecklistRow.t) : Async unit :=
  db <~ requireDb ;;
  if existsb (fun r => String.eqb (ChecklistRow.id r) (ChecklistRow.id row))
             (Sqlite.checklist_items db)
  then throw ConstraintFailed
  else putDb (Sqlite.mk (Sqlite.notes db)
                        (Sqlite.checklist_items db ++ [row])%list
                        (Sqlite.sync_metadata db)).

Definition saveChecklistItems (noteId : string) (items : list ChecklistItem.t)
  : Async unit :=
  _ <~ requireDb ;;
  forEach items (fun item => insertChecklistRow (rowOfItem noteId item)).

(** [DELETE FROM checklist_items WHERE note_id = ?]. *)
Definition deleteChecklistItems (noteId : string) : Async unit :=
  db <~ requireDb ;;
  putDb (Sqlite.mk (Sqlite.notes db)
           (List.filter (fun r => negb (String.eqb (ChecklistRow.note_id r) noteId))
                        (Sqlite.checklist_items db))
           (Sqlite.sync_metadata db)).

Definition saveNoteWeb (n : Note.t) : Async Note.t :=
  notesJson <~ getNotesItem ;;
  setNotesItem (default [] notesJson ++ [n])%list ;;;
  ret n.

(** The values bound by the [INSERT INTO notes] of [saveNote]. *)
Definition rowOfNote (n : Note.t) : NoteRow.t :=
  {| NoteRow.id := Note.id n;
     NoteRow.title := NoteInput.title n;
     NoteRow.content := NoteInput.content n;
     NoteRow.rich_content := Some (default [] (NoteInput.richContent n));
     NoteRow.type := NoteInput.type n;
     NoteRow.completed := default false (NoteInput.completed n);
     NoteRow.tags := NoteInput.tags n;
     NoteRow.created_at := Note.createdAt n;
     NoteRow.updated_at := Note.updatedAt n;
     NoteRow.sync_id :=
       if Js.truthy (NoteInput.syncId n) then NoteInput.syncId n else None;
     NoteRow.last_sync_at :=
       match NoteInput.lastSyncAt n with
       | Some t => if t =? 0 then None else Some t
       | None => None
       end;
     NoteRow.conflict_version := default 0 (NoteInput.conflictVersion n);
     NoteRow.is_deleted := default false (NoteInput.isDeleted n);
     NoteRow.device_id := Note.deviceId n |}.

Definition saveNote (input : NoteInput.t) : Async Note.t :=
  w <~ get ;;
  if negb (Js.truthy (DatabaseState.deviceId (World.database w)))
  then throw DatabaseNotInitialized
  else
    date <~ now ;;
    ms <~ now ;;
    suffix <~ randomSuffix ;;
    let id := "note_" +:+ pretty ms +:+ "_" +:+ suffix in
    let newNote :=
      {| Note.id := id;
         Note.createdAt := date;
         Note.updatedAt := date;
         Note.deviceId := default "" (DatabaseState.deviceId (World.database w));
         Note.fields := input |} in
    web <~ isWeb ;;
    if web then saveNoteWeb newNote
    else
      db <~ requireDb ;;
      (if existsb (fun r => String.eqb (NoteRow.id r) id) (Sqlite.notes db)
       then throw ConstraintFailed
       else putDb (Sqlite.mk (Sqlite.notes db ++ [rowOfNote newNote])%list
                             (Sqlite.checklist_items db)
                             (Sqlite.sync_metadata db))) ;;;
      match NoteInput.checklist input with
      | Some (item :: items) => saveChecklistItems id (item :: items)
      | _ => ret tt
      end ;;;
      ret newNote.

(** [notes[noteIndex] = f(notes[noteIndex])]. *)
Definition updateAt (i : nat) (f : Note.t → Note.t) (notes : list Note.t)
  : list Note.t :=
  match notes !! i with
  | Some n => <[i := f n]> notes
  | None => notes
  end.

Definition updateNoteWeb (id : string) (updates : PartialNote.t) : Async unit :=
  notesJson <~ getNotesItem ;;
  let notes := default [] notesJson in
  match Js.findIndex (fun n => String.eqb (Note.id n) id) notes with
  | None => ret tt
  | Some noteIndex =>
      date <~ now ;;
      setNotesItem
        (updateAt noteIndex
           (fun n =>
              let m := PartialNote.spread n updates in
              Note.mk (Note.id m) (Note.createdAt m) date (Note.deviceId m)
                      (Note.fields m))
           notes)
  end.

(** The [SET] clause that [updateNote] builds, applied to a row. *)
Definition setFields (updates : PartialNote.t) (date : Z) (r : NoteRow.t)
  : NoteRow.t :=
  {| NoteRow.id := NoteRow.id r;
     NoteRow.title := default (NoteRow.title r) (PartialNote.title updates);
     NoteRow.content := default (NoteRow.content r) (PartialNote.content updates);
     NoteRow.rich_content :=
       match PartialNote.richContent updates with
       | Some (Some segments) => Some segments
       | _ => NoteRow.rich_content r
       end;
     NoteRow.type := default (NoteRow.type r) (PartialNote.type updates);
     NoteRow.completed :=
       match PartialNote.completed updates with
       | Some (Some b) => b
       | _ => NoteRow.completed r
       end;
     NoteRow.tags := default (NoteRow.tags r) (PartialNote.tags updates);
     NoteRow.created_at := NoteRow.created_at r;
     NoteRow.updated_at := date;
     NoteRow.sync_id := NoteRow.sync_id r;
     NoteRow.last_sync_at := NoteRow.last_sync_at r;
     NoteRow.conflict_version := NoteRow.conflict_version r;
     NoteRow.is_deleted := NoteRow.is_deleted r;
     NoteRow.device_id := NoteRow.device_id r |}.

(** [UPDATE notes SET ... WHERE id = ?]. *)
Definition updateRows (id : string) (f : NoteRow.t → NoteRow.t) : Async unit :=
  db <~ requireDb ;;
  putDb (Sqlite.mk
           (map (fun r => if String.eqb (NoteRow.id r) id then f r else r)
                (Sqlite.notes db))
           (Sqlite.checklist_items db)
           (Sqlite.sync_metadata db)).

Definition updateNote (id : string) (updates : PartialNote.t) : Async unit :=
  web <~ isWeb ;;
  if web then updateNoteWeb id updates
  else
    _ <~ requireDb ;;
    date <~ now ;;
    updateRows id (setFields updates date) ;;;
    match PartialNote.checklist updates with
    | Some (Some items) =>
        deleteChecklistItems id ;;;
        match items with
        | [] => ret tt
        | _ :: _ => saveChecklistItems id items
        end
    | _ => ret tt
    end.

Definition deleteNoteWeb (id : string) : Async unit :=
  notesJson <~ getNotesItem ;;
  let notes := default [] notesJson in
  match Js.findIndex (fun n => String.eqb (Note.id n) id) notes with
  | None => ret tt
  | Some noteIndex =>
      date <~ now ;;
      setNotesItem
        (updateAt noteIndex
           (fun n =>
              let f := Note.fields n in
              Note.mk (Note.id n) (Note.createdAt n) date (Note.deviceId n)
                (NoteInput.mk
                   (NoteInput.title f) (NoteInput.content f) (NoteInput.richContent f)
                   (NoteInput.type f) (NoteInput.completed f) (NoteInput.checklist f)
                   (NoteInput.tags f) (NoteInput.folderId f) (NoteInput.audioNotes f)
                   (NoteInput.priority f) (NoteInput.dueDate f)
                   (NoteInput.reminderDate f) (NoteInput.isStarred f)
                   (NoteInput.isPinned f) (NoteInput.isArchived f)
                   (NoteInput.syncId f) (NoteInput.lastSyncAt f)
                   (NoteInput.conflictVersion f) (Some true)))
           notes)
  end.

(** Soft delete:
    [UPDATE notes SET is_deleted = 1, updated_at = ? WHERE id = ?]. *)
Definition deleteNote (id : string) : Async unit :=
  web <~ isWeb ;;
  if web then deleteNoteWeb id
  else
    _ <~ requireDb ;;
    ms <~ now ;;
    updateRows id (fun r =>
      NoteRow.mk (NoteRow.id r) (NoteRow.title r) (NoteRow.content r)
        (NoteRow.rich_content r) (NoteRow.type r) (NoteRow.completed r)
        (NoteRow.tags r) (NoteRow.created_at r) ms (NoteRow.sync_id r)
        (NoteRow.last_sync_at r) (NoteRow.conflict_version r) true
        (NoteRow.device_id r)).

(** [!note.lastSyncAt || note.updatedAt.getTime() > note.lastSyncAt.getTime()]. *)
Definition needsSync (n : Note.t) : bool :=
  match NoteInput.lastSyncAt n with
  | None => true
  | Some t => t <? Note.updatedAt n
  end.

Definition getNotesForSyncWeb : Async (list Note.t) :=
  notes <~ getAllNotesWeb ;;
  ret (Js.sort (fun a b => Note.updatedAt a - Note.updatedAt b)
               (List.filter needsSync notes)).

(** [WHERE last_sync_at IS NULL OR updated_at > last_sync_at]. *)
Definition rowNeedsSync (r : NoteRow.t) : bool :=
  match NoteRow.last_sync_at r with
  | None => true
  | Some t => t <? NoteRow.updated_at r
  end.

Definition getNotesForSync : Async (list Note.t) :=
  web <~ isWeb ;;
  if web then getNotesForSyncWeb
  else
    db <~ requireDb ;;
    mapAsync mapRowToNote
      (Js.sort (fun a b => NoteRow.updated_at a - NoteRow.updated_at b)
         (List.filter rowNeedsSync (Sqlite.notes db))).

Definition markAsSyncedWeb (noteId syncId : string) : Async unit :=
  notesJson <~ getNotesItem ;;
  let notes := default [] notesJson in
  match Js.findIndex (fun n => String.eqb (Note.id n) noteId) notes with
  | None => ret tt
  | Some noteIndex =>
      date <~ now ;;
      setNotesItem
        (updateAt noteIndex
           (fun n =>
              let f := Note.fields n in
              Note.mk (Note.id n) (Note.createdAt n) (Note.updatedAt n)
                (Note.deviceId n)
                (NoteInput.mk
                   (NoteInput.title f) (NoteInput.content f) (NoteInput.richContent f)
                   (NoteInput.type f) (NoteInput.completed f) (NoteInput.checklist f)
                   (NoteInput.tags f) (NoteInput.folderId f) (NoteInput.audioNotes f)
                   (NoteInput.priority f) (NoteInput.dueDate f)
                   (NoteInput.reminderDate f) (NoteInput.isStarred f)
                   (NoteInput.isPinned f) (NoteInput.isArchived f)
                   (Some syncId) (Some date)
                   (NoteInput.conflictVersion f) (NoteInput.isDeleted f)))
           notes)
  end.

(** [UPDATE notes SET sync_id = ?, last_sync_at = ? WHERE id = ?]. *)
Definition markAsSynced (noteId syncId : string) : Async unit :=
  web <~ isWeb ;;
  if web then markAsSyncedWeb noteId syncId
  else
    _ <~ requireDb ;;
    ms <~ now ;;
    updateRows noteId (fun r =>
      NoteRow.mk (NoteRow.id r) (NoteRow.title r) (NoteRow.content r)
        (NoteRow.rich_content r) (NoteRow.type r) (NoteRow.completed r)
        (NoteRow.tags r) (NoteRow.created_at r) (NoteRow.updated_at r)
        (Some syncId) (Some ms) (NoteRow.conflict_version r)
        (NoteRow.is_deleted r) (NoteRow.device_id r)).

Definition isOnline : Async bool :=
  fun w => (w, Ok (Env.online (World.env w))).

(** [metadata[key] || null], for a key that is no [Js.inheritedNames] member
    or that the object has as a property of its own. For an inherited name
    that the object does not own, the source returns the inherited member,
    which is no string; nothing here stands for that value, and the
    statements about the browser's metadata leave such keys out. *)
Definition getSyncMetadataWeb (key : string) : Async (option string) :=
  metadataJson <~ getMetadataItem ;;
  let value := default ∅ metadataJson !! key in
  ret (if Js.truthy value then value else None).

(** [SELECT value FROM sync_metadata WHERE key = ?]. *)
Definition getSyncMetadata (key : string) : Async (option string) :=
  web <~ isWeb ;;
  if web then getSyncMetadataWeb key
  else
    db <~ requireDb ;;
    ret (fst <$> Sqlite.sync_metadata db !! key).

(** [metadata[key] = value], then the object is written back. Assigning a
    string to [__proto__] leaves the object without such a property. *)
Definition setSyncMetadataWeb (key value : string) : Async unit :=
  metadataJson <~ getMetadataItem ;;
  let metadata := default ∅ metadataJson in
  setMetadataItem
    (if String.eqb key "__proto__" then metadata else <[key := value]> metadata).

(** [INSERT OR REPLACE INTO sync_metadata (key, value, updated_at)]. *)
Definition setSyncMetadata (key value : string) : Async unit :=
  web <~ isWeb ;;
  if web then setSyncMetadataWeb key value
  else
    db <~ requireDb ;;
    ms <~ now ;;
    putDb (Sqlite.mk (Sqlite.notes db) (Sqlite.checklist_items db)
                     (<[key := (value, ms)]> (Sqlite.sync_metadata db))).

(** [DELETE FROM notes WHERE id = ?], then the note's checklist items.
    There is no web branch: the method needs [this.db]. *)
Definition hardDeleteNote (id : string) : Async unit :=
  db <~ requireDb ;;
  putDb (Sqlite.mk
           (List.filter (fun r => negb (String.eqb (NoteRow.id r) id)) (Sqlite.notes db))
           (Sqlite.checklist_items db)
           (Sqlite.sync_metadata db)) ;;;
  deleteChecklistItems id.

(** Creates the two AsyncStorage entries that are missing. *)
Definition initializeWebStorage : Async unit :=
  existingNotes <~ getNotesItem ;;
  match existingNotes with
  | None => setNotesItem []
  | Some _ => ret tt
  end ;;;
  existingMetadata <~ getMetadataItem ;;
  match existingMetadata with
  | None => setMetadataItem ∅
  | Some _ => ret tt
  end.

End DatabaseService.

(** ** The remote collection (Firestore) *)

Module Firestore.

(** [orderBy('lastModified', 'desc')]: newest first, documents with the same
    [lastModified] by document id, descending as well. *)
Definition byLastModifiedDesc (a b : string * FirebaseNote.t) : Z :=
  if FirebaseNote.lastModified (snd a) =? FirebaseNote.lastModified (snd b)
  then match String.compare (fst b) (fst a) with
       | Lt => -1
       | Eq => 0
       | Gt => 1
       end
  else FirebaseNote.lastModified (snd b) - FirebaseNote.lastModified (snd a).

(** The documents a query on the collection [notes] returns:
    [where('lastModified', '>', since)] when [since] is given,
    [orderBy('lastModified', 'desc')], [limit(n)]. *)
Definition runQuery (since : option Z) (n : nat) (coll : gmap string FirebaseNote.t)
  : list FirebaseNote.t :=
  take n
    (map snd
       (Js.sort byLastModifiedDesc
          (List.filter
             (fun kv =>
                match since with
                | Some t => t <? FirebaseNote.lastModified (snd kv)
                | None => true
                end)
             (map_to_list coll)))).

(** [getDocs(q)]. *)
Definition getDocs (since : option Z) (n : nat) : Async (list FirebaseNote.t) :=
  _ <~ request ;;
  w <~ get ;;
  ret (runQuery since n (World.firestore w)).

(** [setDoc(doc(db, 'notes', key), data, { merge: true })], where [data]
    holds every field of the document except the server timestamp. *)
Definition setDoc (key : string) (data : Z → FirebaseNote.t) : Async unit :=
  stamp <~ request ;;
  modify (fun w => World.set_firestore (<[key := data stamp]> (World.firestore w)) w).

(** An entry of [snapshot.docChanges()]. *)
Inductive ChangeType := added | modified | removed.

Record DocumentChange := {
  change_type : ChangeType;
  change_doc : FirebaseNote.t
}.

End Firestore.

(** ** The sync engine ([src/hooks/firebase-sync-service.ts]) *)

Module FirebaseSyncService.

(** [JSON.stringify(note.tags)]. *)
Definition stringifyTags (tags : list string) : option (list Js.JsonToken) :=
  Some ([Js.TArrayOpen] ++ map Js.TString tags ++ [Js.TArrayClose])%list.

(** One property of an item as [JSON.stringify] writes it. *)
Definition stringifyProperty (item : ChecklistItem.t) (k : ItemKey.t)
  : list Js.JsonToken :=
  [Js.TKey (ItemKey.name k);
   match k with
   | ItemKey.id => Js.TString (ChecklistItem.id item)
   | ItemKey.text => Js.TString (ChecklistItem.text item)
   | ItemKey.completed => Js.TBool (ChecklistItem.completed item)
   | ItemKey.createdAt => Js.TIsoDate (ChecklistItem.createdAt item)
   end].

(** An item as [JSON.stringify] writes it: its properties in the order in
    which the object enumerates them. *)
Definition stringifyItem (item : ChecklistItem.t) : list Js.JsonToken :=
  ([Js.TObjectOpen]
   ++ concat (map (stringifyProperty item) (ChecklistItem.keys item))
   ++ [Js.TObjectClose])%list.

(** [JSON.stringify(note.checklist)]; [undefined] for a missing checklist. *)
Definition stringifyChecklist (checklist : option (list ChecklistItem.t))
  : option (list Js.JsonToken) :=
  match checklist with
  | None => None
  | Some items =>
      Some ([Js.TArrayOpen] ++ concat (map stringifyItem items) ++ [Js.TArrayClose])%list
  end.

(** [a !== b]. *)
Definition strictNe {A} `{EqDecision A} (a b : A) : bool :=
  negb (bool_decide (a = b)).

Definition setSyncInProgress (b : bool) (w : World.t) : World.t :=
  let s := World.sync w in
  World.set_sync
    (SyncState.mk (SyncState.db s) (SyncState.isInitialized s) b (SyncState.listeners s)) w.

(** A checklist item as the document holds it: [createdAt] becomes a
    [Timestamp], the properties stay as they are. The remote collection is
    taken to hand an entry back with its fields in the order in which they
    were written; a document written by other means may have them in any
    order. *)
Definition toFirebaseItem (item : ChecklistItem.t) : FirebaseChecklistItem.t :=
  {| FirebaseChecklistItem.id := ChecklistItem.id item;
     FirebaseChecklistItem.text := ChecklistItem.text item;
     FirebaseChecklistItem.completed := ChecklistItem.completed item;
     FirebaseChecklistItem.createdAt := Some (ChecklistItem.createdAt item);
     FirebaseChecklistItem.keys := ChecklistItem.keys item |}.

Definition uploadNote (n : Note.t) : Async unit :=
  w <~ get ;;
  if negb (SyncState.db (World.sync w)) then throw FirebaseNotInitialized
  else
    Firestore.setDoc (Js.or_else (NoteInput.syncId n) (Note.id n))
      (fun stamp =>
         {| FirebaseNote.id := Note.id n;
            FirebaseNote.title := NoteInput.title n;
            FirebaseNote.content := NoteInput.content n;
            FirebaseNote.richContent := Some (default [] (NoteInput.richContent n));
            FirebaseNote.type := NoteInput.type n;
            FirebaseNote.completed := Some (default false (NoteInput.completed n));
            FirebaseNote.checklist :=
              Some (map toFirebaseItem (default [] (NoteInput.checklist n)));
            FirebaseNote.tags := Some (NoteInput.tags n);
            FirebaseNote.createdAt := Some (Note.createdAt n);
            FirebaseNote.updatedAt := Some (Note.updatedAt n);
            FirebaseNote.isDeleted := Some (default false (NoteInput.isDeleted n));
            FirebaseNote.deviceId := Note.deviceId n;
            FirebaseNote.conflictVersion := Some (default 0 (NoteInput.conflictVersion n));
            FirebaseNote.lastModified := stamp |}).

(** [d?.toDate() || new Date()]. *)
Definition dateOrNow (d : option Z) : Async Z :=
  match d with
  | Some t => ret t
  | None => now
  end.

(** [{...item, createdAt: item.createdAt?.toDate() || new Date()}], the
    callback of [data.checklist?.map]. *)
Definition fromFirebaseItem (item : FirebaseChecklistItem.t) : Async ChecklistItem.t :=
  createdAt <~ dateOrNow (FirebaseChecklistItem.createdAt item) ;;
  ret {| ChecklistItem.id := FirebaseChecklistItem.id item;
         ChecklistItem.text := FirebaseChecklistItem.text item;
         ChecklistItem.completed := FirebaseChecklistItem.completed item;
         ChecklistItem.createdAt := createdAt;
         ChecklistItem.keys :=
           Js.assign ItemKey.createdAt (FirebaseChecklistItem.keys item) |}.

Definition mapFirebaseToNote (data : FirebaseNote.t) : Async Note.t :=
  checklist <~
    match FirebaseNote.checklist data with
    | None => ret None
    | Some items =>
        mapped <~ mapAsync fromFirebaseItem items ;;
        ret (Some mapped)
    end ;;
  createdAt <~ dateOrNow (FirebaseNote.createdAt data) ;;
  updatedAt <~ dateOrNow (FirebaseNote.updatedAt data) ;;
  lastSyncAt <~ now ;;
  ret {| Note.id := FirebaseNote.id data;
         Note.createdAt := createdAt;
         Note.updatedAt := updatedAt;
         Note.deviceId := FirebaseNote.deviceId data;
         Note.fields :=
           {| NoteInput.title := FirebaseNote.title data;
              NoteInput.content := FirebaseNote.content data;
              NoteInput.richContent := FirebaseNote.richContent data;
              NoteInput.type := FirebaseNote.type data;
              NoteInput.completed := FirebaseNote.completed data;
              NoteInput.checklist := checklist;
              NoteInput.tags := default [] (FirebaseNote.tags data);
              NoteInput.folderId := None;
              NoteInput.audioNotes := None;
              NoteInput.priority := None;
              NoteInput.dueDate := None;
              NoteInput.reminderDate := None;
              NoteInput.isStarred := None;
              NoteInput.isPinned := None;
              NoteInput.isArchived := None;
              NoteInput.syncId := Some (FirebaseNote.id data);
              NoteInput.lastSyncAt := Some lastSyncAt;
              NoteInput.conflictVersion :=
                Some (default 0 (FirebaseNote.conflictVersion data));
              NoteInput.isDeleted :=
                Some (default false (FirebaseNote.isDeleted data)) |} |}.

Definition saveRemoteNote (n : Note.t) : Async unit :=
  existingNote <~ DatabaseService.getNoteById (Note.id n) ;;
  match existingNote with
  | Some _ =>
      date <~ now ;;
      DatabaseService.updateNote (Note.id n)
        {| PartialNote.id := None;
           PartialNote.createdAt := None;
           PartialNote.updatedAt := None;
           PartialNote.deviceId := None;
           PartialNote.title := Some (NoteInput.title n);
           PartialNote.content := Some (NoteInput.content n);
           PartialNote.richContent := Some (NoteInput.richContent n);
           PartialNote.type := Some (NoteInput.type n);
           PartialNote.completed := Some (NoteInput.completed n);
           PartialNote.checklist := Some (NoteInput.checklist n);
           PartialNote.tags := Some (NoteInput.tags n);
           PartialNote.folderId := None;
           PartialNote.audioNotes := None;
           PartialNote.priority := None;
           PartialNote.dueDate := None;
           PartialNote.reminderDate := None;
           PartialNote.isStarred := None;
           PartialNote.isPinned := None;
           PartialNote.isArchived := None;
           PartialNote.syncId := Some (NoteInput.syncId n);
           PartialNote.lastSyncAt := Some (Some date);
           PartialNote.conflictVersion := None;
           PartialNote.isDeleted := Some (NoteInput.isDeleted n) |}
  | None =>
      date <~ now ;;
      _ <~ DatabaseService.saveNote
        {| NoteInput.title := NoteInput.title n;
           NoteInput.content := NoteInput.content n;
           NoteInput.richContent := NoteInput.richContent n;
           NoteInput.type := NoteInput.type n;
           NoteInput.completed := NoteInput.completed n;
           NoteInput.checklist := NoteInput.checklist n;
           NoteInput.tags := NoteInput.tags n;
           NoteInput.folderId := None;
           NoteInput.audioNotes := None;
           NoteInput.priority := None;
           NoteInput.dueDate := None;
           NoteInput.reminderDate := None;
           NoteInput.isStarred := None;
           NoteInput.isPinned := None;
           NoteInput.isArchived := None;
           NoteInput.syncId := NoteInput.syncId n;
           NoteInput.lastSyncAt := Some date;
           NoteInput.conflictVersion := None;
           NoteInput.isDeleted := NoteInput.isDeleted n |} ;;
      ret tt
  end.

Definition getConflictFields (local remote : Note.t) : list string :=
  ((if strictNe (NoteInput.title local) (NoteInput.title remote) then ["title"] else [])
  ++ (if strictNe (NoteInput.content local) (NoteInput.content remote)
      then ["content"] else [])
  ++ (if strictNe (NoteInput.completed local) (NoteInput.completed remote)
      then ["completed"] else [])
  ++ (if strictNe (stringifyTags (NoteInput.tags local))
                  (stringifyTags (NoteInput.tags remote))
      then ["tags"] else [])
  ++ (if strictNe (stringifyChecklist (NoteInput.checklist local))
                  (stringifyChecklist (NoteInput.checklist remote))
      then ["checklist"] else []))%list.

Definition resolveConflict (localNote remoteNote : Note.t)
  : Async (option SyncConflict.t) :=
  if Note.updatedAt localNote <? Note.updatedAt remoteNote then
    saveRemoteNote remoteNote ;;;
    ret None
  else if Note.updatedAt remoteNote <? Note.updatedAt localNote then
    uploadNote localNote ;;;
    ret None
  else
    let conflictFields := getConflictFields localNote remoteNote in
    if (0 <? length conflictFields)%nat then
      ret (Some {| SyncConflict.noteId := Note.id localNote;
                   SyncConflict.localVersion := localNote;
                   SyncConflict.remoteVersion := remoteNote;
                   SyncConflict.conflictFields := conflictFields |})
    else ret None.

(** The body of the loop over [snapshot.docs] in [downloadRemoteChanges]. *)
Definition downloadRemoteChange (data : FirebaseNote.t)
  : Async (option SyncConflict.t) :=
  remoteNote <~ mapFirebaseToNote data ;;
  localNote <~ DatabaseService.getNoteById (Note.id remoteNote) ;;
  match localNote with
  | None =>
      saveRemoteNote remoteNote ;;;
      ret None
  | Some localNote =>
      if negb (Note.updatedAt localNote =? Note.updatedAt remoteNote)
      then resolveConflict localNote remoteNote
      else ret None
  end.

(** The loop itself, collecting the conflicts in order. *)
Fixpoint downloadEach (docs : list FirebaseNote.t) : Async (list SyncConflict.t) :=
  match docs with
  | [] => ret []
  | data :: rest =>
      conflict <~ downloadRemoteChange data ;;
      conflicts <~ downloadEach rest ;;
      ret (match conflict with
           | Some c => c :: conflicts
           | None => conflicts
           end)
  end.

(** A stored watermark that [parseInt] cannot read gives an invalid [Date],
    which [Timestamp.fromDate] rejects; the watermarks this service writes
    are decimal numbers. *)
Definition downloadRemoteChanges : Async (list SyncConflict.t) :=
  w <~ get ;;
  if negb (SyncState.db (World.sync w)) then ret []
  else
    lastSyncTime <~ DatabaseService.getSyncMetadata "last_sync_time" ;;
    since <~
      (if Js.truthy lastSyncTime
       then match Js.parseInt (default "" lastSyncTime) with
            | Some t => ret (Some t)
            | None => throw InvalidDate
            end
       else ret None) ;;
    docs <~ Firestore.getDocs since 100 ;;
    conflicts <~ downloadEach docs ;;
    ms <~ now ;;
    DatabaseService.setSyncMetadata "last_sync_time" (pretty ms) ;;;
    ret conflicts.

(** The value [syncNotes] resolves to. *)
Record SyncResult := {
  success : bool;
  conflicts : list SyncConflict.t
}.

Definition syncNotes : Async SyncResult :=
  w <~ get ;;
  if negb (SyncState.isInitialized (World.sync w))
     || SyncState.syncInProgress (World.sync w)
  then ret {| success := false; conflicts := [] |}
  else
    isOnline <~ DatabaseService.isOnline ;;
    if negb isOnline then ret {| success := false; conflicts := [] |}
    else
      modify (setSyncInProgress true) ;;;
      finally
        (try_catch
           (localNotes <~ DatabaseService.getNotesForSync ;;
            forEach localNotes (fun n =>
              try_catch
                (uploadNote n ;;;
                 DatabaseService.markAsSynced (Note.id n)
                   (Js.or_else (NoteInput.syncId n) (Note.id n)))
                (fun _ => ret tt)) ;;;
            remoteConflicts <~ downloadRemoteChanges ;;
            ret {| success := true; conflicts := remoteConflicts |})
           (fun _ => ret {| success := false; conflicts := [] |}))
        (setSyncInProgress false).

(** [syncNotes] is an [async] function: it runs without interruption from
    one [await] to the next, and other calls run in between. A call of it is
    here cut at its first two [await]s, the ones on either side of the line
    that raises [syncInProgress]; the promise awaited is taken to hold what
    the callee finds when it is called. *)
Inductive SyncCall :=
| AwaitsIsOnline (isOnline : bool)
| AwaitsNotesForSync (localNotes : Result (list Note.t))
| Settled (result : SyncResult).

(** From the call to [await databaseService.isOnline()]. *)
Definition syncNotes_called : Async SyncCall :=
  w <~ get ;;
  if negb (SyncState.isInitialized (World.sync w))
     || SyncState.syncInProgress (World.sync w)
  then ret (Settled {| success := false; conflicts := [] |})
  else
    isOnline <~ DatabaseService.isOnline ;;
    ret (AwaitsIsOnline isOnline).

(** The call resumed: from [await databaseService.isOnline()] to
    [await databaseService.getNotesForSync()], and from there to the end. *)
Definition syncNotes_resumed (call : SyncCall) : Async SyncCall :=
  match call with
  | AwaitsIsOnline isOnline =>
      if negb isOnline then ret (Settled {| success := false; conflicts := [] |})
      else
        modify (setSyncInProgress true) ;;;
        fun w =>
          let (w', localNotes) := DatabaseService.getNotesForSync w in
          (w', Ok (AwaitsNotesForSync localNotes))
  | AwaitsNotesForSync pending =>
      result <~
        finally
          (try_catch
             (localNotes <~ (fun w => (w, pending)) ;;
              forEach localNotes (fun n =>
                try_catch
                  (uploadNote n ;;;
                   DatabaseService.markAsSynced (Note.id n)
                     (Js.or_else (NoteInput.syncId n) (Note.id n)))
                  (fun _ => ret tt)) ;;;
              remoteConflicts <~ downloadRemoteChanges ;;
              ret {| success := true; conflicts := remoteConflicts |})
             (fun _ => ret {| success := false; conflicts := [] |}))
          (setSyncInProgress false) ;;
      ret (Settled result)
  | Settled result => ret (Settled result)
  end.

(** The callback that [startRealtimeSync] hands to [onSnapshot], for one
    entry of [snapshot.docChanges()]. *)
Definition realtimeChange (onUpdate : Async unit) (change : Firestore.DocumentChange)
  : Async unit :=
  match Firestore.change_type change with
  | Firestore.removed => ret tt
  | _ =>
      remoteNote <~ mapFirebaseToNote (Firestore.change_doc change) ;;
      localNote <~ DatabaseService.getNoteById (Note.id remoteNote) ;;
      if match localNote with
         | None => true
         | Some localNote => Note.updatedAt localNote <? Note.updatedAt remoteNote
         end
      then saveRemoteNote remoteNote ;;; onUpdate
      else ret tt
  end.

(** The whole callback. *)
Definition onSnapshotCallback (onUpdate : Async unit)
  (changes : list Firestore.DocumentChange) : Async unit :=
  forEach changes (realtimeChange onUpdate).

(** [startRealtimeSync]: registers the callback when the service is
    initialised and the device is online. *)
Definition startRealtimeSync : Async unit :=
  w <~ get ;;
  if negb (SyncState.isInitialized (World.sync w)) || negb (SyncState.db (World.sync w))
  then ret tt
  else
    isOnline <~ DatabaseService.isOnline ;;
    if negb isOnline then ret tt
    else
      modify (fun w =>
        let s := World.sync w in
        World.set_sync
          (SyncState.mk (SyncState.db s) (SyncState.isInitialized s)
                        (SyncState.syncInProgress s) (S (SyncState.listeners s))) w).

Definition resolveConflictManually (conflict : SyncConflict.t) (useLocal : bool)
  : Async unit :=
  let noteToKeep :=
    if useLocal then SyncConflict.localVersion conflict
    else SyncConflict.remoteVersion conflict in
  DatabaseService.updateNote (SyncConflict.noteId conflict)
    {| PartialNote.id := None;
       PartialNote.createdAt := None;
       PartialNote.updatedAt := None;
       PartialNote.deviceId := None;
       PartialNote.title := Some (NoteInput.title noteToKeep);
       PartialNote.content := Some (NoteInput.content noteToKeep);
       PartialNote.richContent := Some (NoteInput.richContent noteToKeep);
       PartialNote.type := None;
       PartialNote.completed := Some (NoteInput.completed noteToKeep);
       PartialNote.checklist := Some (NoteInput.checklist noteToKeep);
       PartialNote.tags := Some (NoteInput.tags noteToKeep);
       PartialNote.folderId := None;
       PartialNote.audioNotes := None;
       PartialNote.priority := None;
       PartialNote.dueDate := None;
       PartialNote.reminderDate := None;
       PartialNote.isStarred := None;
       PartialNote.isPinned := None;
       PartialNote.isArchived := None;
       PartialNote.syncId := None;
       PartialNote.lastSyncAt := None;
       PartialNote.conflictVersion :=
         Some (Some (default 0 (NoteInput.conflictVersion noteToKeep) + 1));
       PartialNote.isDeleted := None |} ;;;
  w <~ get ;;
  if SyncState.isInitialized (World.sync w) then uploadNote noteToKeep else ret tt.

End FirebaseSyncService.

(** ** The sync status aggregator ([src/hooks/notes-store.ts]) *)

Module NotesStore.

(** The React state of the provider that the sync code touches; [timers]
    counts the pending [setTimeout(addDemoData, 1000)] calls. *)
Record State := {
  notes : list Note.t;
  isLoading : bool;
  syncStatus : SyncStatus.t;
  timers : nat
}.

Definition setSyncStatus (f : SyncStatus.t → SyncStatus.t) (s : State) : State :=
  {| notes := notes s;
     isLoading := isLoading s;
     syncStatus := f (syncStatus s);
     timers := timers s |}.

Definition setIsLoading (b : bool) (s : State) : State :=
  {| notes := notes s; isLoading := b; syncStatus := syncStatus s; timers := timers s |}.

Definition loadNotes (s : State) (w : World.t) : State * World.t :=
  let '(s', w') :=
    match DatabaseService.getAllNotes w with
    | (w1, Throw _) => (s, w1)
    | (w1, Ok loadedNotes) =>
        let s1 :=
          {| notes := loadedNotes; isLoading := isLoading s;
             syncStatus := syncStatus s; timers := timers s |} in
        match DatabaseService.isOnline w1 with
        | (w2, Throw _) => (s1, w2)
        | (w2, Ok isOnline) =>
            match DatabaseService.getNotesForSync w2 with
            | (w3, Throw _) => (s1, w3)
            | (w3, Ok pendingNotes) =>
                let s2 :=
                  setSyncStatus (fun prev =>
                    {| SyncStatus.isOnline := isOnline;
                       SyncStatus.isSyncing := SyncStatus.isSyncing prev;
                       SyncStatus.lastSyncAt := SyncStatus.lastSyncAt prev;
                       SyncStatus.pendingChanges := Z.of_nat (length pendingNotes);
                       SyncStatus.conflicts := SyncStatus.conflicts prev |}) s1 in
                (match loadedNotes with
                 | [] => {| notes := notes s2; isLoading := isLoading s2;
                            syncStatus := syncStatus s2; timers := S (timers s2) |}
                 | _ :: _ => s2
                 end, w3)
            end
        end
    end in
  (setIsLoading false s', w').

Definition setIsSyncing (b : bool) (prev : SyncStatus.t) : SyncStatus.t :=
  {| SyncStatus.isOnline := SyncStatus.isOnline prev;
     SyncStatus.isSyncing := b;
     SyncStatus.lastSyncAt := SyncStatus.lastSyncAt prev;
     SyncStatus.pendingChanges := SyncStatus.pendingChanges prev;
     SyncStatus.conflicts := SyncStatus.conflicts prev |}.

Definition performSync (s : State) (w : World.t) : State * World.t :=
  let s0 := setSyncStatus (setIsSyncing true) s in
  let '(s', w') :=
    match FirebaseSyncService.syncNotes w with
    | (w1, Throw _) => (s0, w1)
    | (w1, Ok result) =>
        if FirebaseSyncService.success result then
          let '(s1, w2) := loadNotes s0 w1 in
          match now w2 with
          | (w3, Throw _) => (s1, w3)
          | (w3, Ok date) =>
              (setSyncStatus (fun prev =>
                 {| SyncStatus.isOnline := SyncStatus.isOnline prev;
                    SyncStatus.isSyncing := SyncStatus.isSyncing prev;
                    SyncStatus.lastSyncAt := Some date;
                    SyncStatus.pendingChanges := 0;
                    SyncStatus.conflicts := FirebaseSyncService.conflicts result |}) s1,
               w3)
          end
        else (s0, w1)
    end in
  (setSyncStatus (setIsSyncing false) s', w').

(** [resolveConflict], exposed to the UI. *)
Definition resolveConflict (conflict : SyncConflict.t) (useLocal : bool)
  (s : State) (w : World.t) : State * World.t :=
  match FirebaseSyncService.resolveConflictManually conflict useLocal w with
  | (w1, Throw _) => (s, w1)
  | (w1, Ok _) =>
      loadNotes
        (setSyncStatus (fun prev =>
           {| SyncStatus.isOnline := SyncStatus.isOnline prev;
              SyncStatus.isSyncing := SyncStatus.isSyncing prev;
              SyncStatus.lastSyncAt := SyncStatus.lastSyncAt prev;
              SyncStatus.pendingChanges := SyncStatus.pendingChanges prev;
              SyncStatus.conflicts :=
                List.filter
                  (fun c => negb (String.eqb (SyncConflict.noteId c)
                                             (SyncConflict.noteId conflict)))
                  (SyncStatus.conflicts prev) |}) s)
        w1
  end.

Definition manualSync : State → World.t → State * World.t := performSync.

(** The state of a provider that has just been mounted: the arguments of its
    [useState] calls. *)
Definition initial : State :=
  {| notes := [];
     isLoading := true;
     syncStatus :=
       {| SyncStatus.isOnline := false; SyncStatus.isSyncing := false;
          SyncStatus.lastSyncAt := None; SyncStatus.pendingChanges := 0;
          SyncStatus.conflicts := [] |};
     timers := 0 |}.

(** The states the provider goes through. [setSyncStatus] is called by
    [loadNotes], [performSync] and [resolveConflict] only, each run in
    whatever state the device is in at the time; everything else the
    provider does leaves [syncStatus] alone. *)
Inductive reachable : State → Prop :=
| reachable_initial : reachable initial
| reachable_loadNotes s w :
    reachable s → reachable (fst (loadNotes s w))
| reachable_performSync s w :
    reachable s → reachable (fst (performSync s w))
| reachable_resolveConflict conflict useLocal s w :
    reachable s → reachable (fst (resolveConflict conflict useLocal s w))
| reachable_other s notes' isLoading' timers' :
    reachable s →
    reachable {| notes := notes'; isLoading := isLoading';
                 syncStatus := syncStatus s; timers := timers' |}.

(** The value of [useNotesStats]. *)
Record Stats := {
  totalNotes : nat;
  totalTasks : nat;
  completedTasks : nat;
  pendingTasks : Z
}.

Definition isType (t : NoteType) (n : Note.t) : bool :=
  bool_decide (NoteInput.type n = t).

Definition useNotesStats (allNotes : list Note.t) : Stats :=
  let totalNotes := length (List.filter (isType note) allNotes) in
  let totalTasks := length (List.filter (isType task) allNotes) in
  let completedTasks :=
    length (List.filter
              (fun n => isType task n && default false (NoteInput.completed n))
              allNotes) in
  {| totalNotes := totalNotes;
     totalTasks := totalTasks;
     completedTasks := completedTasks;
     pendingTasks := Z.of_nat totalTasks - Z.of_nat completedTasks |}.

End NotesStore.

(** ** Observations used in the statements *)

Module Spec.

(** The notes the local store holds, tombstones included, in storage order:
    the AsyncStorage array on web, the rows of [notes] on native. *)
Definition storedNotes (w : World.t) : list Note.t :=
  if DatabaseState.isWeb (World.database w)
  then default [] (AsyncStorage.notes_storage (World.storage w))
  else match DatabaseState.db (World.database w) with
       | Some db =>
           map (fun r => DatabaseService.noteOfRow r
                           (DatabaseService.selectChecklistItems db (NoteRow.id r)))
               (Sqlite.notes db)
       | None => []
       end.

(** The rows of the SQLite table [notes]. *)
Definition noteRows (w : World.t) : list NoteRow.t :=
  match DatabaseState.db (World.database w) with
  | Some db => Sqlite.notes db
  | None => []
  end.

(** The fields of a note for which the table [notes] has no column. *)
Definition unstoredFieldsMissing (n : Note.t) : Prop :=
  NoteInput.folderId n = None ∧ NoteInput.audioNotes n = None
  ∧ NoteInput.priority n = None ∧ NoteInput.dueDate n = None
  ∧ NoteInput.reminderDate n = None ∧ NoteInput.isStarred n = None
  ∧ NoteInput.isPinned n = None ∧ NoteInput.isArchived n = None.

(** The rows of the SQLite table [checklist_items]. *)
Definition checklistRows (w : World.t) : list ChecklistRow.t :=
  match DatabaseState.db (World.database w) with
  | Some db => Sqlite.checklist_items db
  | None => []
  end.

(** The device clock's next reading. *)
Definition clockReading (w : World.t) (k : nat) : Z :=
  Env.clock (World.env w) (Env.ticks (World.env w) + k).

(** The content fields the conflict resolver compares. *)
Inductive ContentField := Title | Content | Completed | Tags | Checklist.



(** What a note's checklist holds, whatever the order in which its items
    enumerate their properties. *)
Definition checklistValue (n : Note.t) : option (list (string * string * bool * Z)) :=
  map ChecklistItem.value <$> NoteInput.checklist n.

(** Two notes differ in a content field, by deep value equality. *)
Definition differs (f : ContentField) (a b : Note.t) : Prop :=
  match f with
  | Title => NoteInput.title a ≠ NoteInput.title b
  | Content => NoteInput.content a ≠ NoteInput.content b
  | Completed => NoteInput.completed a ≠ NoteInput.completed b
  | Tags => NoteInput.tags a ≠ NoteInput.tags b
  | Checklist => checklistValue a ≠ checklistValue b
  end.

Global Instance differs_dec f a b : Decision (differs f a b).
Proof. destruct f; simpl; apply _. Defined.



(** The order in which the items of a note's checklist enumerate their
    properties. *)
Definition checklistKeys (n : Note.t) : option (list (list ItemKey.t)) :=
  map ChecklistItem.keys <$> NoteInput.checklist n.


(** Two notes differ in a content field as [getConflictFields] sees it: a
    checklist differs when what it holds differs or when an item has its
    properties in another order. *)
Definition differsInText (f : ContentField) (a b : Note.t) : Prop :=
  match f with
  | Checklist => checklistValue a ≠ checklistValue b ∨ checklistKeys a ≠ checklistKeys b
  | _ => differs f a b
  end.

Global Instance differsInText_dec f a b : Decision (differsInText f a b).
Proof. destruct f; simpl; apply _. Defined.


(** [{...item, createdAt: item.createdAt}]: the item after a round trip
    through the remote collection. *)
Definition respread (item : ChecklistItem.t) : ChecklistItem.t :=
  {| ChecklistItem.id := ChecklistItem.id item;
     ChecklistItem.text := ChecklistItem.text item;
     ChecklistItem.completed := ChecklistItem.completed item;
     ChecklistItem.createdAt := ChecklistItem.createdAt item;
     ChecklistItem.keys := Js.assign ItemKey.createdAt (ChecklistItem.keys item) |}.

(** A checklist item as a native device reads it back: the same values, the
    properties in the order of the literal in [getChecklistItems]. *)
Definition rebuilt (item : ChecklistItem.t) : ChecklistItem.t :=
  {| ChecklistItem.id := ChecklistItem.id item;
     ChecklistItem.text := ChecklistItem.text item;
     ChecklistItem.completed := ChecklistItem.completed item;
     ChecklistItem.createdAt := ChecklistItem.createdAt item;
     ChecklistItem.keys := ItemKey.all |}.

(** [u.f !== undefined ? u.f : undefined] for an optional field. *)
Definition defined {A} (x : option (option A)) : option A :=
  match x with
  | Some (Some v) => Some v
  | _ => None
  end.

(** Two updates carry the same [title], [content], [richContent], [type],
    [completed], [tags] and [checklist]. *)
Definition sameContentUpdates (u u' : PartialNote.t) : Prop :=
  PartialNote.title u = PartialNote.title u'
  ∧ PartialNote.content u = PartialNote.content u'
  ∧ defined (PartialNote.richContent u) = defined (PartialNote.richContent u')
  ∧ PartialNote.type u = PartialNote.type u'
  ∧ defined (PartialNote.completed u) = defined (PartialNote.completed u')
  ∧ PartialNote.tags u = PartialNote.tags u'
  ∧ defined (PartialNote.checklist u) = defined (PartialNote.checklist u').

(** What the checklist statements leave alone: everything but the table
    [checklist_items]. *)
Definition outsideChecklist (w : World.t)
  : option (list NoteRow.t * gmap string (string * Z))
    * option string * bool * AsyncStorage.t * SyncState.t
    * gmap string FirebaseNote.t * Env.t :=
  ((fun d => (Sqlite.notes d, Sqlite.sync_metadata d))
     <$> DatabaseState.db (World.database w),
   DatabaseState.deviceId (World.database w),
   DatabaseState.isWeb (World.database w),
   World.storage w, World.sync w, World.firestore w, World.env w).

(** The note stored for a remote note that is absent locally: [pullTime],
    [insertTime] and [idTime] are three successive clock readings, [suffix]
    the random suffix drawn for the id. *)
Definition insertedNote (remote : Note.t) (deviceId : string)
  (pullTime insertTime idTime : Z) (suffix : string) : Note.t :=
  {| Note.id := "note_" +:+ pretty idTime +:+ "_" +:+ suffix;
     Note.createdAt := insertTime;
     Note.updatedAt := insertTime;
     Note.deviceId := deviceId;
     Note.fields :=
       {| NoteInput.title := NoteInput.title remote;
          NoteInput.content := NoteInput.content remote;
          NoteInput.richContent := NoteInput.richContent remote;
          NoteInput.type := NoteInput.type remote;
          NoteInput.completed := NoteInput.completed remote;
          NoteInput.checklist := NoteInput.checklist remote;
          NoteInput.tags := NoteInput.tags remote;
          NoteInput.folderId := None;
          NoteInput.audioNotes := None;
          NoteInput.priority := None;
          NoteInput.dueDate := None;
          NoteInput.reminderDate := None;
          NoteInput.isStarred := None;
          NoteInput.isPinned := None;
          NoteInput.isArchived := None;
          NoteInput.syncId := NoteInput.syncId remote;
          NoteInput.lastSyncAt := Some pullTime;
          NoteInput.conflictVersion := None;
          NoteInput.isDeleted := NoteInput.isDeleted remote |} |}.

(** "The pulled note is stored under the remote copy's [id], [createdAt]
    and [updatedAt]." *)
Definition insertedVerbatim (data : FirebaseNote.t) (w : World.t) : Prop :=
  ∃ n, n ∈ storedNotes (fst (FirebaseSyncService.downloadRemoteChange data w))
       ∧ Note.id n = FirebaseNote.id data
       ∧ Some (Note.createdAt n) = FirebaseNote.createdAt data
       ∧ Some (Note.updatedAt n) = FirebaseNote.updatedAt data.

(** The pull watermark, as [getSyncMetadata] reads it. *)
Definition watermark (w : World.t) : Result (option string) :=
  snd (DatabaseService.getSyncMetadata "last_sync_time" w).

(** The documents the pull of [downloadRemoteChanges] fetches in [w]. *)
Definition pulledDocs (w : World.t) : list FirebaseNote.t :=
  Firestore.runQuery
    (match watermark w with
     | Ok (Some s) => Js.parseInt s
     | _ => None
     end)
    100 (World.firestore w).

(** The latest remote modification time among some documents. *)
Definition maxLastModified (docs : list FirebaseNote.t) : option Z :=
  foldr (fun d acc =>
           Some (match acc with
                 | Some m => Z.max m (FirebaseNote.lastModified d)
                 | None => FirebaseNote.lastModified d
                 end))
        None docs.

(** "After the pull the watermark is the latest remote modification time
    among the pulled notes." *)
Definition watermarkIsMaxPulled (w : World.t) : Prop :=
  ∀ m, maxLastModified (pulledDocs w) = Some m →
       watermark (fst (FirebaseSyncService.downloadRemoteChanges w))
       = Ok (Some (pretty m)).

(** The conflicts a step of the pull reports. *)
Definition reported (r : Result (option SyncConflict.t)) : list SyncConflict.t :=
  match r with
  | Ok (Some c) => [c]
  | _ => []
  end.

(** An outcome with its value dropped. *)
Definition discard {A} (r : Result A) : Result unit :=
  match r with
  | Ok _ => Ok tt
  | Throw e => Throw e
  end.

(** "For every local state and incoming remote note, the realtime handler
    and the periodic pull's per-note step produce the same resulting local
    state and the same conflicts"; the handler itself reports none. *)
Definition sameLocalStateAndConflicts (onUpdate : Async unit)
  (change : Firestore.DocumentChange) (w : World.t) : Prop :=
  World.local (fst (FirebaseSyncService.realtimeChange onUpdate change w))
  = World.local
      (fst (FirebaseSyncService.downloadRemoteChange (Firestore.change_doc change) w))
  ∧ reported
      (snd (FirebaseSyncService.downloadRemoteChange (Firestore.change_doc change) w))
    = [].

(** "The realtime listener feeds every incoming remote change through the
    identical per-note resolution path as the periodic pull": besides the
    above, it leaves the remote collection as that step does and fails when
    that step fails. *)
Definition identicalResolutionPath (onUpdate : Async unit)
  (change : Firestore.DocumentChange) (w : World.t) : Prop :=
  sameLocalStateAndConflicts onUpdate change w
  ∧ World.firestore (fst (FirebaseSyncService.realtimeChange onUpdate change w))
    = World.firestore
        (fst (FirebaseSyncService.downloadRemoteChange (Firestore.change_doc change) w))
  ∧ snd (FirebaseSyncService.realtimeChange onUpdate change w)
    = discard
        (snd (FirebaseSyncService.downloadRemoteChange (Firestore.change_doc change) w)).

(** The stored note that is newer than the incoming document, with the
    state in which it was read, when there is one. *)
Definition localIsNewer (data : FirebaseNote.t) (w : World.t)
  : option (World.t * Note.t) :=
  match FirebaseSyncService.mapFirebaseToNote data w with
  | (w1, Ok remoteNote) =>
      match DatabaseService.getNoteById (Note.id remoteNote) w1 with
      | (w2, Ok (Some localNote)) =>
          if Note.updatedAt remoteNote <? Note.updatedAt localNote
          then Some (w2, localNote)
          else None
      | _ => None
      end
  | _ => None
  end.

(** A list is in ascending order of a key. *)
Definition ascendingBy {A} (key : A → Z) (l : list A) : Prop :=
  StronglySorted (fun a b => key a <= key b) l.

(** A list is in descending order of a key. *)
Definition descendingBy {A} (key : A → Z) (l : list A) : Prop :=
  StronglySorted (fun a b => key b <= key a) l.

(** [n] with its sync bookkeeping replaced. *)
Definition withSync (syncId : option string) (lastSyncAt : option Z) (n : Note.t)
  : Note.t :=
  let f := Note.fields n in
  Note.mk (Note.id n) (Note.createdAt n) (Note.updatedAt n) (Note.deviceId n)
    (NoteInput.mk
       (NoteInput.title f) (NoteInput.content f) (NoteInput.richContent f)
       (NoteInput.type f) (NoteInput.completed f) (NoteInput.checklist f)
       (NoteInput.tags f) (NoteInput.folderId f) (NoteInput.audioNotes f)
       (NoteInput.priority f) (NoteInput.dueDate f) (NoteInput.reminderDate f)
       (NoteInput.isStarred f) (NoteInput.isPinned f) (NoteInput.isArchived f)
       syncId lastSyncAt
       (NoteInput.conflictVersion f) (NoteInput.isDeleted f)).

(** The note that comes back from the remote collection for an uploaded
    note [n], read at [readAt]. *)
Definition downloaded (n : Note.t) (readAt : Z) : Note.t :=
  {| Note.id := Note.id n;
     Note.createdAt := Note.createdAt n;
     Note.updatedAt := Note.updatedAt n;
     Note.deviceId := Note.deviceId n;
     Note.fields :=
       {| NoteInput.title := NoteInput.title n;
          NoteInput.content := NoteInput.content n;
          NoteInput.richContent := Some (default [] (NoteInput.richContent n));
          NoteInput.type := NoteInput.type n;
          NoteInput.completed := Some (default false (NoteInput.completed n));
          NoteInput.checklist :=
            Some (map respread (default [] (NoteInput.checklist n)));
          NoteInput.tags := NoteInput.tags n;
          NoteInput.folderId := None;
          NoteInput.audioNotes := None;
          NoteInput.priority := None;
          NoteInput.dueDate := None;
          NoteInput.reminderDate := None;
          NoteInput.isStarred := None;
          NoteInput.isPinned := None;
          NoteInput.isArchived := None;
          NoteInput.syncId := Some (Note.id n);
          NoteInput.lastSyncAt := Some readAt;
          NoteInput.conflictVersion := Some (default 0 (NoteInput.conflictVersion n));
          NoteInput.isDeleted := Some (default false (NoteInput.isDeleted n)) |} |}.

(** The body of the upload loop of [syncNotes] for one dirty note. *)
Definition pushNote (n : Note.t) : Async unit :=
  try_catch
    (bind (FirebaseSyncService.uploadNote n)
       (fun _ => DatabaseService.markAsSynced (Note.id n)
                   (Js.or_else (NoteInput.syncId n) (Note.id n))))
    (fun _ => ret tt).

End Spec.

(** ** Sample data *)

Module Sample.

(** A device clock that ticks one millisecond per reading, from 5000. *)
Definition clock (k : nat) : Z :=
  nth k [5000; 5001; 5002; 5003; 5004; 5005; 5006; 5007; 5008; 5009] 5010.

Definition env : Env.t :=
  {| Env.clock := clock;
     Env.ticks := 0;
     Env.random := fun k => match k with O => "r0" | _ => "r1" end;
     Env.draws := 0;
     Env.network := fun _ => true;
     Env.serverTime := fun k => nth k [9000; 9001; 9002; 9003] 9004;
     Env.requests := 0;
     Env.online := true |}.

(** The sync service after a successful [initialize]. *)
Definition ready : SyncState.t :=
  {| SyncState.db := true;
     SyncState.isInitialized := true;
     SyncState.syncInProgress := false;
     SyncState.listeners := 0 |}.

(** A native device holding the given rows. *)
Definition native (rows : list NoteRow.t) (remote : gmap string FirebaseNote.t)
  : World.t :=
  {| World.database :=
       {| DatabaseState.db := Some (Sqlite.mk rows [] ∅);
          DatabaseState.deviceId := Some "devA";
          DatabaseState.isWeb := false |};
     World.storage := AsyncStorage.mk None None;
     World.sync := ready;
     World.firestore := remote;
     World.env := env |}.

(** A browser holding the given notes. *)
Definition web (notes : list Note.t) (remote : gmap string FirebaseNote.t)
  : World.t :=
  {| World.database :=
       {| DatabaseState.db := None;
          DatabaseState.deviceId := Some "devA";
          DatabaseState.isWeb := true |};
     World.storage := AsyncStorage.mk (Some notes) (Some ∅);
     World.sync := ready;
     World.firestore := remote;
     World.env := env |}.

Definition fields (title : string) (lastSyncAt : option Z) : NoteInput.t :=
  {| NoteInput.title := title;
     NoteInput.content := "body";
     NoteInput.richContent := Some [];
     NoteInput.type := note;
     NoteInput.completed := Some false;
     NoteInput.checklist := None;
     NoteInput.tags := ["home"];
     NoteInput.folderId := None;
     NoteInput.audioNotes := None;
     NoteInput.priority := None;
     NoteInput.dueDate := None;
     NoteInput.reminderDate := None;
     NoteInput.isStarred := None;
     NoteInput.isPinned := None;
     NoteInput.isArchived := None;
     NoteInput.syncId := Some "n1";
     NoteInput.lastSyncAt := lastSyncAt;
     NoteInput.conflictVersion := Some 0;
     NoteInput.isDeleted := Some false |}.

(** Note [n1] as device A holds it: written at 100, synced at 150. *)
Definition localNote : Note.t :=
  {| Note.id := "n1"; Note.createdAt := 10; Note.updatedAt := 100;
     Note.deviceId := "devA"; Note.fields := fields "old" (Some 150) |}.

(** A remote revision with the timestamp of [localNote] and another title. *)
Definition tiedNote : Note.t :=
  {| Note.id := "n1"; Note.createdAt := 10; Note.updatedAt := 100;
     Note.deviceId := "devB"; Note.fields := fields "new" (Some 5000) |}.

Definition localRow : NoteRow.t :=
  {| NoteRow.id := "n1"; NoteRow.title := "old"; NoteRow.content := "body";
     NoteRow.rich_content := Some []; NoteRow.type := note;
     NoteRow.completed := false; NoteRow.tags := ["home"];
     NoteRow.created_at := 10; NoteRow.updated_at := 100;
     NoteRow.sync_id := Some "n1"; NoteRow.last_sync_at := Some 150;
     NoteRow.conflict_version := 0; NoteRow.is_deleted := false;
     NoteRow.device_id := "devA" |}.

(** The remote document of [n1], last written by device B. *)
Definition remoteDoc (updatedAt lastModified : Z) : FirebaseNote.t :=
  {| FirebaseNote.id := "n1"; FirebaseNote.title := "new";
     FirebaseNote.content := "body"; FirebaseNote.richContent := Some [];
     FirebaseNote.type := note; FirebaseNote.completed := Some false;
     FirebaseNote.checklist := Some []; FirebaseNote.tags := Some ["home"];
     FirebaseNote.createdAt := Some 10; FirebaseNote.updatedAt := Some updatedAt;
     FirebaseNote.isDeleted := Some false; FirebaseNote.deviceId := "devB";
     FirebaseNote.conflictVersion := Some 0;
     FirebaseNote.lastModified := lastModified |}.

(** The remote document of [n1] as device A uploaded it at 120. *)
Definition syncedDoc : FirebaseNote.t :=
  {| FirebaseNote.id := "n1"; FirebaseNote.title := "old";
     FirebaseNote.content := "body"; FirebaseNote.richContent := Some [];
     FirebaseNote.type := note; FirebaseNote.completed := Some false;
     FirebaseNote.checklist := Some []; FirebaseNote.tags := Some ["home"];
     FirebaseNote.createdAt := Some 10; FirebaseNote.updatedAt := Some 100;
     FirebaseNote.isDeleted := Some false; FirebaseNote.deviceId := "devA";
     FirebaseNote.conflictVersion := Some 0;
     FirebaseNote.lastModified := 120 |}.

(** The remote document of another note, stamped 9000 by the server. *)
Definition laterDoc : FirebaseNote.t :=
  {| FirebaseNote.id := "n3"; FirebaseNote.title := "later";
     FirebaseNote.content := "body"; FirebaseNote.richContent := Some [];
     FirebaseNote.type := note; FirebaseNote.completed := Some false;
     FirebaseNote.checklist := Some []; FirebaseNote.tags := Some [];
     FirebaseNote.createdAt := Some 30; FirebaseNote.updatedAt := Some 400;
     FirebaseNote.isDeleted := Some false; FirebaseNote.deviceId := "devB";
     FirebaseNote.conflictVersion := Some 0;
     FirebaseNote.lastModified := 9000 |}.

(** A fresh native device; the remote holds [n1], stamped 300 by the server. *)
Definition freshDevice : World.t :=
  native [] {[ "n1" := remoteDoc 200 300 ]}.

(** [n1] as [mapFirebaseToNote] reads it from that document at 5000. *)
Definition fetchedNote : Note.t :=
  {| Note.id := "n1"; Note.createdAt := 10; Note.updatedAt := 200;
     Note.deviceId := "devB";
     Note.fields :=
       {| NoteInput.title := "new";
          NoteInput.content := "body";
          NoteInput.richContent := Some [];
          NoteInput.type := note;
          NoteInput.completed := Some false;
          NoteInput.checklist := Some [];
          NoteInput.tags := ["home"];
          NoteInput.folderId := None;
          NoteInput.audioNotes := None;
          NoteInput.priority := None;
          NoteInput.dueDate := None;
          NoteInput.reminderDate := None;
          NoteInput.isStarred := None;
          NoteInput.isPinned := None;
          NoteInput.isArchived := None;
          NoteInput.syncId := Some "n1";
          NoteInput.lastSyncAt := Some 5000;
          NoteInput.conflictVersion := Some 0;
          NoteInput.isDeleted := Some false |} |}.

(** A shopping list with one item, and a native device whose table
    [checklist_items] already holds a row with that item's id. *)
Definition milk : ChecklistItem.t :=
  {| ChecklistItem.id := "c1"; ChecklistItem.text := "milk";
     ChecklistItem.completed := false; ChecklistItem.createdAt := 1;
     ChecklistItem.keys := ItemKey.all |}.

Definition shopping : NoteInput.t :=
  {| NoteInput.title := "shopping";
     NoteInput.content := "";
     NoteInput.richContent := None;
     NoteInput.type := task;
     NoteInput.completed := None;
     NoteInput.checklist := Some [milk];
     NoteInput.tags := [];
     NoteInput.folderId := None;
     NoteInput.audioNotes := None;
     NoteInput.priority := Some high;
     NoteInput.dueDate := None;
     NoteInput.reminderDate := None;
     NoteInput.isStarred := Some true;
     NoteInput.isPinned := None;
     NoteInput.isArchived := None;
     NoteInput.syncId := None;
     NoteInput.lastSyncAt := None;
     NoteInput.conflictVersion := None;
     NoteInput.isDeleted := None |}.

Definition takenItemId : World.t :=
  World.set_database
    {| DatabaseState.db :=
         Some (Sqlite.mk [] [DatabaseService.rowOfItem "n0" milk] ∅);
       DatabaseState.deviceId := Some "devA";
       DatabaseState.isWeb := false |}
    (native [] ∅).

(** Note [n1] never synced, in a browser whose first request to the server
    fails while the later ones go through. *)
Definition unsyncedNote : Note.t :=
  {| Note.id := "n1"; Note.createdAt := 10; Note.updatedAt := 100;
     Note.deviceId := "devA"; Note.fields := fields "old" None |}.

Definition flakyBrowser : World.t :=
  World.set_env
    {| Env.clock := clock;
       Env.ticks := 0;
       Env.random := Env.random env;
       Env.draws := 0;
       Env.network := fun k => match k with O => false | _ => true end;
       Env.serverTime := Env.serverTime env;
       Env.requests := 0;
       Env.online := true |}
    (web [unsyncedNote] ∅).





(** A second note, and an edit that renames a note, gives it a checklist and
    also carries bookkeeping fields. *)
Definition otherNote : Note.t :=
  {| Note.id := "n2"; Note.createdAt := 20; Note.updatedAt := 200;
     Note.deviceId := "devA"; Note.fields := fields "other" (Some 250) |}.

Definition edit : PartialNote.t :=
  {| PartialNote.id := None; PartialNote.createdAt := None;
     PartialNote.updatedAt := Some 1; PartialNote.deviceId := None;
     PartialNote.title := Some "edited"; PartialNote.content := None;
     PartialNote.richContent := None; PartialNote.type := None;
     PartialNote.completed := None; PartialNote.checklist := Some (Some [milk]);
     PartialNote.tags := None; PartialNote.folderId := None;
     PartialNote.audioNotes := None; PartialNote.priority := None;
     PartialNote.dueDate := None; PartialNote.reminderDate := None;
     PartialNote.isStarred := None; PartialNote.isPinned := None;
     PartialNote.isArchived := None; PartialNote.syncId := Some (Some "other");
     PartialNote.lastSyncAt := Some (Some 7000);
     PartialNote.conflictVersion := Some (Some 3);
     PartialNote.isDeleted := Some (Some true) |}.

(** The world one clock reading later. *)
Definition tick (w : World.t) : World.t :=
  fst (now w).

Definition conflict : SyncConflict.t :=
  {| SyncConflict.noteId := "n1";
     SyncConflict.localVersion := localNote;
     SyncConflict.remoteVersion := tiedNote;
     SyncConflict.conflictFields := ["title"] |}.

Definition status (conflicts : list SyncConflict.t) : NotesStore.State :=
  {| NotesStore.notes := [];
     NotesStore.isLoading := false;
     NotesStore.syncStatus :=
       {| SyncStatus.isOnline := true; SyncStatus.isSyncing := false;
          SyncStatus.lastSyncAt := None; SyncStatus.pendingChanges := 0;
          SyncStatus.conflicts := conflicts |};
     NotesStore.timers := 0 |}.

End Sample.

(** * Properties *)

Local Open Scope async_scope.

(** ** The monad *)

Lemma bind_Ok {A B} (m : Async A) (k : A → Async B) w w1 a :
  m w = (w1, Ok a) → bind m k w = k a w1.
Proof. unfold bind. intros ->. reflexivity. Qed.

Lemma bind_Throw {A B} (m : Async A) (k : A → Async B) w w1 e :
  m w = (w1, Throw e) → bind m k w = (w1, Throw e).
Proof. unfold bind. intros ->. reflexivity. Qed.

Lemma bind_inv_Ok {A B} (m : Async A) (k : A → Async B) w w' b :
  bind m k w = (w', Ok b) →
  ∃ w1 a, m w = (w1, Ok a) ∧ k a w1 = (w', Ok b).
Proof.
  unfold bind. destruct (m w) as [w1 [a|e]]; intros H.
  - eauto.
  - discriminate.
Qed.

Lemma bind_ext {A B} (m : Async A) (k k' : A → Async B) w :
  (∀ a w1, k a w1 = k' a w1) → bind m k w = bind m k' w.
Proof. intros H. unfold bind. destruct (m w) as [w1 [a|e]]; auto. Qed.

(** Projections of an updated world, where [simpl] does not look. *)
Ltac world_proj :=
  repeat match goal with
    | |- context [World.storage (World.mk ?a ?b ?c ?d ?e)] =>
        change (World.storage (World.mk a b c d e)) with b
    | |- context [World.database (World.mk ?a ?b ?c ?d ?e)] =>
        change (World.database (World.mk a b c d e)) with a
    | |- context [World.firestore (World.mk ?a ?b ?c ?d ?e)] =>
        change (World.firestore (World.mk a b c d e)) with d
    | |- context [AsyncStorage.sync_metadata (AsyncStorage.mk ?a ?b)] =>
        change (AsyncStorage.sync_metadata (AsyncStorage.mk a b)) with b
    | |- context [AsyncStorage.notes_storage (AsyncStorage.mk ?a ?b)] =>
        change (AsyncStorage.notes_storage (AsyncStorage.mk a b)) with a
    | |- context [DatabaseState.db (DatabaseState.mk ?a ?b ?c)] =>
        change (DatabaseState.db (DatabaseState.mk a b c)) with a
    | |- context [Sqlite.sync_metadata (Sqlite.mk ?a ?b ?c)] =>
        change (Sqlite.sync_metadata (Sqlite.mk a b c)) with c
    | |- context [default ?d (Some ?x)] => change (default d (Some x)) with x
    end.

(** ** Conflict detection (C2) *)
















(** ** One pass at a time (C4) *)

(** While [syncInProgress] is set, [syncNotes] returns at once with an
    unsuccessful result, no conflicts and the world untouched; a call made
    with the flag clear and not interrupted leaves it clear, whatever
    happens during the pass; and [syncNotes] never rejects: a failure
    inside the pass is reported in the result. *)
Lemma syncNotes_flag (w : World.t) :
  (SyncState.syncInProgress (World.sync w) = true →
   FirebaseSyncService.syncNotes w
   = (w, Ok {| FirebaseSyncService.success := false;
               FirebaseSyncService.conflicts := [] |}))
  ∧ (SyncState.syncInProgress (World.sync w) = false →
     SyncState.syncInProgress
       (World.sync (fst (FirebaseSyncService.syncNotes w))) = false)
  ∧ (∃ r, snd (FirebaseSyncService.syncNotes w) = Ok r).
Proof.
  unfold FirebaseSyncService.syncNotes.
  match goal with
  | |- context [finally ?m ?f] => set (pass := finally m f)
  end.
  assert (∀ w0, SyncState.syncInProgress (World.sync (fst (pass w0))) = false
                ∧ ∃ r, snd (pass w0) = Ok r) as Hpass.
  { intros w0. unfold pass, finally, try_catch.
    match goal with
    | |- context [match ?m w0 with _ => _ end] => destruct (m w0) as [w1 [r|e]]
    end; simpl; eauto. }
  unfold bind, get, ret, modify, DatabaseService.isOnline.
  destruct (SyncState.isInitialized (World.sync w)) eqn:Hinit; simpl;
    destruct (SyncState.syncInProgress (World.sync w)) eqn:Hprog; simpl;
    try (split; [auto|split; [auto|eauto]]; discriminate).
  destruct (Env.online (World.env w)); simpl.
  - split; [discriminate|]. split; [intros _|]; apply Hpass.
  - split; [discriminate|split; [auto|eauto]].
Qed.

(** A call that nothing interrupts goes through the three stretches one
    after the other. *)
Lemma syncNotes_uninterrupted (w : World.t) :
  (call <~ FirebaseSyncService.syncNotes_called ;;
   call <~ FirebaseSyncService.syncNotes_resumed call ;;
   FirebaseSyncService.syncNotes_resumed call) w
  = (result <~ FirebaseSyncService.syncNotes ;;
     ret (FirebaseSyncService.Settled result)) w.
Proof.
  unfold FirebaseSyncService.syncNotes, FirebaseSyncService.syncNotes_called,
    bind, get, DatabaseService.isOnline, ret.
  destruct (negb (SyncState.isInitialized (World.sync w))
            || SyncState.syncInProgress (World.sync w)); [reflexivity|].
  destruct (Env.online (World.env w)); cbn [negb FirebaseSyncService.syncNotes_resumed];
    [|reflexivity].
  unfold modify, finally, try_catch, bind.
  destruct (DatabaseService.getNotesForSync (FirebaseSyncService.setSyncInProgress true w))
    as [w1 [localNotes|e]]; cbn [FirebaseSyncService.syncNotes_resumed];
    unfold finally, try_catch, bind, ret; reflexivity.
Qed.

(** ** Publishing the sync status (C8) *)

Lemma loadNotes_conflicts s w :
  SyncStatus.conflicts (NotesStore.syncStatus (fst (NotesStore.loadNotes s w)))
  = SyncStatus.conflicts (NotesStore.syncStatus s).
Proof.
  unfold NotesStore.loadNotes.
  destruct (DatabaseService.getAllNotes w) as [w1 [loaded|e]]; [|reflexivity].
  destruct (DatabaseService.isOnline w1) as [w2 [online|e]]; [|reflexivity].
  destruct (DatabaseService.getNotesForSync w2) as [w3 [pending|e]]; [|reflexivity].
  destruct loaded; reflexivity.
Qed.

(** After [performSync] the conflict set of the published status is the
    list of conflicts that this pass returned when the pass succeeded, and
    the previous set when it did not. *)
Lemma performSync_replaces_conflicts (s : NotesStore.State) (w : World.t) :
  SyncStatus.conflicts (NotesStore.syncStatus (fst (NotesStore.performSync s w)))
  = match snd (FirebaseSyncService.syncNotes w) with
    | Ok result =>
        if FirebaseSyncService.success result
        then FirebaseSyncService.conflicts result
        else SyncStatus.conflicts (NotesStore.syncStatus s)
    | Throw _ => SyncStatus.conflicts (NotesStore.syncStatus s)
    end.
Proof.
  unfold NotesStore.performSync.
  destruct (FirebaseSyncService.syncNotes w) as [w1 [result|e]]; simpl; [|reflexivity].
  destruct (FirebaseSyncService.success result); [|reflexivity].
  pose proof (loadNotes_conflicts
                (NotesStore.setSyncStatus (NotesStore.setIsSyncing true) s) w1) as Hload.
  destruct (NotesStore.loadNotes _ w1) as [s1 w2]. simpl in Hload.
  unfold now. simpl. reflexivity.
Qed.

(** ** Lists and loops *)

Lemma findIndex_Some {A} (p : A → bool) (l : list A) i :
  Js.findIndex p l = Some i → ∃ x, l !! i = Some x ∧ p x = true.
Proof.
  revert i. induction l as [|y l IH]; intros i; simpl; [discriminate|].
  destruct (p y) eqn:Hp.
  - intros [= <-]. eauto.
  - destruct (Js.findIndex p l) as [j|]; simpl; [|discriminate].
    intros [= <-]. destruct (IH j eq_refl) as (x & Hx & Hpx). eauto.
Qed.

Lemma forEach_invariant {A} (I : World.t → Prop) (body : A → Async unit) xs w :
  (∀ x w0, I w0 → I (fst (body x w0))) →
  I w → I (fst (forEach xs body w)).
Proof.
  intros Hbody. revert w. induction xs as [|x xs IH]; intros w Hw; simpl; [exact Hw|].
  unfold bind. specialize (Hbody x w Hw).
  destruct (body x w) as [w1 [[]|e]]; simpl in *; auto.
Qed.

(** ** [updateNote] (C10) *)

Lemma insertChecklistRow_outside row w :
  Spec.outsideChecklist (fst (DatabaseService.insertChecklistRow row w)) = Spec.outsideChecklist w.
Proof.
  unfold DatabaseService.insertChecklistRow, bind, DatabaseService.requireDb.
  destruct w as [[[d|] dev web] st sy fs e]; simpl; [|reflexivity].
  destruct (existsb _ _); reflexivity.
Qed.

Lemma saveChecklistItems_outside noteId items w :
  Spec.outsideChecklist (fst (DatabaseService.saveChecklistItems noteId items w))
  = Spec.outsideChecklist w.
Proof.
  unfold DatabaseService.saveChecklistItems, bind.
  destruct (DatabaseService.requireDb w) as [w1 [d|e]] eqn:Hreq;
    unfold DatabaseService.requireDb in Hreq;
    destruct (DatabaseState.db (World.database w)); inversion Hreq as [[Hw1 Hd]];
    try reflexivity.
  subst w1.
  apply (forEach_invariant (fun w0 => Spec.outsideChecklist w0 = Spec.outsideChecklist w)).
  - intros x w0 H0. rewrite insertChecklistRow_outside. exact H0.
  - reflexivity.
Qed.

Lemma deleteChecklistItems_outside noteId w :
  Spec.outsideChecklist (fst (DatabaseService.deleteChecklistItems noteId w))
  = Spec.outsideChecklist w.
Proof.
  unfold DatabaseService.deleteChecklistItems, bind, DatabaseService.requireDb.
  destruct w as [[[d|] dev web] st sy fs e]; reflexivity.
Qed.

(** The checklist part of [updateNote]. *)
Lemma updateNote_checklist_outside id (items : option (option (list ChecklistItem.t))) w :
  Spec.outsideChecklist
    (fst (match items with
          | Some (Some items) =>
              (DatabaseService.deleteChecklistItems id ;;;
               match items with
               | [] => ret tt
               | _ :: _ => DatabaseService.saveChecklistItems id items
               end)
          | _ => ret tt
          end w))
  = Spec.outsideChecklist w.
Proof.
  destruct items as [[items|]|]; try reflexivity.
  unfold bind.
  pose proof (deleteChecklistItems_outside id w) as Hdel.
  destruct (DatabaseService.deleteChecklistItems id w) as [w1 [[]|e]]; simpl in *;
    [|exact Hdel].
  destruct items as [|item items]; [exact Hdel|].
  rewrite saveChecklistItems_outside. exact Hdel.
Qed.

Lemma setFields_sameContent u u' date r :
  Spec.sameContentUpdates u u' →
  DatabaseService.setFields u date r = DatabaseService.setFields u' date r.
Proof.
  intros (Ht & Hc & Hr & Hty & Hco & Hta & _).
  unfold DatabaseService.setFields. rewrite Ht, Hc, Hty, Hta.
  f_equal.
  - unfold Spec.defined in Hr.
    destruct (PartialNote.richContent u) as [[?|]|],
             (PartialNote.richContent u') as [[?|]|]; congruence.
  - unfold Spec.defined in Hco.
    destruct (PartialNote.completed u) as [[?|]|],
             (PartialNote.completed u') as [[?|]|]; congruence.
Qed.

Lemma updateRows_ext id f g w :
  (∀ r, f r = g r) →
  DatabaseService.updateRows id f w = DatabaseService.updateRows id g w.
Proof.
  intros Hfg. unfold DatabaseService.updateRows, bind.
  destruct (DatabaseService.requireDb w) as [w1 [d|e]]; [|reflexivity].
  rewrite (map_ext _ (fun r => if String.eqb (NoteRow.id r) id then g r else r))
    by (intros r; rewrite Hfg; reflexivity).
  reflexivity.
Qed.

Lemma updateNote_native_sameContent id u u' w :
  DatabaseState.isWeb (World.database w) = false →
  Spec.sameContentUpdates u u' →
  DatabaseService.updateNote id u' w = DatabaseService.updateNote id u w.
Proof.
  intros Hweb Hsame.
  unfold DatabaseService.updateNote.
  rewrite !(bind_Ok DatabaseService.isWeb _ w w (DatabaseState.isWeb (World.database w)))
    by reflexivity.
  rewrite Hweb.
  apply bind_ext; intros _ w1. apply bind_ext; intros date w2.
  unfold bind.
  rewrite (updateRows_ext id _ (DatabaseService.setFields u date))
    by (intros r; symmetry; apply setFields_sameContent; exact Hsame).
  destruct (DatabaseService.updateRows id _ w2) as [w3 [[]|e]]; [|reflexivity].
  destruct Hsame as (_ & _ & _ & _ & _ & _ & Hcl). unfold Spec.defined in Hcl.
  destruct (PartialNote.checklist u) as [[?|]|],
           (PartialNote.checklist u') as [[?|]|]; try discriminate;
    try reflexivity.
  injection Hcl as ->. reflexivity.
Qed.

Lemma outsideChecklist_storedNotes_lookup w w' i r :
  Spec.outsideChecklist w' = Spec.outsideChecklist w →
  DatabaseState.isWeb (World.database w) = false →
  (∃ d, DatabaseState.db (World.database w) = Some d ∧ Sqlite.notes d !! i = Some r) →
  ∃ checklist,
    Spec.storedNotes w' !! i = Some (DatabaseService.noteOfRow r checklist).
Proof.
  intros Hout Hweb (d & Hd & Hr).
  unfold Spec.outsideChecklist in Hout. rewrite Hd, Hweb in Hout.
  injection Hout as Hdb _ Hweb' _ _ _ _.
  unfold Spec.storedNotes. rewrite Hweb'.
  destruct (DatabaseState.db (World.database w')) as [d'|]; [|discriminate].
  simpl in Hdb. injection Hdb as Hnotes _.
  rewrite list_lookup_fmap, Hnotes, Hr. simpl. eauto.
Qed.

Lemma updateNote_native_stored id updates w d i r :
  DatabaseState.isWeb (World.database w) = false →
  DatabaseState.db (World.database w) = Some d →
  Sqlite.notes d !! i = Some r →
  String.eqb (NoteRow.id r) id = true →
  ∃ checklist,
    Spec.storedNotes (fst (DatabaseService.updateNote id updates w)) !! i
    = Some (DatabaseService.noteOfRow
              (DatabaseService.setFields updates (Spec.clockReading w 0) r) checklist).
Proof.
  intros Hweb Hdb Hr Hid.
  unfold DatabaseService.updateNote.
  rewrite (bind_Ok DatabaseService.isWeb _ w w false)
    by (unfold DatabaseService.isWeb; rewrite Hweb; reflexivity).
  rewrite (bind_Ok DatabaseService.requireDb _ w w d)
    by (unfold DatabaseService.requireDb; rewrite Hdb; reflexivity).
  erewrite (bind_Ok now) by reflexivity.
  unfold Spec.clockReading. rewrite Nat.add_0_r.
  match goal with
  | |- context [bind (DatabaseService.updateRows id ?f) ?k ?w0] =>
      set (k0 := k); set (w2 := w0);
      assert (∃ w3, DatabaseService.updateRows id f w2 = (w3, Ok tt)
                    ∧ DatabaseState.isWeb (World.database w3) = false
                    ∧ ∃ d3, DatabaseState.db (World.database w3) = Some d3
                            ∧ Sqlite.notes d3 !! i = Some (f r)) as (w3 & Hupd & Hweb3 & Hd3)
  end.
  { unfold DatabaseService.updateRows, bind, DatabaseService.requireDb,
      DatabaseService.putDb, modify. subst w2. simpl. rewrite Hdb. simpl.
    eexists. split; [reflexivity|]. simpl. split; [exact Hweb|].
    eexists. split; [reflexivity|]. simpl.
    rewrite list_lookup_fmap, Hr. simpl. rewrite Hid. reflexivity. }
  rewrite (bind_Ok _ _ _ _ _ Hupd). subst k0. cbv beta.
  exact (outsideChecklist_storedNotes_lookup w3 _ i _
           (updateNote_checklist_outside id (PartialNote.checklist updates) w3)
           Hweb3 Hd3).
Qed.

(** ** The pull watermark (C7) *)

Lemma pretty_N_go_length x s :
  (String.length s ≤ String.length (pretty_N_go x s))%nat.
Proof.
  revert s. induction (N.lt_wf_0 x) as [x _ IH]. intros s.
  destruct (decide (x = 0)%N) as [->|Hx].
  - rewrite pretty_N_go_0. lia.
  - rewrite pretty_N_go_step by lia.
    etransitivity; [|apply IH; apply N.div_lt; lia]. simpl. lia.
Qed.

Lemma pretty_Z_truthy (z : Z) : Js.truthy (Some (pretty z)) = true.
Proof.
  assert (∀ p, pretty (N.pos p) ≠ "") as Hpos.
  { intros p. unfold pretty, pretty_N. simpl.
    rewrite pretty_N_go_step by lia.
    pose proof (pretty_N_go_length (N.pos p `div` 10)
                  (String (pretty_N_char (N.pos p `mod` 10)) "")) as Hlen.
    intros E. rewrite E in Hlen. simpl in Hlen. lia. }
  unfold Js.truthy. destruct z as [|p|p]; simpl; try reflexivity.
  - specialize (Hpos p). unfold pretty at 1, pretty_Z, pretty, pretty_positive.
    destruct (pretty (N.pos p)) eqn:E; [contradiction|reflexivity].
Qed.

Lemma setSyncMetadata_read key value w w' :
  String.eqb key "__proto__" = false →
  Js.truthy (Some value) = true →
  DatabaseService.setSyncMetadata key value w = (w', Ok tt) →
  DatabaseService.getSyncMetadata key w' = (w', Ok (Some value))
  ∧ Env.clock (World.env w') = Env.clock (World.env w)
  ∧ Env.ticks (World.env w')
    = ((if DatabaseState.isWeb (World.database w') then 0 else 1)
       + Env.ticks (World.env w))%nat.
Proof.
  intros Hkey Hvalue.
  unfold DatabaseService.setSyncMetadata, DatabaseService.getSyncMetadata, bind,
    DatabaseService.isWeb.
  destruct (DatabaseState.isWeb (World.database w)) eqn:Hweb.
  - unfold DatabaseService.setSyncMetadataWeb, DatabaseService.getSyncMetadataWeb, bind,
      DatabaseService.getMetadataItem, DatabaseService.setMetadataItem, modify, ret.
    rewrite Hkey. intros [= <-]. unfold World.set_storage. cbn. rewrite Hweb. world_proj.
    rewrite lookup_insert_eq, Hvalue. auto.
  - unfold DatabaseService.requireDb.
    destruct (DatabaseState.db (World.database w)) as [d|]; [|discriminate].
    unfold now, DatabaseService.putDb, modify, World.set_database, World.set_env. cbn.
    intros [= <-]. cbn. rewrite Hweb. cbn. world_proj. rewrite lookup_insert_eq. auto.
Qed.

(** C7, as the code has it. When the pull completes, the watermark it
    leaves is the device's own clock reading taken right after the loop over
    the pulled documents. *)
Theorem downloadRemoteChanges_watermark_is_device_time
  (w w' : World.t) (conflicts : list SyncConflict.t) :
  SyncState.db (World.sync w) = true →
  FirebaseSyncService.downloadRemoteChanges w = (w', Ok conflicts) →
  Spec.watermark w'
  = Ok (Some (pretty
          (Env.clock (World.env w')
             (Env.ticks (World.env w')
              - (if DatabaseState.isWeb (World.database w') then 1 else 2))%nat))).
Proof.
  intros Hdb. unfold FirebaseSyncService.downloadRemoteChanges.
  rewrite (bind_Ok get _ w w w) by reflexivity. rewrite Hdb. simpl negb. cbv iota.
  intros H.
  apply bind_inv_Ok in H as (w1 & lastSyncTime & _ & H).
  apply bind_inv_Ok in H as (w2 & since & _ & H).
  apply bind_inv_Ok in H as (w3 & docs & _ & H).
  apply bind_inv_Ok in H as (w4 & found & _ & H).
  apply bind_inv_Ok in H as (w5 & ms & Hnow & H).
  apply bind_inv_Ok in H as (w6 & [] & Hset & H).
  injection H as <- _.
  destruct (setSyncMetadata_read "last_sync_time" _ _ _ eq_refl (pretty_Z_truthy ms) Hset)
    as (Hget & Hclock & Hticks).
  unfold Spec.watermark. rewrite Hget. simpl.
  unfold now in Hnow. injection Hnow as <- <-. simpl in *.
  rewrite Hclock, Hticks.
  destruct (DatabaseState.isWeb (World.database w6)); simpl;
    repeat f_equal; lia.
Qed.

Lemma downloadRemoteChanges_watermark_is_device_time_witness :
  SyncState.db (World.sync Sample.freshDevice) = true
  ∧ Spec.watermark (fst (FirebaseSyncService.downloadRemoteChanges Sample.freshDevice))
    = Ok (Some "5004").
Proof.
  split; [reflexivity|].
  assert (FirebaseSyncService.downloadRemoteChanges Sample.freshDevice
          = (fst (FirebaseSyncService.downloadRemoteChanges Sample.freshDevice), Ok []))
    as Hpull by (vm_compute; reflexivity).
  rewrite (downloadRemoteChanges_watermark_is_device_time
             Sample.freshDevice _ [] eq_refl Hpull).
  vm_compute. reflexivity.
Defined.

(** C7 fails as stated: the only pulled document was last modified at 300
    on the server, and the watermark left behind is the device time. *)
Lemma downloadRemoteChanges_watermark_not_max_lastModified :
  ¬ Spec.watermarkIsMaxPulled Sample.freshDevice.
Proof.
  intros H. specialize (H 300 eq_refl). vm_compute in H. discriminate.
Qed.

(** ** Inserting a remote note (C6) *)

Lemma insertChecklistRows_Ok noteId items w w' d :
  DatabaseState.db (World.database w) = Some d →
  forEach items
    (fun item => DatabaseService.insertChecklistRow (DatabaseService.rowOfItem noteId item))
    w = (w', Ok tt) →
  ∃ d', DatabaseState.db (World.database w') = Some d'
        ∧ Sqlite.notes d' = Sqlite.notes d
        ∧ Sqlite.checklist_items d'
          = (Sqlite.checklist_items d ++ map (DatabaseService.rowOfItem noteId) items)%list.
Proof.
  revert w d. induction items as [|item items IH]; intros w d Hd; simpl.
  - intros [= <-]. exists d. rewrite app_nil_r. auto.
  - intros H. apply bind_inv_Ok in H as (w1 & [] & Hins & H).
    unfold DatabaseService.insertChecklistRow, bind, DatabaseService.requireDb in Hins.
    rewrite Hd in Hins. destruct (existsb _ _); [discriminate|].
    unfold DatabaseService.putDb, modify in Hins. injection Hins as <-.
    eapply IH in H as (d' & Hd' & Hnotes & Hitems); [|reflexivity].
    exists d'. split; [exact Hd'|]. split; [exact Hnotes|].
    rewrite Hitems. simpl. rewrite <- app_assoc. reflexivity.
Qed.

Lemma saveNote_Ok input w w' n :
  DatabaseService.saveNote input w = (w', Ok n) →
  ∃ dev,
    DatabaseState.deviceId (World.database w) = Some dev
    ∧ n = {| Note.id := "note_" +:+ pretty (Spec.clockReading w 1) +:+ "_"
                        +:+ Env.random (World.env w) (Env.draws (World.env w));
             Note.createdAt := Spec.clockReading w 0;
             Note.updatedAt := Spec.clockReading w 0;
             Note.deviceId := dev;
             Note.fields := input |}
    ∧ if DatabaseState.isWeb (World.database w)
      then AsyncStorage.notes_storage (World.storage w')
           = Some (default [] (AsyncStorage.notes_storage (World.storage w)) ++ [n])%list
      else ∃ d d',
          DatabaseState.db (World.database w) = Some d
          ∧ DatabaseState.db (World.database w') = Some d'
          ∧ Sqlite.notes d' = (Sqlite.notes d ++ [DatabaseService.rowOfNote n])%list
          ∧ Sqlite.checklist_items d'
            = (Sqlite.checklist_items d
               ++ map (DatabaseService.rowOfItem (Note.id n))
                      (default [] (NoteInput.checklist input)))%list.
Proof.
  unfold DatabaseService.saveNote.
  rewrite (bind_Ok get _ w w w) by reflexivity.
  destruct (DatabaseState.deviceId (World.database w)) as [dev|] eqn:Hdev;
    [|discriminate].
  destruct (Js.truthy (Some dev)); [|discriminate]. cbn [negb].
  erewrite (bind_Ok now) by reflexivity.
  erewrite (bind_Ok now) by reflexivity.
  erewrite (bind_Ok randomSuffix) by reflexivity.
  erewrite (bind_Ok DatabaseService.isWeb) by reflexivity.
  unfold Spec.clockReading. rewrite Nat.add_0_r, Nat.add_1_r.
  cbn [World.env World.set_env World.database Env.ticks Env.clock Env.random
       Env.draws default].
  set (newNote := Note.mk _ _ _ _ _).
  destruct (DatabaseState.isWeb (World.database w)) eqn:Hweb.
  - unfold DatabaseService.saveNoteWeb, bind, DatabaseService.getNotesItem,
      DatabaseService.setNotesItem, modify, ret.
    intros [= <- <-]. exists dev. auto.
  - intros H. apply bind_inv_Ok in H as (w1 & d & Hreq & H).
    unfold DatabaseService.requireDb in Hreq. cbn in Hreq.
    destruct (DatabaseState.db (World.database w)) as [d0|] eqn:Hdb; [|discriminate].
    injection Hreq as <- <-.
    apply bind_inv_Ok in H as (w2 & [] & Hins & H).
    destruct (existsb _ _); [discriminate|].
    unfold DatabaseService.putDb, modify in Hins. injection Hins as <-.
    apply bind_inv_Ok in H as (w3 & [] & Hitems & H).
    injection H as <- <-.
    exists dev. split; [reflexivity|]. split; [reflexivity|].
    exists d0.
    destruct (NoteInput.checklist input) as [[|item items]|] eqn:Hcl;
      try (injection Hitems as <-; eexists; cbn; rewrite app_nil_r; auto).
    unfold DatabaseService.saveChecklistItems in Hitems.
    apply bind_inv_Ok in Hitems as (w4 & d4 & Hreq & Hitems).
    unfold DatabaseService.requireDb in Hreq. cbn in Hreq. injection Hreq as <- _.
    eapply insertChecklistRows_Ok in Hitems as (d' & Hd' & Hn & Hi); [|reflexivity].
    exists d'. cbn in *. auto.
Qed.

(** C6, as the code has it. A pulled remote note with no local counterpart
    is stored as a new note: the content fields, [syncId] and [isDeleted]
    are the remote copy's and [lastSyncAt] is the time of the pull step, but
    the [id] is freshly generated, [createdAt] and [updatedAt] are the time
    of insertion and [deviceId] is the local device's. *)
Theorem downloadRemoteChange_inserts_new_note
  (data : FirebaseNote.t) (w w1 w' : World.t) (remote : Note.t)
  (r : option SyncConflict.t) :
  FirebaseSyncService.mapFirebaseToNote data w = (w1, Ok remote) →
  DatabaseService.getNoteById (Note.id remote) w1 = (w1, Ok None) →
  FirebaseSyncService.downloadRemoteChange data w = (w', Ok r) →
  ∃ dev,
    DatabaseState.deviceId (World.database w1) = Some dev
    ∧ r = None
    ∧ let n := Spec.insertedNote remote dev
                 (Spec.clockReading w1 0) (Spec.clockReading w1 1)
                 (Spec.clockReading w1 2)
                 (Env.random (World.env w1) (Env.draws (World.env w1))) in
      if DatabaseState.isWeb (World.database w1)
      then AsyncStorage.notes_storage (World.storage w')
           = Some (default [] (AsyncStorage.notes_storage (World.storage w1)) ++ [n])%list
      else ∃ d d',
          DatabaseState.db (World.database w1) = Some d
          ∧ DatabaseState.db (World.database w') = Some d'
          ∧ Sqlite.notes d' = (Sqlite.notes d ++ [DatabaseService.rowOfNote n])%list
          ∧ Sqlite.checklist_items d'
            = (Sqlite.checklist_items d
               ++ map (DatabaseService.rowOfItem (Note.id n))
                      (default [] (NoteInput.checklist remote)))%list.
Proof.
  intros Hmap Habsent.
  unfold FirebaseSyncService.downloadRemoteChange.
  rewrite (bind_Ok _ _ _ _ _ Hmap), (bind_Ok _ _ _ _ _ Habsent).
  unfold FirebaseSyncService.saveRemoteNote.
  intros H. apply bind_inv_Ok in H as (w2 & [] & H & Hret). injection Hret as <- <-.
  rewrite (bind_Ok _ _ _ _ _ Habsent) in H.
  erewrite (bind_Ok now) in H by reflexivity.
  apply bind_inv_Ok in H as (w3 & n & Hsave & Hret). injection Hret as <-.
  apply saveNote_Ok in Hsave as (dev & Hdev & -> & Hstored).
  exists dev. split; [exact Hdev|]. split; [reflexivity|].
  unfold Spec.clockReading in *. cbn in Hstored |- *.
  rewrite Nat.add_0_r in *. rewrite Nat.add_1_r in *.
  replace (Env.ticks (World.env w1) + 2)%nat with (S (S (Env.ticks (World.env w1))))
    by lia.
  exact Hstored.
Qed.

Lemma downloadRemoteChange_inserts_new_note_witness :
  FirebaseSyncService.mapFirebaseToNote (Sample.remoteDoc 200 300) Sample.freshDevice
  = (Sample.tick Sample.freshDevice, Ok Sample.fetchedNote)
  ∧ DatabaseService.getNoteById "n1" (Sample.tick Sample.freshDevice)
    = (Sample.tick Sample.freshDevice, Ok None)
  ∧ ∃ d',
      DatabaseState.db
        (World.database
           (fst (FirebaseSyncService.downloadRemoteChange
                   (Sample.remoteDoc 200 300) Sample.freshDevice))) = Some d'
      ∧ Sqlite.notes d'
        = [DatabaseService.rowOfNote
             (Spec.insertedNote Sample.fetchedNote "devA" 5001 5002 5003 "r0")].
Proof.
  assert (FirebaseSyncService.mapFirebaseToNote (Sample.remoteDoc 200 300)
            Sample.freshDevice
          = (Sample.tick Sample.freshDevice, Ok Sample.fetchedNote)) as H1
    by (vm_compute; reflexivity).
  assert (DatabaseService.getNoteById (Note.id Sample.fetchedNote)
            (Sample.tick Sample.freshDevice)
          = (Sample.tick Sample.freshDevice, Ok None)) as H2
    by (vm_compute; reflexivity).
  assert (FirebaseSyncService.downloadRemoteChange (Sample.remoteDoc 200 300)
            Sample.freshDevice
          = (fst (FirebaseSyncService.downloadRemoteChange
                    (Sample.remoteDoc 200 300) Sample.freshDevice), Ok None)) as H3
    by (vm_compute; reflexivity).
  split; [exact H1|]. split; [exact H2|].
  destruct (downloadRemoteChange_inserts_new_note _ _ _ _ _ _ H1 H2 H3)
    as (dev & Hdev & _ & (d & d' & Hd & Hd' & Hnotes & _)).
  exists d'. split; [exact Hd'|].
  rewrite Hnotes.
  injection Hdev as <-. injection Hd as <-. reflexivity.
Defined.

(** C6 fails as stated: on a device that does not hold [n1], the pulled
    copy of [n1] is stored under a new id and with new dates. *)
Lemma downloadRemoteChange_not_verbatim :
  ¬ Spec.insertedVerbatim (Sample.remoteDoc 200 300) Sample.freshDevice.
Proof.
  intros (n & Hin & Hid & _).
  vm_compute in Hin. apply list_elem_of_singleton in Hin. subst n.
  vm_compute in Hid. discriminate.
Qed.

(** ** The realtime listener against the pull (C3) *)

Lemma uploadNote_local n w :
  World.local (fst (FirebaseSyncService.uploadNote n w)) = World.local w.
Proof.
  unfold FirebaseSyncService.uploadNote, Firestore.setDoc, bind, get, request, modify,
    throw.
  destruct (SyncState.db (World.sync w)); simpl; [|reflexivity].
  destruct (Env.network (World.env w) (Env.requests (World.env w))); reflexivity.
Qed.

Lemma resolveConflict_differing_updatedAt localNote remoteNote w :
  Note.updatedAt localNote ≠ Note.updatedAt remoteNote →
  FirebaseSyncService.resolveConflict localNote remoteNote w
  = if Note.updatedAt localNote <? Note.updatedAt remoteNote
    then (FirebaseSyncService.saveRemoteNote remoteNote ;;; ret None) w
    else (FirebaseSyncService.uploadNote localNote ;;; ret None) w.
Proof.
  intros Hne. unfold FirebaseSyncService.resolveConflict.
  destruct (Note.updatedAt localNote <? Note.updatedAt remoteNote) eqn:Hlt;
    [reflexivity|].
  destruct (Note.updatedAt remoteNote <? Note.updatedAt localNote) eqn:Hgt;
    [reflexivity|].
  apply Z.ltb_ge in Hlt, Hgt. lia.
Qed.

Lemma downloadRemoteChange_no_conflict data w w' r :
  FirebaseSyncService.downloadRemoteChange data w = (w', Ok r) → r = None.
Proof.
  unfold FirebaseSyncService.downloadRemoteChange. intros H.
  apply bind_inv_Ok in H as (w1 & remote & _ & H).
  apply bind_inv_Ok in H as (w2 & [localNote|] & _ & H).
  - destruct (Z.eqb_spec (Note.updatedAt localNote) (Note.updatedAt remote)) as [|Hne];
      cbn [negb] in H.
    + injection H as _ <-. reflexivity.
    + rewrite (resolveConflict_differing_updatedAt _ _ _ Hne) in H.
      destruct (_ <? _); apply bind_inv_Ok in H as (w3 & [] & _ & H);
        injection H as _ <-; reflexivity.
  - apply bind_inv_Ok in H as (w3 & [] & _ & H). injection H as _ <-. reflexivity.
Qed.

(** C3, as the code has it. The realtime callback ignores a [removed]
    change. For an [added] or [modified] change it does what the pull's step
    for the document does (insert when the note is absent, nothing on equal
    timestamps, take the remote version when that is newer, fail when that
    fails), with one exception: when the stored note is the newer one it
    does nothing, where the pull's step uploads the stored note. It never
    calls the conflict resolver. The local store ends up the same in both,
    and the pull's step reports no conflict either. [onUpdate] is the
    reload the store passes in, which neither writes nor fails. *)
Theorem realtimeChange_follows_pull_unless_local_newer
  (onUpdate : Async unit) (change : Firestore.DocumentChange) (w : World.t) :
  (∀ w0, onUpdate w0 = (w0, Ok tt)) →
  Spec.reported
    (snd (FirebaseSyncService.downloadRemoteChange (Firestore.change_doc change) w))
  = []
  ∧ match Firestore.change_type change with
  | Firestore.removed =>
      FirebaseSyncService.realtimeChange onUpdate change w = (w, Ok tt)
  | _ =>
      match Spec.localIsNewer (Firestore.change_doc change) w with
      | Some (w2, localNote) =>
          FirebaseSyncService.realtimeChange onUpdate change w = (w2, Ok tt)
          ∧ FirebaseSyncService.downloadRemoteChange (Firestore.change_doc change) w
            = (FirebaseSyncService.uploadNote localNote ;;; ret None) w2
          ∧ World.local
              (fst (FirebaseSyncService.downloadRemoteChange
                      (Firestore.change_doc change) w))
            = World.local w2
      | None =>
          FirebaseSyncService.realtimeChange onUpdate change w
          = (fst (FirebaseSyncService.downloadRemoteChange
                    (Firestore.change_doc change) w),
             Spec.discard
               (snd (FirebaseSyncService.downloadRemoteChange
                       (Firestore.change_doc change) w)))
      end
    end.
Proof.
  intros Hupdate. split.
  { destruct (FirebaseSyncService.downloadRemoteChange (Firestore.change_doc change) w)
      as [w' [r|e]] eqn:Hpull; [|reflexivity].
    apply downloadRemoteChange_no_conflict in Hpull as ->. reflexivity. }
  assert (Firestore.change_type change ≠ Firestore.removed →
          FirebaseSyncService.realtimeChange onUpdate change w
          = (remoteNote <~ FirebaseSyncService.mapFirebaseToNote
                             (Firestore.change_doc change) ;;
             localNote <~ DatabaseService.getNoteById (Note.id remoteNote) ;;
             if match localNote with
                | None => true
                | Some localNote => Note.updatedAt localNote <? Note.updatedAt remoteNote
                end
             then FirebaseSyncService.saveRemoteNote remoteNote ;;; onUpdate
             else ret tt) w) as Hrt.
  { intros Hty. unfold FirebaseSyncService.realtimeChange.
    destruct (Firestore.change_type change); try reflexivity. contradiction. }
  assert (∀ remoteNote w2,
            (FirebaseSyncService.saveRemoteNote remoteNote ;;; onUpdate) w2
            = (fst ((FirebaseSyncService.saveRemoteNote remoteNote ;;;
                     ret (None : option SyncConflict.t)) w2),
               Spec.discard
                 (snd ((FirebaseSyncService.saveRemoteNote remoteNote ;;;
                        ret (None : option SyncConflict.t)) w2)))) as Hsave.
  { intros remoteNote w2. unfold bind.
    destruct (FirebaseSyncService.saveRemoteNote remoteNote w2) as [w3 [[]|e]];
      [rewrite Hupdate|]; reflexivity. }
  destruct (Firestore.change_type change) eqn:Hty;
    [rewrite Hrt by discriminate
    |rewrite Hrt by discriminate
    |unfold FirebaseSyncService.realtimeChange; rewrite Hty; reflexivity];
    clear Hrt.
  all: unfold Spec.localIsNewer, FirebaseSyncService.downloadRemoteChange.
  all: destruct (FirebaseSyncService.mapFirebaseToNote (Firestore.change_doc change) w)
         as [w1 [remoteNote|e]] eqn:Hmap;
         [rewrite !(bind_Ok _ _ _ _ _ Hmap)
         |rewrite !(bind_Throw _ _ _ _ _ Hmap); reflexivity].
  all: destruct (DatabaseService.getNoteById (Note.id remoteNote) w1)
         as [w2 [[localNote|]|e]] eqn:Hget;
         [rewrite !(bind_Ok _ _ _ _ _ Hget)
         |rewrite !(bind_Ok _ _ _ _ _ Hget); apply Hsave
         |rewrite !(bind_Throw _ _ _ _ _ Hget); reflexivity].
  all: destruct (Z.ltb_spec (Note.updatedAt remoteNote) (Note.updatedAt localNote))
         as [Hnewer|Holder].
  all: destruct (Z.eq_dec (Note.updatedAt localNote) (Note.updatedAt remoteNote))
         as [Heq|Hne]; try lia.
  all: try (rewrite Heq, Z.ltb_irrefl, Z.eqb_refl; reflexivity).
  all: rewrite (proj2 (Z.eqb_neq _ _) Hne); cbn [negb];
       rewrite (resolveConflict_differing_updatedAt _ _ _ Hne).
  all: try (rewrite (proj2 (Z.ltb_lt (Note.updatedAt localNote) _)) by lia;
            apply Hsave).
  all: rewrite (proj2 (Z.ltb_ge (Note.updatedAt localNote) _)) by lia;
       split; [reflexivity|split; [reflexivity|]];
       unfold bind; pose proof (uploadNote_local localNote w2) as Hup;
       destruct (FirebaseSyncService.uploadNote localNote w2) as [w3 [[]|e]];
       exact Hup.
Qed.

Lemma realtimeChange_follows_pull_unless_local_newer_witness :
  let change := {| Firestore.change_type := Firestore.modified;
                   Firestore.change_doc := Sample.remoteDoc 200 300 |} in
  let w := Sample.native [Sample.localRow] {[ "n1" := Sample.remoteDoc 200 300 ]} in
  FirebaseSyncService.realtimeChange (ret tt) change w
  = (fst (FirebaseSyncService.downloadRemoteChange (Sample.remoteDoc 200 300) w), Ok tt)
  ∧ map NoteRow.title
      (Spec.noteRows (fst (FirebaseSyncService.realtimeChange (ret tt) change w)))
    = ["new"].
Proof.
  intros change w. split; [|vm_compute; reflexivity].
  pose proof (proj2 (realtimeChange_follows_pull_unless_local_newer (ret tt) change w
                       ltac:(reflexivity))) as H.
  assert (Spec.localIsNewer (Firestore.change_doc change) w = None) as Hcase
    by (vm_compute; reflexivity).
  cbn [Firestore.change_type change] in H. rewrite ?Hcase in H. rewrite H.
  f_equal; vm_compute; reflexivity.
Defined.

(** The claim as written fails twice. A [removed] change is ignored by the
    callback, while the pull's step for the same document stores the note.
    And for a document older than the stored note the callback leaves the
    remote collection alone, while the pull's step uploads the stored note. *)
Lemma realtimeChange_not_identical_to_pull :
  ¬ Spec.sameLocalStateAndConflicts (ret tt)
      {| Firestore.change_type := Firestore.removed;
         Firestore.change_doc := Sample.remoteDoc 200 300 |}
      Sample.freshDevice
  ∧ ¬ Spec.identicalResolutionPath (ret tt)
        {| Firestore.change_type := Firestore.modified;
           Firestore.change_doc := Sample.remoteDoc 50 60 |}
        (Sample.native [Sample.localRow] {[ "n1" := Sample.remoteDoc 50 60 ]}).
Proof.
  split.
  - intros [Hlocal _]. vm_compute in Hlocal. discriminate Hlocal.
  - intros (_ & Hremote & _).
    apply (f_equal (fun m => FirebaseNote.updatedAt <$> m !! "n1")) in Hremote.
    vm_compute in Hremote. discriminate Hremote.
Qed.

(** ** Last write wins (C1) *)

(** The local note of the samples is what the native store returns. *)
Lemma getNoteById_sample :
  DatabaseService.getNoteById "n1" (Sample.native [Sample.localRow] ∅)
  = (Sample.native [Sample.localRow] ∅, Ok (Some Sample.localNote)).
Proof. vm_compute. reflexivity. Qed.

(** C1, on the native path, for [n1] held clean locally (written at 100,
    synced at 150) and a remote revision written at 200. [resolveConflict]
    takes the remote revision and returns no conflict, and the stored title
    becomes the remote one; but the stored [lastSyncAt] is still 150 while
    [updatedAt] is now the time of the call, so [getNotesForSync] lists the
    note again: its dirty state is set, not cleared. *)
Theorem resolveConflict_take_remote_leaves_note_dirty :
  let w := Sample.native [Sample.localRow] ∅ in
  let w' := fst (FirebaseSyncService.resolveConflict Sample.localNote Sample.fetchedNote w) in
  snd (DatabaseService.getNotesForSync w) = Ok []
  ∧ snd (FirebaseSyncService.resolveConflict Sample.localNote Sample.fetchedNote w)
    = Ok None
  ∧ map (fun n => (Note.id n, NoteInput.title n, Note.updatedAt n, NoteInput.lastSyncAt n))
        (Spec.storedNotes w')
    = [("n1", "new", 5001, Some 150)]
  ∧ (map Note.id <$> match snd (DatabaseService.getNotesForSync w') with
                     | Ok notes => Some notes
                     | Throw _ => None
                     end)
    = Some ["n1"].
Proof. repeat split; vm_compute; reflexivity. Qed.

(** On the web path [lastSyncAt] is stored, but it is read from the clock
    before [updateNote] reads [updatedAt]: the note is clean afterwards only
    if the clock did not advance in between. *)
Lemma resolveConflict_take_remote_web_dirty_after_tick :
  let w := Sample.web [Sample.localNote] ∅ in
  let w' := fst (FirebaseSyncService.resolveConflict Sample.localNote Sample.fetchedNote w) in
  map (fun n => (Note.id n, NoteInput.title n, Note.updatedAt n, NoteInput.lastSyncAt n))
      (Spec.storedNotes w')
  = [("n1", "new", 5001, Some 5000)]
  ∧ (map Note.id <$> match snd (DatabaseService.getNotesForSync w') with
                     | Ok notes => Some notes
                     | Throw _ => None
                     end)
    = Some ["n1"].
Proof. repeat split; vm_compute; reflexivity. Qed.

(** In the other direction a newer local note is uploaded. *)
Lemma resolveConflict_take_local localNote remoteNote w :
  Note.updatedAt remoteNote < Note.updatedAt localNote →
  FirebaseSyncService.resolveConflict localNote remoteNote w
  = (FirebaseSyncService.uploadNote localNote ;;; ret None) w.
Proof.
  intros Hlt. rewrite resolveConflict_differing_updatedAt by lia.
  rewrite (proj2 (Z.ltb_ge _ _)) by lia. reflexivity.
Qed.

(** ** Manual resolution (C5) *)


(** The web path does store the incremented version. *)
Lemma resolveConflictManually_web_increments_conflictVersion :
  let w := Sample.web [Sample.localNote] ∅ in
  let w' := fst (FirebaseSyncService.resolveConflictManually Sample.conflict true w) in
  map (fun n => (Note.id n, NoteInput.title n, NoteInput.conflictVersion n))
      (Spec.storedNotes w')
  = [("n1", "old", Some 1)]
  ∧ FirebaseNote.title <$> World.firestore w' !! "n1" = Some "old".
Proof. repeat split; vm_compute; reflexivity. Qed.

(** [resolveConflict] of the store removes the conflict from the open set
    once the manual resolution went through. *)
Lemma resolveConflict_removes_conflict conflict useLocal s w w1 :
  FirebaseSyncService.resolveConflictManually conflict useLocal w = (w1, Ok tt) →
  SyncStatus.conflicts
    (NotesStore.syncStatus (fst (NotesStore.resolveConflict conflict useLocal s w)))
  = List.filter
      (fun c => negb (String.eqb (SyncConflict.noteId c) (SyncConflict.noteId conflict)))
      (SyncStatus.conflicts (NotesStore.syncStatus s)).
Proof.
  intros H. unfold NotesStore.resolveConflict. rewrite H.
  rewrite loadNotes_conflicts. reflexivity.
Qed.

(** ** Tombstones (C9) *)

(** C9, on the web path, for [n1] synced and then deleted locally while the
    remote copy stays as it was. The deleted note is not in the dirty set,
    the pass succeeds without pushing it, and the remote copy still has
    [isDeleted = false]. *)
Theorem syncNotes_web_does_not_push_tombstone :
  let w := Sample.web [Sample.localNote] {[ "n1" := Sample.syncedDoc ]} in
  let deleted := fst (DatabaseService.deleteNote "n1" w) in
  map (fun n => (Note.id n, NoteInput.isDeleted n, Note.updatedAt n))
      (Spec.storedNotes deleted)
  = [("n1", Some true, 5000)]
  ∧ snd (DatabaseService.getNotesForSync deleted) = Ok []
  ∧ snd (FirebaseSyncService.syncNotes deleted)
    = Ok {| FirebaseSyncService.success := true; FirebaseSyncService.conflicts := [] |}
  ∧ FirebaseNote.isDeleted
      <$> World.firestore (fst (FirebaseSyncService.syncNotes deleted)) !! "n1"
    = Some (Some false).
Proof. repeat split; vm_compute; reflexivity. Qed.

(** The native path pushes the tombstone in the same situation. *)
Lemma syncNotes_native_pushes_tombstone :
  let w := Sample.native [Sample.localRow] {[ "n1" := Sample.syncedDoc ]} in
  let deleted := fst (DatabaseService.deleteNote "n1" w) in
  (map Note.id <$> match snd (DatabaseService.getNotesForSync deleted) with
                   | Ok notes => Some notes
                   | Throw _ => None
                   end)
  = Some ["n1"]
  ∧ FirebaseNote.isDeleted
      <$> World.firestore (fst (FirebaseSyncService.syncNotes deleted)) !! "n1"
    = Some (Some true).
Proof. repeat split; vm_compute; reflexivity. Qed.

(** ** The same defects, in general *)

Lemma outsideChecklist_noteRows w w' :
  Spec.outsideChecklist w' = Spec.outsideChecklist w →
  Spec.noteRows w' = Spec.noteRows w.
Proof.
  unfold Spec.outsideChecklist, Spec.noteRows. intros H.
  injection H as Hdb _.
  destruct (DatabaseState.db (World.database w')), (DatabaseState.db (World.database w));
    simpl in Hdb; try discriminate; [|reflexivity].
  injection Hdb as -> _. reflexivity.
Qed.

(** On the native path [updateNote] rewrites the matching rows with
    [setFields] at the time of the call and touches no other row, whether
    or not the checklist statements that follow succeed. *)
Lemma updateNote_native_rows id updates w d :
  DatabaseState.isWeb (World.database w) = false →
  DatabaseState.db (World.database w) = Some d →
  Spec.noteRows (fst (DatabaseService.updateNote id updates w))
  = map (fun r => if String.eqb (NoteRow.id r) id
                  then DatabaseService.setFields updates (Spec.clockReading w 0) r
                  else r)
        (Sqlite.notes d).
Proof.
  intros Hweb Hdb.
  unfold DatabaseService.updateNote.
  rewrite (bind_Ok DatabaseService.isWeb _ w w false)
    by (unfold DatabaseService.isWeb; rewrite Hweb; reflexivity).
  rewrite (bind_Ok DatabaseService.requireDb _ w w d)
    by (unfold DatabaseService.requireDb; rewrite Hdb; reflexivity).
  erewrite (bind_Ok now) by reflexivity.
  unfold Spec.clockReading. rewrite Nat.add_0_r.
  erewrite (bind_Ok (DatabaseService.updateRows _ _)).
  2:{ unfold DatabaseService.updateRows, bind, DatabaseService.requireDb,
        DatabaseService.putDb, modify. cbn. rewrite Hdb. reflexivity. }
  rewrite (outsideChecklist_noteRows _ _
             (updateNote_checklist_outside id (PartialNote.checklist updates) _)).
  reflexivity.
Qed.

(** In general, on the native path: after [saveRemoteNote] for a note
    that is stored and not deleted, the row keeps its [last_sync_at] and its
    [updated_at] is the second clock reading of the call; the row needs
    sync again unless it was last synced at or after that reading. *)
Lemma saveRemoteNote_native_keeps_last_sync_at remote w d i r :
  DatabaseState.isWeb (World.database w) = false →
  DatabaseState.db (World.database w) = Some d →
  Sqlite.notes d !! i = Some r →
  NoteRow.id r = Note.id remote →
  NoteRow.is_deleted r = false →
  ∃ r', Spec.noteRows (fst (FirebaseSyncService.saveRemoteNote remote w)) !! i = Some r'
        ∧ NoteRow.last_sync_at r' = NoteRow.last_sync_at r
        ∧ NoteRow.updated_at r' = Spec.clockReading w 1
        ∧ NoteRow.title r' = NoteInput.title remote
        ∧ NoteRow.content r' = NoteInput.content remote.
Proof.
  intros Hweb Hdb Hr Hid Hdel.
  assert (∃ n, DatabaseService.getNoteById (Note.id remote) w = (w, Ok (Some n)))
    as (n & Hget).
  { unfold DatabaseService.getNoteById.
    rewrite (bind_Ok DatabaseService.isWeb _ w w false)
      by (unfold DatabaseService.isWeb; rewrite Hweb; reflexivity).
    rewrite (bind_Ok DatabaseService.requireDb _ w w d)
      by (unfold DatabaseService.requireDb; rewrite Hdb; reflexivity).
    destruct (List.find _ (Sqlite.notes d)) as [row|] eqn:Hfind.
    - unfold DatabaseService.mapRowToNote, DatabaseService.getChecklistItems, bind,
        DatabaseService.requireDb, ret. rewrite Hdb. eauto.
    - exfalso.
      assert (In r (Sqlite.notes d)) as Hin
        by (apply list_elem_of_In; eapply list_elem_of_lookup_2; exact Hr).
      pose proof (find_none _ _ Hfind r Hin) as Hnone. cbn in Hnone.
      rewrite Hid, String.eqb_refl, Hdel in Hnone. discriminate. }
  unfold FirebaseSyncService.saveRemoteNote.
  rewrite (bind_Ok _ _ _ _ _ Hget).
  erewrite (bind_Ok now) by reflexivity.
  erewrite updateNote_native_rows; [|exact Hweb|exact Hdb].
  rewrite list_lookup_fmap, Hr. cbn [fmap option_fmap option_map].
  rewrite Hid, String.eqb_refl.
  eexists. split; [reflexivity|]. cbn.
  unfold Spec.clockReading. rewrite Nat.add_0_r, Nat.add_1_r. auto.
Qed.

(** In general, on the native path: [resolveConflictManually] leaves the
    [conflict_version] of every row as it was. *)
Lemma resolveConflictManually_native_conflict_version conflict useLocal w :
  DatabaseState.isWeb (World.database w) = false →
  map NoteRow.conflict_version
      (Spec.noteRows (fst (FirebaseSyncService.resolveConflictManually conflict useLocal w)))
  = map NoteRow.conflict_version (Spec.noteRows w).
Proof.
  intros Hweb. unfold FirebaseSyncService.resolveConflictManually.
  match goal with
  | |- context [DatabaseService.updateNote ?id ?u] =>
      set (updates := u);
      assert (map NoteRow.conflict_version
                (Spec.noteRows (fst (DatabaseService.updateNote id updates w)))
              = map NoteRow.conflict_version (Spec.noteRows w)) as Hupd
  end.
  { destruct (DatabaseState.db (World.database w)) as [d|] eqn:Hdb.
    - rewrite (updateNote_native_rows _ _ _ d Hweb Hdb).
      unfold Spec.noteRows. rewrite Hdb, map_map. apply map_ext. intros r.
      destruct (String.eqb _ _); reflexivity.
    - unfold DatabaseService.updateNote, bind, DatabaseService.isWeb,
        DatabaseService.requireDb. rewrite Hweb, Hdb. reflexivity. }
  unfold bind.
  destruct (DatabaseService.updateNote _ updates w) as [w1 [[]|e]]; [|exact Hupd].
  cbn [fst] in Hupd. unfold get.
  destruct (SyncState.isInitialized (World.sync w1)); [|exact Hupd].
  pose proof (uploadNote_local
                (if useLocal then SyncConflict.localVersion conflict
                 else SyncConflict.remoteVersion conflict) w1) as Hup.
  unfold World.local in Hup. injection Hup as Hdb _.
  unfold Spec.noteRows in *. rewrite Hdb. exact Hupd.
Qed.

Lemma sort_insert_elem {A} (cmp : A → A → Z) x y l :
  x ∈ Js.insert cmp y l → x = y ∨ x ∈ l.
Proof.
  induction l as [|z l IH]; simpl.
  - intros H. apply list_elem_of_singleton in H. auto.
  - destruct (cmp y z <=? 0).
    + intros H. apply elem_of_cons in H. tauto.
    + intros H. apply elem_of_cons in H as [->|H].
      * right. left.
      * destruct (IH H); [auto|right; right; assumption].
Qed.

Lemma sort_elem {A} (cmp : A → A → Z) x l : x ∈ Js.sort cmp l → x ∈ l.
Proof.
  induction l as [|y l IH]; simpl; [auto|].
  intros H. apply sort_insert_elem in H as [->|H]; [left|right; auto].
Qed.

(** In general, on the web path: no soft-deleted note is ever in the
    dirty set. *)
Lemma getNotesForSync_web_excludes_tombstones w (n : Note.t) notes :
  DatabaseState.isWeb (World.database w) = true →
  snd (DatabaseService.getNotesForSync w) = Ok notes →
  n ∈ notes →
  NoteInput.isDeleted n ≠ Some true.
Proof.
  intros Hweb.
  unfold DatabaseService.getNotesForSync, DatabaseService.getNotesForSyncWeb,
    DatabaseService.getAllNotesWeb, bind, DatabaseService.isWeb,
    DatabaseService.getNotesItem, ret.
  rewrite Hweb. cbn.
  destruct (AsyncStorage.notes_storage (World.storage w)) as [stored|]; cbn.
  - intros [= <-] Hin.
    apply sort_elem, list_elem_of_In, filter_In in Hin as [Hin _].
    apply list_elem_of_In, sort_elem, list_elem_of_In, filter_In in Hin as [_ Hnd].
    unfold DatabaseService.notDeleted in Hnd. intros E. rewrite E in Hnd. discriminate.
  - intros [= <-] Hin. inversion Hin.
Qed.

(** On the native path a soft delete marks the matching rows and stamps
    them with the time of the call. *)
Lemma deleteNote_native_rows id w d :
  DatabaseState.isWeb (World.database w) = false →
  DatabaseState.db (World.database w) = Some d →
  map (fun r => (NoteRow.id r, NoteRow.is_deleted r, NoteRow.updated_at r))
      (Spec.noteRows (fst (DatabaseService.deleteNote id w)))
  = map (fun r => if String.eqb (NoteRow.id r) id
                  then (NoteRow.id r, true, Spec.clockReading w 0)
                  else (NoteRow.id r, NoteRow.is_deleted r, NoteRow.updated_at r))
        (Sqlite.notes d).
Proof.
  intros Hweb Hdb.
  unfold DatabaseService.deleteNote, DatabaseService.updateRows, bind,
    DatabaseService.isWeb, DatabaseService.requireDb, now, DatabaseService.putDb, modify.
  rewrite Hweb, Hdb. cbn. rewrite Hdb. cbn.
  unfold Spec.noteRows, Spec.clockReading. cbn. rewrite Nat.add_0_r, map_map.
  apply map_ext. intros r. destruct (String.eqb _ _); reflexivity.
Qed.

(** A successful upload writes the note's tombstone flag to its document. *)
Lemma uploadNote_writes_isDeleted (n : Note.t) w :
  SyncState.db (World.sync w) = true →
  Env.network (World.env w) (Env.requests (World.env w)) = true →
  FirebaseNote.isDeleted
    <$> World.firestore (fst (FirebaseSyncService.uploadNote n w))
        !! Js.or_else (NoteInput.syncId n) (Note.id n)
  = Some (Some (default false (NoteInput.isDeleted n))).
Proof.
  intros Hdb Hnet.
  unfold FirebaseSyncService.uploadNote, Firestore.setDoc, bind, get, request, modify.
  rewrite Hdb. cbn. rewrite Hnet. cbn. world_proj.
  rewrite lookup_insert_eq. reflexivity.
Qed.

(** ** The insertion goes through on the web path *)

Lemma mapAsync_Ok {A B} (f : A → Async B) xs w :
  (∀ x w0, ∃ w1 y, f x w0 = (w1, Ok y) ∧ World.local w1 = World.local w0) →
  ∃ w1 ys, mapAsync f xs w = (w1, Ok ys) ∧ World.local w1 = World.local w.
Proof.
  intros Hf. revert w. induction xs as [|x xs IH]; intros w; simpl.
  - unfold ret. eauto.
  - destruct (Hf x w) as (w1 & y & Hy & Hl1).
    destruct (IH w1) as (w2 & ys & Hys & Hl2).
    rewrite (bind_Ok _ _ _ _ _ Hy), (bind_Ok _ _ _ _ _ Hys).
    unfold ret. do 2 eexists. split; [reflexivity|]. congruence.
Qed.

Lemma dateOrNow_Ok d w :
  ∃ w1 t, FirebaseSyncService.dateOrNow d w = (w1, Ok t)
          ∧ World.local w1 = World.local w.
Proof. destruct d as [t|]; simpl; unfold ret, now; eauto. Qed.

Lemma mapFirebaseToNote_Ok data w :
  ∃ w1 n, FirebaseSyncService.mapFirebaseToNote data w = (w1, Ok n)
          ∧ World.local w1 = World.local w.
Proof.
  unfold FirebaseSyncService.mapFirebaseToNote.
  match goal with
  | |- context [bind ?m _ w] =>
      assert (∃ w1 c, m w = (w1, Ok c) ∧ World.local w1 = World.local w)
        as (w1 & c & Hc & Hl1)
  end.
  { destruct (FirebaseNote.checklist data) as [items|].
    - edestruct (mapAsync_Ok FirebaseSyncService.fromFirebaseItem items w)
        as (w1 & l & Hl & Hloc).
      + intros item w0. unfold FirebaseSyncService.fromFirebaseItem.
        destruct (dateOrNow_Ok (FirebaseChecklistItem.createdAt item) w0)
          as (w1 & t & Ht & Hl1).
        rewrite (bind_Ok _ _ _ _ _ Ht). unfold ret. eauto.
      + rewrite (bind_Ok _ _ _ _ _ Hl). unfold ret. eauto.
    - unfold ret. eauto. }
  rewrite (bind_Ok _ _ _ _ _ Hc).
  destruct (dateOrNow_Ok (FirebaseNote.createdAt data) w1) as (w2 & t2 & Ht2 & Hl2).
  rewrite (bind_Ok _ _ _ _ _ Ht2).
  destruct (dateOrNow_Ok (FirebaseNote.updatedAt data) w2) as (w3 & t3 & Ht3 & Hl3).
  rewrite (bind_Ok _ _ _ _ _ Ht3).
  erewrite (bind_Ok now) by reflexivity.
  unfold ret. do 2 eexists. split; [reflexivity|].
  rewrite <- Hl1, <- Hl2, <- Hl3. reflexivity.
Qed.

(** On the web path, once the device id is set, the step of the pull for a
    note that is absent locally always completes. *)
Lemma downloadRemoteChange_web_completes data w dev :
  DatabaseState.isWeb (World.database w) = true →
  DatabaseState.deviceId (World.database w) = Some dev →
  Js.truthy (Some dev) = true →
  (∀ w1 remote,
     FirebaseSyncService.mapFirebaseToNote data w = (w1, Ok remote) →
     snd (DatabaseService.getNoteById (Note.id remote) w1) = Ok None) →
  ∃ w', FirebaseSyncService.downloadRemoteChange data w = (w', Ok None).
Proof.
  intros Hweb Hdev Htruthy Habsent.
  destruct (mapFirebaseToNote_Ok data w) as (w1 & remote & Hmap & Hloc).
  specialize (Habsent w1 remote Hmap).
  assert (DatabaseState.isWeb (World.database w1) = true
          ∧ DatabaseState.deviceId (World.database w1) = Some dev) as [Hweb1 Hdev1].
  { unfold World.local in Hloc. injection Hloc as Hdb _. rewrite Hdb. auto. }
  assert (DatabaseService.getNoteById (Note.id remote) w1 = (w1, Ok None)) as Hget.
  { revert Habsent.
    unfold DatabaseService.getNoteById, DatabaseService.getNoteByIdWeb,
      DatabaseService.getAllNotesWeb, bind, DatabaseService.isWeb,
      DatabaseService.getNotesItem, ret.
    rewrite Hweb1.
    destruct (AsyncStorage.notes_storage (World.storage w1)); cbn; congruence. }
  assert (∃ w', FirebaseSyncService.saveRemoteNote remote w1 = (w', Ok tt))
    as (w' & Hsave).
  { unfold FirebaseSyncService.saveRemoteNote.
    rewrite (bind_Ok _ _ _ _ _ Hget).
    unfold DatabaseService.saveNote, DatabaseService.saveNoteWeb, bind, now, get,
      randomSuffix, DatabaseService.isWeb, DatabaseService.getNotesItem,
      DatabaseService.setNotesItem, modify, ret.
    cbn. rewrite Hdev1, Htruthy. cbn. rewrite Hweb1. eauto. }
  unfold FirebaseSyncService.downloadRemoteChange.
  rewrite (bind_Ok _ _ _ _ _ Hmap), (bind_Ok _ _ _ _ _ Hget), (bind_Ok _ _ _ _ _ Hsave).
  unfold ret. eauto.
Qed.

(** * Further properties of the store and the sync engine *)

(** ** Sorting *)

Lemma sort_insert_perm {A} (cmp : A → A → Z) x l : Js.insert cmp x l ≡ₚ x :: l.
Proof.
  induction l as [|y l IH]; simpl; [reflexivity|].
  destruct (cmp x y <=? 0); [reflexivity|].
  rewrite IH. apply Permutation_swap.
Qed.

Lemma sort_perm {A} (cmp : A → A → Z) l : Js.sort cmp l ≡ₚ l.
Proof.
  induction l as [|x l IH]; simpl; [reflexivity|].
  rewrite sort_insert_perm, IH. reflexivity.
Qed.

Section sorted.
Context {A : Type} (cmp : A → A → Z) (R : A → A → Prop).
Hypothesis cmp_le : ∀ a b, cmp a b <= 0 → R a b.
Hypothesis cmp_gt : ∀ a b, 0 < cmp a b → R b a.
Hypothesis R_trans : ∀ a b c, R a b → R b c → R a c.

Lemma sort_insert_sorted x l :
  StronglySorted R l → StronglySorted R (Js.insert cmp x l).
Proof.
  induction 1 as [|y l Hl IH Hy]; simpl.
  - repeat constructor.
  - destruct (cmp x y <=? 0) eqn:Hc.
    + apply Z.leb_le in Hc. constructor; [constructor; assumption|].
      constructor; [auto|]. eapply Forall_impl; [exact Hy|]. eauto.
    + apply Z.leb_gt in Hc. constructor; [exact IH|].
      rewrite sort_insert_perm. constructor; auto.
Qed.

Lemma sort_sorted l : StronglySorted R (Js.sort cmp l).
Proof.
  induction l as [|x l IH]; simpl; [constructor|].
  apply sort_insert_sorted, IH.
Qed.
End sorted.

Lemma sort_ascending {A} (key : A → Z) l :
  Spec.ascendingBy key (Js.sort (fun a b => key a - key b) l).
Proof. apply sort_sorted; intros; lia. Qed.

Lemma sort_descending {A} (key : A → Z) l :
  Spec.descendingBy key (Js.sort (fun a b => key b - key a) l).
Proof. apply sort_sorted; intros; lia. Qed.

Lemma StronglySorted_map {A B} (f : A → B) (R : B → B → Prop) l :
  StronglySorted (fun a b => R (f a) (f b)) l → StronglySorted R (map f l).
Proof.
  induction 1 as [|x l Hl IH Hx]; simpl; constructor; [exact IH|].
  apply Forall_fmap. exact Hx.
Qed.

Lemma filter_map_comm {A B} (f : A → B) (p : B → bool) l :
  List.filter p (map f l) = map f (List.filter (fun x => p (f x)) l).
Proof.
  induction l as [|x l IH]; simpl; [reflexivity|].
  destruct (p (f x)); simpl; rewrite IH; reflexivity.
Qed.

Lemma filter_perm {A} (p : A → bool) l l' :
  l ≡ₚ l' → List.filter p l ≡ₚ List.filter p l'.
Proof.
  induction 1 as [|x l l' _ IH|x y l|l1 l2 l3 _ IH1 _ IH2]; simpl.
  - reflexivity.
  - destruct (p x); [rewrite IH|]; auto.
  - destruct (p x), (p y); try reflexivity. apply Permutation_swap.
  - etransitivity; eauto.
Qed.

(** ** Reading the store *)

(** What a native query returns for the given rows. *)
Lemma mapAsync_mapRowToNote rows w d :
  DatabaseState.db (World.database w) = Some d →
  mapAsync DatabaseService.mapRowToNote rows w
  = (w, Ok (map (fun r => DatabaseService.noteOfRow r
                            (DatabaseService.selectChecklistItems d (NoteRow.id r)))
                rows)).
Proof.
  intros Hdb. induction rows as [|r rows IH]; simpl; [reflexivity|].
  unfold bind at 1.
  unfold DatabaseService.mapRowToNote at 1, DatabaseService.getChecklistItems, bind,
    DatabaseService.requireDb, ret.
  rewrite Hdb. fold (@bind (list Note.t) (list Note.t)).
  unfold bind. rewrite IH. reflexivity.
Qed.

Lemma getAllNotes_value w :
  DatabaseService.getAllNotes w
  = (w, if DatabaseState.isWeb (World.database w)
        then Ok (Js.sort (fun a b => Note.updatedAt b - Note.updatedAt a)
                   (List.filter DatabaseService.notDeleted
                      (default [] (AsyncStorage.notes_storage (World.storage w)))))
        else match DatabaseState.db (World.database w) with
             | Some d =>
                 Ok (map (fun r => DatabaseService.noteOfRow r
                                     (DatabaseService.selectChecklistItems d (NoteRow.id r)))
                       (Js.sort (fun a b => NoteRow.updated_at b - NoteRow.updated_at a)
                          (List.filter (fun r => negb (NoteRow.is_deleted r))
                                       (Sqlite.notes d))))
             | None => Throw DatabaseNotInitialized
             end).
Proof.
  unfold DatabaseService.getAllNotes.
  rewrite (bind_Ok DatabaseService.isWeb _ w w (DatabaseState.isWeb (World.database w)))
    by reflexivity.
  destruct (DatabaseState.isWeb (World.database w)).
  - unfold DatabaseService.getAllNotesWeb, bind, DatabaseService.getNotesItem, ret.
    destruct (AsyncStorage.notes_storage (World.storage w)); reflexivity.
  - destruct (DatabaseState.db (World.database w)) as [d|] eqn:Hdb.
    + rewrite (bind_Ok DatabaseService.requireDb _ w w d)
        by (unfold DatabaseService.requireDb; rewrite Hdb; reflexivity).
      apply mapAsync_mapRowToNote. exact Hdb.
    + unfold bind, DatabaseService.requireDb. rewrite Hdb. reflexivity.
Qed.

(** [getAllNotes] reads without writing; it returns the stored notes that
    are not soft-deleted, each once, newest first. *)
Theorem getAllNotes_live_notes_newest_first (w : World.t) (notes : list Note.t) :
  snd (DatabaseService.getAllNotes w) = Ok notes →
  fst (DatabaseService.getAllNotes w) = w
  ∧ notes ≡ₚ List.filter DatabaseService.notDeleted (Spec.storedNotes w)
  ∧ Spec.descendingBy Note.updatedAt notes.
Proof.
  rewrite getAllNotes_value. unfold Spec.storedNotes. cbn [fst snd].
  destruct (DatabaseState.isWeb (World.database w)).
  - intros [= <-]. split; [reflexivity|]. split; [apply sort_perm|].
    apply sort_descending.
  - destruct (DatabaseState.db (World.database w)) as [d|]; [|discriminate].
    intros [= <-]. split; [reflexivity|]. split.
    + rewrite filter_map_comm. apply Permutation_map. cbn.
      rewrite sort_perm. reflexivity.
    + apply StronglySorted_map.
      apply (sort_descending NoteRow.updated_at).
Qed.

Lemma getAllNotes_live_notes_newest_first_witness :
  snd (DatabaseService.getAllNotes (Sample.native [Sample.localRow] ∅))
  = Ok [Sample.localNote]
  ∧ [Sample.localNote]
    ≡ₚ List.filter DatabaseService.notDeleted
         (Spec.storedNotes (Sample.native [Sample.localRow] ∅)).
Proof.
  assert (snd (DatabaseService.getAllNotes (Sample.native [Sample.localRow] ∅))
          = Ok [Sample.localNote]) as H by (vm_compute; reflexivity).
  split; [exact H|].
  apply (getAllNotes_live_notes_newest_first _ _ H).
Defined.

Lemma getNotesForSync_value w :
  DatabaseService.getNotesForSync w
  = (w, if DatabaseState.isWeb (World.database w)
        then Ok (Js.sort (fun a b => Note.updatedAt a - Note.updatedAt b)
                   (List.filter DatabaseService.needsSync
                      (Js.sort (fun a b => Note.updatedAt b - Note.updatedAt a)
                         (List.filter DatabaseService.notDeleted
                            (default [] (AsyncStorage.notes_storage (World.storage w)))))))
        else match DatabaseState.db (World.database w) with
             | Some d =>
                 Ok (map (fun r => DatabaseService.noteOfRow r
                                     (DatabaseService.selectChecklistItems d (NoteRow.id r)))
                       (Js.sort (fun a b => NoteRow.updated_at a - NoteRow.updated_at b)
                          (List.filter DatabaseService.rowNeedsSync (Sqlite.notes d))))
             | None => Throw DatabaseNotInitialized
             end).
Proof.
  unfold DatabaseService.getNotesForSync.
  rewrite (bind_Ok DatabaseService.isWeb _ w w (DatabaseState.isWeb (World.database w)))
    by reflexivity.
  destruct (DatabaseState.isWeb (World.database w)).
  - unfold DatabaseService.getNotesForSyncWeb, DatabaseService.getAllNotesWeb, bind,
      DatabaseService.getNotesItem, ret.
    destruct (AsyncStorage.notes_storage (World.storage w)); reflexivity.
  - destruct (DatabaseState.db (World.database w)) as [d|] eqn:Hdb.
    + rewrite (bind_Ok DatabaseService.requireDb _ w w d)
        by (unfold DatabaseService.requireDb; rewrite Hdb; reflexivity).
      apply mapAsync_mapRowToNote. exact Hdb.
    + unfold bind, DatabaseService.requireDb. rewrite Hdb. reflexivity.
Qed.

Lemma rowNeedsSync_noteOfRow r checklist :
  DatabaseService.rowNeedsSync r = true →
  DatabaseService.needsSync (DatabaseService.noteOfRow r checklist) = true.
Proof.
  unfold DatabaseService.rowNeedsSync, DatabaseService.needsSync. simpl.
  destruct (NoteRow.last_sync_at r) as [t|]; [|reflexivity].
  destruct (t =? 0); auto.
Qed.

(** [getNotesForSync] reads without writing. Every note it returns is dirty
    ([lastSyncAt] missing or older than [updatedAt]) and the list is ordered
    oldest change first. On the web path it holds exactly the stored dirty
    notes that are not soft-deleted; on the native path one note for every
    row that is dirty, soft-deleted rows included. *)
Theorem getNotesForSync_dirty_notes_oldest_first (w : World.t) (notes : list Note.t) :
  snd (DatabaseService.getNotesForSync w) = Ok notes →
  fst (DatabaseService.getNotesForSync w) = w
  ∧ Forall (fun n => DatabaseService.needsSync n = true) notes
  ∧ Spec.ascendingBy Note.updatedAt notes
  ∧ if DatabaseState.isWeb (World.database w)
    then notes ≡ₚ List.filter
                    (fun n => DatabaseService.needsSync n && DatabaseService.notDeleted n)
                    (Spec.storedNotes w)
    else map Note.id notes
         ≡ₚ map NoteRow.id (List.filter DatabaseService.rowNeedsSync (Spec.noteRows w)).
Proof.
  rewrite getNotesForSync_value. unfold Spec.storedNotes, Spec.noteRows. cbn [fst snd].
  destruct (DatabaseState.isWeb (World.database w)).
  - intros [= <-]. split; [reflexivity|].
    set (stored := default [] (AsyncStorage.notes_storage (World.storage w))).
    assert (Js.sort (fun a b => Note.updatedAt a - Note.updatedAt b)
              (List.filter DatabaseService.needsSync
                 (Js.sort (fun a b => Note.updatedAt b - Note.updatedAt a)
                    (List.filter DatabaseService.notDeleted stored)))
            ≡ₚ List.filter
                 (fun n => DatabaseService.needsSync n && DatabaseService.notDeleted n)
                 stored) as Hperm.
    { rewrite sort_perm. rewrite (filter_perm _ _ _ (sort_perm _ _)).
      clear. induction stored as [|n l IH]; simpl; [reflexivity|].
      destruct (DatabaseService.notDeleted n), (DatabaseService.needsSync n) eqn:Hn;
        simpl; rewrite ?Hn; rewrite ?IH; reflexivity. }
    split; [|split; [apply sort_ascending|exact Hperm]].
    rewrite Hperm. apply Forall_forall. intros n Hin.
    apply list_elem_of_In, filter_In in Hin as [_ Hn].
    apply andb_prop in Hn. tauto.
  - destruct (DatabaseState.db (World.database w)) as [d|]; [|discriminate].
    intros [= <-]. split; [reflexivity|]. split; [|split].
    + apply Forall_fmap, Forall_forall. intros r Hin. cbn.
      apply rowNeedsSync_noteOfRow.
      apply sort_elem, list_elem_of_In, filter_In in Hin. tauto.
    + apply StronglySorted_map. apply (sort_ascending NoteRow.updated_at).
    + rewrite map_map. cbn. rewrite sort_perm. reflexivity.
Qed.

Lemma getNotesForSync_dirty_notes_oldest_first_witness :
  snd (DatabaseService.getNotesForSync
         (fst (DatabaseService.deleteNote "n1" (Sample.native [Sample.localRow] ∅))))
  = Ok [Spec.withSync (Some "n1") (Some 150)
          (Note.mk "n1" 10 5000 "devA"
             (NoteInput.mk "old" "body" (Some []) note (Some false) None ["home"]
                None None None None None None None None None None (Some 0) (Some true)))]
  ∧ map Note.id
      [Spec.withSync (Some "n1") (Some 150)
         (Note.mk "n1" 10 5000 "devA"
            (NoteInput.mk "old" "body" (Some []) note (Some false) None ["home"]
               None None None None None None None None None None (Some 0) (Some true)))]
    ≡ₚ map NoteRow.id
         (List.filter DatabaseService.rowNeedsSync
            (Spec.noteRows
               (fst (DatabaseService.deleteNote "n1" (Sample.native [Sample.localRow] ∅))))).
Proof.
  match goal with
  | |- ?P ∧ _ => assert P as H by (vm_compute; reflexivity)
  end.
  split; [exact H|].
  apply (getNotesForSync_dirty_notes_oldest_first _ _ H).
Defined.

(** ** Soft and hard delete *)

Lemma findIndex_None {A} (p : A → bool) (l : list A) :
  Js.findIndex p l = None → ∀ x, x ∈ l → p x = false.
Proof.
  induction l as [|y l IH]; simpl; intros H x Hin; [inversion Hin|].
  destruct (p y) eqn:Hp; [discriminate|].
  destruct (Js.findIndex p l); [discriminate|].
  apply elem_of_cons in Hin as [->|Hin]; auto.
Qed.

Lemma find_None_intro {A} (p : A → bool) (l : list A) :
  (∀ x, x ∈ l → p x = false) → List.find p l = None.
Proof.
  intros H. destruct (List.find p l) as [x|] eqn:Hfind; [|reflexivity].
  apply find_some in Hfind as [Hin Hp].
  rewrite (H x) in Hp by (apply list_elem_of_In; exact Hin). discriminate.
Qed.

Lemma getNoteById_value w id :
  DatabaseService.getNoteById id w
  = (w, if DatabaseState.isWeb (World.database w)
        then Ok (List.find (fun n => String.eqb (Note.id n) id)
                   (Js.sort (fun a b => Note.updatedAt b - Note.updatedAt a)
                      (List.filter DatabaseService.notDeleted
                         (default [] (AsyncStorage.notes_storage (World.storage w))))))
        else match DatabaseState.db (World.database w) with
             | Some d =>
                 Ok ((fun r => DatabaseService.noteOfRow r
                                 (DatabaseService.selectChecklistItems d (NoteRow.id r)))
                     <$> List.find
                           (fun r => String.eqb (NoteRow.id r) id
                                     && negb (NoteRow.is_deleted r))
                           (Sqlite.notes d))
             | None => Throw DatabaseNotInitialized
             end).
Proof.
  unfold DatabaseService.getNoteById.
  rewrite (bind_Ok DatabaseService.isWeb _ w w (DatabaseState.isWeb (World.database w)))
    by reflexivity.
  destruct (DatabaseState.isWeb (World.database w)).
  - unfold DatabaseService.getNoteByIdWeb, DatabaseService.getAllNotesWeb, bind,
      DatabaseService.getNotesItem, ret, Js.find.
    destruct (AsyncStorage.notes_storage (World.storage w)); reflexivity.
  - unfold bind, DatabaseService.requireDb.
    destruct (DatabaseState.db (World.database w)) as [d|] eqn:Hdb; [|reflexivity].
    destruct (List.find _ (Sqlite.notes d)) as [r|]; [|reflexivity].
    unfold DatabaseService.mapRowToNote, DatabaseService.getChecklistItems, bind,
      DatabaseService.requireDb, ret. rewrite Hdb. reflexivity.
Qed.



Lemma filter_filter_and {A} (p q : A → bool) (l : list A) :
  List.filter p (List.filter q l) = List.filter (fun x => q x && p x) l.
Proof.
  induction l as [|x l IH]; [reflexivity|]. simpl.
  destruct (q x); simpl; [destruct (p x)|]; rewrite ?IH; reflexivity.
Qed.

Lemma filter_ext_bool {A} (p q : A → bool) (l : list A) :
  (∀ x, p x = q x) → List.filter p l = List.filter q l.
Proof.
  intros H. induction l as [|x l IH]; [reflexivity|]. simpl. rewrite H, IH. reflexivity.
Qed.

Lemma map_filter_comm {A B} (f g : A → B) (p : A → bool) (q : B → bool) (l : list A) :
  (∀ x, q (g x) = p x) → (∀ x, p x = true → f x = g x) →
  map f (List.filter p l) = List.filter q (map g l).
Proof.
  intros Hq Hf. induction l as [|x l IH]; [reflexivity|]. simpl.
  rewrite Hq. destruct (p x) eqn:Hp; simpl; rewrite ?(Hf x Hp), IH; reflexivity.
Qed.

(** [hardDeleteNote] has no web branch: without an open database it throws
    and changes nothing, which is what happens in the browser, where no
    database is ever opened. With a database it removes the note's rows for
    good, checklist rows included; on a native device every other stored
    note stays as it was, and the browser's notes are never touched. *)
Theorem hardDeleteNote_removes_rows_or_throws (id : string) (w : World.t) :
  match DatabaseState.db (World.database w) with
  | None => DatabaseService.hardDeleteNote id w = (w, Throw DatabaseNotInitialized)
  | Some d =>
      snd (DatabaseService.hardDeleteNote id w) = Ok tt
      ∧ Spec.storedNotes (fst (DatabaseService.hardDeleteNote id w))
        = (if DatabaseState.isWeb (World.database w)
           then Spec.storedNotes w
           else List.filter (fun n => negb (String.eqb (Note.id n) id))
                  (Spec.storedNotes w))
      ∧ DatabaseService.selectChecklistItems
          (default d (DatabaseState.db
                        (World.database (fst (DatabaseService.hardDeleteNote id w)))))
          id = []
  end.
Proof.
  destruct (DatabaseState.db (World.database w)) as [d|] eqn:Hdb.
  - unfold Spec.storedNotes.
    unfold DatabaseService.hardDeleteNote, DatabaseService.deleteChecklistItems, bind,
      DatabaseService.requireDb, DatabaseService.putDb, modify.
    rewrite Hdb. cbn. rewrite ?Hdb.
    split; [reflexivity|]. split.
    + destruct (DatabaseState.isWeb (World.database w)); [reflexivity|].
      apply map_filter_comm; [reflexivity|].
      intros r Hr. f_equal. unfold DatabaseService.selectChecklistItems. cbn.
      rewrite filter_filter_and. f_equal. f_equal. apply filter_ext_bool.
      intros c. destruct (String.eqb (ChecklistRow.note_id c) (NoteRow.id r)) eqn:Hc;
        [|apply andb_false_r].
      apply String.eqb_eq in Hc. rewrite Hc, Hr. reflexivity.
    + unfold DatabaseService.selectChecklistItems. cbn.
      rewrite filter_filter_and.
      rewrite (filter_ext_bool _ (fun _ => false)); [|intros c; apply andb_negb_l].
      induction (Sqlite.checklist_items d); [reflexivity|assumption].
  - unfold DatabaseService.hardDeleteNote, bind, DatabaseService.requireDb.
    rewrite Hdb. reflexivity.
Qed.

(** ** Marking a note as synced *)

Lemma elem_of_sort {A} (cmp : A → A → Z) x l : x ∈ Js.sort cmp l ↔ x ∈ l.
Proof. rewrite sort_perm. reflexivity. Qed.

Lemma elem_of_filter_bool {A} (p : A → bool) x l :
  x ∈ List.filter p l ↔ x ∈ l ∧ p x = true.
Proof. rewrite !list_elem_of_In. apply filter_In. Qed.

Lemma markAsSynced_native_value noteId syncId w d :
  DatabaseState.isWeb (World.database w) = false →
  DatabaseState.db (World.database w) = Some d →
  ∃ w', DatabaseService.markAsSynced noteId syncId w = (w', Ok tt)
        ∧ DatabaseState.isWeb (World.database w') = false
        ∧ DatabaseState.db (World.database w')
          = Some (Sqlite.mk
                    (map (fun r =>
                            if String.eqb (NoteRow.id r) noteId
                            then NoteRow.mk (NoteRow.id r) (NoteRow.title r)
                                   (NoteRow.content r) (NoteRow.rich_content r)
                                   (NoteRow.type r) (NoteRow.completed r)
                                   (NoteRow.tags r) (NoteRow.created_at r)
                                   (NoteRow.updated_at r) (Some syncId)
                                   (Some (Spec.clockReading w 0))
                                   (NoteRow.conflict_version r) (NoteRow.is_deleted r)
                                   (NoteRow.device_id r)
                            else r)
                         (Sqlite.notes d))
                    (Sqlite.checklist_items d) (Sqlite.sync_metadata d)).
Proof.
  intros Hweb Hdb.
  unfold DatabaseService.markAsSynced, DatabaseService.updateRows, bind,
    DatabaseService.isWeb, DatabaseService.requireDb, now, DatabaseService.putDb, modify,
    Spec.clockReading.
  rewrite Hweb, Hdb. cbn. rewrite ?Hdb, Nat.add_0_r. cbn.
  eexists. split; [reflexivity|]. cbn. rewrite Hweb. split; reflexivity.
Qed.

Lemma markAsSynced_web_value noteId syncId w :
  DatabaseState.isWeb (World.database w) = true →
  let stored := default [] (AsyncStorage.notes_storage (World.storage w)) in
  ∃ w', DatabaseService.markAsSynced noteId syncId w = (w', Ok tt)
        ∧ DatabaseState.isWeb (World.database w') = true
        ∧ default [] (AsyncStorage.notes_storage (World.storage w'))
          = match Js.findIndex (fun n => String.eqb (Note.id n) noteId) stored with
            | Some i =>
                DatabaseService.updateAt i
                  (Spec.withSync (Some syncId) (Some (Spec.clockReading w 0))) stored
            | None => stored
            end.
Proof.
  intros Hweb stored.
  unfold DatabaseService.markAsSynced, DatabaseService.markAsSyncedWeb, bind,
    DatabaseService.isWeb, DatabaseService.getNotesItem, Spec.clockReading.
  rewrite Hweb. fold stored.
  destruct (Js.findIndex _ stored) as [i|].
  - unfold now, DatabaseService.setNotesItem, modify. cbn. rewrite Nat.add_0_r.
    eexists. split; [reflexivity|]. cbn. split; [exact Hweb|]. world_proj. reflexivity.
  - unfold ret. eexists. split; [reflexivity|]. split; [exact Hweb|reflexivity].
Qed.

(** After [markAsSynced] went through, the note is no longer reported by
    [getNotesForSync], provided its [updatedAt] is not ahead of the device
    clock (a note stamped later than the mark stays dirty); notes with other
    ids are reported exactly as before. On the web path the stored ids must
    be distinct, because only the first note with the id is marked. *)
Theorem markAsSynced_clears_dirty_flag
    (noteId syncId : string) (w : World.t) (before after : list Note.t) :
  snd (DatabaseService.markAsSynced noteId syncId w) = Ok tt →
  (DatabaseState.isWeb (World.database w) = true →
   NoDup (map Note.id (Spec.storedNotes w))) →
  (∀ n : Note.t, n ∈ Spec.storedNotes w → Note.id n = noteId →
                 Note.updatedAt n <= Spec.clockReading w 0) →
  snd (DatabaseService.getNotesForSync w) = Ok before →
  snd (DatabaseService.getNotesForSync
         (fst (DatabaseService.markAsSynced noteId syncId w))) = Ok after →
  (noteId ∉ map Note.id after)
  ∧ ∀ n : Note.t, Note.id n ≠ noteId → (n ∈ after ↔ n ∈ before).
Proof.
  intros Hok Hnodup Hclock. rewrite getNotesForSync_value. cbn [snd].
  unfold Spec.storedNotes in Hnodup, Hclock.
  destruct (DatabaseState.isWeb (World.database w)) eqn:Hweb.
  - specialize (Hnodup eq_refl). intros [= <-].
    destruct (markAsSynced_web_value noteId syncId w Hweb) as (w' & -> & Hweb' & Hst).
    cbn [fst]. rewrite getNotesForSync_value, Hweb'. cbn [snd]. intros [= <-].
    rewrite Hst. clear Hst Hok w' Hweb'.
    set (stored := default [] (AsyncStorage.notes_storage (World.storage w))) in *.
    set (t := Spec.clockReading w 0) in *.
    destruct (Js.findIndex _ stored) as [i|] eqn:Hidx.
    + destruct (findIndex_Some _ _ _ Hidx) as (n0 & Hn0 & Hid0).
      apply String.eqb_eq in Hid0.
      unfold DatabaseService.updateAt. rewrite Hn0.
      assert (∀ j x, <[i := Spec.withSync (Some syncId) (Some t) n0]> stored !! j = Some x →
                     (j = i ∧ x = Spec.withSync (Some syncId) (Some t) n0)
                     ∨ (j ≠ i ∧ stored !! j = Some x ∧ Note.id x ≠ noteId)) as Hins.
      { intros j x Hj. destruct (decide (i = j)) as [<-|Hij].
        - rewrite list_lookup_insert_eq in Hj by (eapply lookup_lt_Some; exact Hn0).
          injection Hj as <-. auto.
        - rewrite list_lookup_insert_ne in Hj by exact Hij. right.
          split; [auto|]. split; [exact Hj|]. intros Hx. apply Hij.
          eapply NoDup_lookup; [exact Hnodup| |].
          + rewrite list_lookup_fmap, Hn0. reflexivity.
          + rewrite list_lookup_fmap, Hj. cbn. congruence. }
      split.
      * intros Hin. apply list_elem_of_fmap in Hin as (x & Hx & Hin).
        apply elem_of_sort, elem_of_filter_bool in Hin as [Hin Hdirty].
        apply elem_of_sort, elem_of_filter_bool in Hin as [Hin _].
        apply list_elem_of_lookup in Hin as [j Hj].
        destruct (Hins j x Hj) as [[_ ->]|(_ & _ & Hne)]; [|congruence].
        unfold DatabaseService.needsSync in Hdirty. cbn in Hdirty.
        apply Z.ltb_lt in Hdirty.
        assert (Note.updatedAt n0 <= t)
          by (apply Hclock; [eapply list_elem_of_lookup_2; exact Hn0|exact Hid0]).
        lia.
      * intros n Hn. rewrite !elem_of_sort, !elem_of_filter_bool.
        rewrite !elem_of_sort, !elem_of_filter_bool.
        assert (n ∈ <[i := Spec.withSync (Some syncId) (Some t) n0]> stored ↔ n ∈ stored)
          as Hiff; [|rewrite Hiff; reflexivity].
        split; intros Hin; apply list_elem_of_lookup in Hin as [j Hj].
        -- destruct (Hins j n Hj) as [[_ ->]|(_ & Hj' & _)].
           ++ exfalso. apply Hn. exact Hid0.
           ++ eapply list_elem_of_lookup_2; exact Hj'.
        -- apply list_elem_of_lookup. exists j.
           rewrite list_lookup_insert_ne; [exact Hj|].
           intros <-. rewrite Hn0 in Hj. injection Hj as <-. auto.
    + split; [|reflexivity].
      intros Hin. apply list_elem_of_fmap in Hin as (x & Hx & Hin).
      apply elem_of_sort, elem_of_filter_bool in Hin as [Hin _].
      apply elem_of_sort, elem_of_filter_bool in Hin as [Hin _].
      pose proof (findIndex_None _ _ Hidx x Hin) as Hf. cbn in Hf.
      apply String.eqb_neq in Hf. congruence.
  - clear Hnodup.
    destruct (DatabaseState.db (World.database w)) as [d|] eqn:Hdb; [|discriminate].
    intros [= <-].
    destruct (markAsSynced_native_value noteId syncId w d Hweb Hdb)
      as (w' & -> & Hweb' & Hdb').
    cbn [fst]. rewrite getNotesForSync_value, Hweb', Hdb'. cbn [snd]. intros [= <-].
    clear Hok Hweb' Hdb' w'.
    set (t := Spec.clockReading w 0) in *.
    unfold DatabaseService.selectChecklistItems. cbn [Sqlite.checklist_items Sqlite.notes].
    fold (DatabaseService.selectChecklistItems d).
    split.
    + intros Hin. apply list_elem_of_fmap in Hin as (x & Hx & Hin).
      apply list_elem_of_fmap in Hin as (r & -> & Hin).
      apply elem_of_sort, elem_of_filter_bool in Hin as [Hin Hdirty].
      apply list_elem_of_fmap in Hin as (r0 & -> & Hin).
      cbn in Hx.
      destruct (String.eqb (NoteRow.id r0) noteId) eqn:Hid.
      * unfold DatabaseService.rowNeedsSync in Hdirty. cbn in Hdirty.
        apply Z.ltb_lt in Hdirty.
        assert (NoteRow.updated_at r0 <= t); [|lia].
        apply (Hclock (DatabaseService.noteOfRow r0
                         (DatabaseService.selectChecklistItems d (NoteRow.id r0)))).
        -- apply list_elem_of_fmap. eauto.
        -- apply String.eqb_eq in Hid. exact Hid.
      * apply String.eqb_neq in Hid. congruence.
    + intros n Hn. rewrite !list_elem_of_fmap.
      split; intros (r & -> & Hin); cbn in Hn;
        apply elem_of_sort, elem_of_filter_bool in Hin as [Hin Hdirty].
      * apply list_elem_of_fmap in Hin as (r0 & -> & Hin).
        destruct (String.eqb (NoteRow.id r0) noteId) eqn:Hid.
        -- apply String.eqb_eq in Hid. cbn in Hn. congruence.
        -- exists r0. split; [reflexivity|].
           apply elem_of_sort, elem_of_filter_bool. auto.
      * exists r. split; [reflexivity|].
        apply elem_of_sort, elem_of_filter_bool. split; [|exact Hdirty].
        apply list_elem_of_fmap. exists r. split; [|exact Hin].
        apply String.eqb_neq in Hn. rewrite Hn. reflexivity.
Qed.

Lemma markAsSynced_clears_dirty_flag_witness :
  let w := fst (DatabaseService.deleteNote "n1" (Sample.native [Sample.localRow] ∅)) in
  ∃ before,
    snd (DatabaseService.getNotesForSync w) = Ok before
    ∧ "n1" ∈ map Note.id before
    ∧ snd (DatabaseService.getNotesForSync
             (fst (DatabaseService.markAsSynced "n1" "n1" w))) = Ok []
    ∧ "n1" ∉ map Note.id ([] : list Note.t).
Proof.
  intros w. eexists.
  assert (snd (DatabaseService.getNotesForSync w) = Ok _) as Hbefore
    by (vm_compute; reflexivity).
  assert (snd (DatabaseService.getNotesForSync
                 (fst (DatabaseService.markAsSynced "n1" "n1" w))) = Ok [])
    as Hafter by (vm_compute; reflexivity).
  split; [exact Hbefore|]. split; [left|]. split; [exact Hafter|].
  apply (markAsSynced_clears_dirty_flag "n1" "n1" w _ [] ltac:(vm_compute; reflexivity)
           ltac:(discriminate)
           ltac:(intros n Hn _; apply list_elem_of_singleton in Hn as ->;
                 vm_compute; discriminate)
           Hbefore Hafter).
Defined.

(** ** Sync metadata *)

Lemma inherited_proto key :
  Js.inherited key = false → String.eqb key "__proto__" = false.
Proof.
  intros H. apply String.eqb_neq. intros ->. discriminate H.
Qed.

(** Reading a metadata key after writing it gives the value back, except
    that the browser reads an empty string back as [null]; the other keys
    read as before. In the browser the metadata is a plain object, so this
    is for keys that are no names of [Object.prototype] members: a string
    assigned to [__proto__] is not stored at all. *)
Theorem setSyncMetadata_then_getSyncMetadata (key value other : string) (w : World.t) :
  snd (DatabaseService.setSyncMetadata key value w) = Ok tt →
  other ≠ key →
  (DatabaseState.isWeb (World.database w) = true →
   Js.inherited key = false ∧ Js.inherited other = false) →
  snd (DatabaseService.getSyncMetadata key
         (fst (DatabaseService.setSyncMetadata key value w)))
  = Ok (if DatabaseState.isWeb (World.database w) && negb (Js.truthy (Some value))
        then None else Some value)
  ∧ snd (DatabaseService.getSyncMetadata other
           (fst (DatabaseService.setSyncMetadata key value w)))
    = snd (DatabaseService.getSyncMetadata other w).
Proof.
  intros Hok Hother Hplain. revert Hok.
  unfold DatabaseService.setSyncMetadata, DatabaseService.getSyncMetadata, bind,
    DatabaseService.isWeb.
  destruct (DatabaseState.isWeb (World.database w)) eqn:Hweb.
  - intros _. destruct (Hplain eq_refl) as [Hkey _].
    unfold DatabaseService.setSyncMetadataWeb, DatabaseService.getSyncMetadataWeb, bind,
      DatabaseService.getMetadataItem, DatabaseService.setMetadataItem, modify, ret.
    rewrite (inherited_proto _ Hkey).
    unfold World.set_storage. cbn. rewrite Hweb. world_proj.
    rewrite lookup_insert_eq, lookup_insert_ne by auto.
    split; [|reflexivity]. cbn. destruct (String.eqb value ""); reflexivity.
  - unfold DatabaseService.requireDb.
    destruct (DatabaseState.db (World.database w)) as [d|]; [|discriminate].
    intros _.
    unfold now, DatabaseService.putDb, modify, World.set_database, World.set_env. cbn.
    rewrite Hweb. cbn. world_proj.
    rewrite lookup_insert_eq, lookup_insert_ne by auto. split; reflexivity.
Qed.

Lemma setSyncMetadata_then_getSyncMetadata_witness :
  snd (DatabaseService.getSyncMetadata "last_sync_time"
         (fst (DatabaseService.setSyncMetadata "last_sync_time" ""
                 (Sample.web [] ∅))))
  = Ok None
  ∧ snd (DatabaseService.getSyncMetadata "__proto__"
           (fst (DatabaseService.setSyncMetadata "__proto__" "v"
                   (Sample.native [] ∅))))
    = Ok (Some "v").
Proof.
  split.
  - refine (proj1 (setSyncMetadata_then_getSyncMetadata "last_sync_time" "" "other"
                     (Sample.web [] ∅) _ _ _));
      [vm_compute; reflexivity|discriminate|intros _; split; reflexivity].
  - refine (proj1 (setSyncMetadata_then_getSyncMetadata "__proto__" "v" "other"
                     (Sample.native [] ∅) _ _ _));
      [vm_compute; reflexivity|discriminate|discriminate].
Defined.

(** ** Saving and reading back *)

Lemma find_unique {A} (p : A → bool) (l : list A) (n : A) :
  (∀ x, x ∈ l → p x = true → x = n) → n ∈ l → p n = true →
  List.find p l = Some n.
Proof.
  intros Huniq Hin Hp. destruct (List.find p l) as [x|] eqn:Hfind.
  - apply find_some in Hfind as [Hx Hpx]. f_equal. apply Huniq; [|exact Hpx].
    apply list_elem_of_In. exact Hx.
  - apply list_elem_of_In in Hin. rewrite (find_none _ _ Hfind n Hin) in Hp.
    discriminate.
Qed.

Lemma itemOfRow_rowOfItem noteId item :
  DatabaseService.itemOfRow (DatabaseService.rowOfItem noteId item) = Spec.rebuilt item.
Proof. destruct item. reflexivity. Qed.

Lemma filter_all {A} (p : A → bool) (l : list A) :
  (∀ x, x ∈ l → p x = true) → List.filter p l = l.
Proof.
  induction l as [|x l IH]; intros H; [reflexivity|]. simpl.
  rewrite (H x) by left. rewrite IH; [reflexivity|]. intros y Hy. apply H. right. exact Hy.
Qed.

Lemma filter_none {A} (p : A → bool) (l : list A) :
  (∀ x, x ∈ l → p x = false) → List.filter p l = [].
Proof.
  induction l as [|x l IH]; intros H; [reflexivity|]. simpl.
  rewrite (H x) by left. apply IH. intros y Hy. apply H. right. exact Hy.
Qed.

Lemma insertChecklistRow_isWeb row w :
  DatabaseState.isWeb (World.database (fst (DatabaseService.insertChecklistRow row w)))
  = DatabaseState.isWeb (World.database w).
Proof.
  unfold DatabaseService.insertChecklistRow, bind, DatabaseService.requireDb.
  destruct (DatabaseState.db (World.database w)); [|reflexivity].
  destruct (existsb _ _); reflexivity.
Qed.

Lemma saveNote_isWeb input w :
  DatabaseState.isWeb (World.database (fst (DatabaseService.saveNote input w)))
  = DatabaseState.isWeb (World.database w).
Proof.
  unfold DatabaseService.saveNote.
  rewrite (bind_Ok get _ w w w) by reflexivity.
  destruct (negb _); [reflexivity|].
  erewrite (bind_Ok now) by reflexivity.
  erewrite (bind_Ok now) by reflexivity.
  erewrite (bind_Ok randomSuffix) by reflexivity.
  erewrite (bind_Ok DatabaseService.isWeb) by reflexivity.
  cbn [World.env World.set_env World.database Env.ticks Env.clock Env.random
       Env.draws default].
  match goal with |- context [Note.mk ?a ?b ?c ?d ?e] => set (newNote := Note.mk a b c d e) end.
  match goal with
  | |- context [if _ then _ else ?m] => set (native := m)
  end.
  match goal with
  | |- context [(if _ then _ else native) ?w0] => set (w1 := w0)
  end.
  assert (DatabaseState.isWeb (World.database w1)
          = DatabaseState.isWeb (World.database w)) as Hw1 by reflexivity.
  destruct (DatabaseState.isWeb (World.database w)) eqn:Hweb.
  - rewrite <- Hw1. reflexivity.
  - rewrite <- Hw1. subst native. clearbody w1. clear.
    unfold bind at 1, DatabaseService.requireDb.
    destruct (DatabaseState.db (World.database w1)) as [d|]; [|reflexivity].
    destruct (existsb _ _); [reflexivity|].
    erewrite (bind_Ok (DatabaseService.putDb _)) by reflexivity.
    match goal with |- context [(_ ;;; ret newNote) ?w0] => set (w2 := w0) end.
    assert (DatabaseState.isWeb (World.database w2)
            = DatabaseState.isWeb (World.database w1)) as <- by reflexivity.
    clearbody w2. unfold bind.
    match goal with
    | |- context [match ?m w2 with _ => _ end] =>
        assert (DatabaseState.isWeb (World.database (fst (m w2)))
                = DatabaseState.isWeb (World.database w2)) as Hm;
        [|destruct (m w2) as [w3 [[]|e]]; exact Hm]
    end.
    destruct (NoteInput.checklist input) as [[|item items]|]; try reflexivity.
    unfold DatabaseService.saveChecklistItems, bind, DatabaseService.requireDb.
    destruct (DatabaseState.db (World.database w2)); [|reflexivity].
    apply (forEach_invariant
             (fun w0 => DatabaseState.isWeb (World.database w0)
                        = DatabaseState.isWeb (World.database w2))); [|reflexivity].
    intros x w0 <-. apply insertChecklistRow_isWeb.
Qed.

(** Reading a note back by the id [saveNote] returned, when that id was not
    in use. The browser returns the saved note itself (times are
    millisecond values here, so a date that comes back from JSON as its ISO
    string, as [dueDate] and [reminderDate] do, counts as the same
    date). A native device
    returns what the row holds: [richContent], [completed],
    [conflictVersion] and [isDeleted] with their defaults filled in, the
    checklist ordered by creation time with each item built anew from its
    row, and none of [folderId],
    [audioNotes], [priority], [dueDate], [reminderDate], [isStarred],
    [isPinned], [isArchived]. A note saved with [isDeleted] set is not found
    at all. *)
Theorem saveNote_then_getNoteById (input : NoteInput.t) (w w' : World.t) (n : Note.t) :
  DatabaseService.saveNote input w = (w', Ok n) →
  (∀ m : Note.t, m ∈ Spec.storedNotes w → Note.id m ≠ Note.id n) →
  (∀ r, r ∈ Spec.checklistRows w → ChecklistRow.note_id r ≠ Note.id n) →
  ∃ checklist,
    checklist ≡ₚ map Spec.rebuilt (default [] (NoteInput.checklist input))
    ∧ Spec.ascendingBy ChecklistItem.createdAt checklist
    ∧ snd (DatabaseService.getNoteById (Note.id n) w')
      = Ok (if DatabaseService.notDeleted n
            then Some (if DatabaseState.isWeb (World.database w) then n
                       else DatabaseService.noteOfRow (DatabaseService.rowOfNote n)
                              checklist)
            else None).
Proof.
  intros Hsave Hfresh Horphan.
  pose proof (saveNote_isWeb input w) as Hweb'. rewrite Hsave in Hweb'. cbn [fst] in Hweb'.
  destruct (saveNote_Ok _ _ _ _ Hsave) as (dev & Hdev & Hn & Hstore).
  rewrite getNoteById_value, Hweb'. cbn [snd].
  unfold Spec.storedNotes in Hfresh. unfold Spec.checklistRows in Horphan.
  destruct (DatabaseState.isWeb (World.database w)) eqn:Hweb.
  - exists (Js.sort (fun a b => ChecklistItem.createdAt a - ChecklistItem.createdAt b)
              (map Spec.rebuilt (default [] (NoteInput.checklist input)))).
    split; [apply sort_perm|]. split; [apply sort_ascending|].
    rewrite Hstore. cbn [default]. f_equal.
    set (stored := default [] (AsyncStorage.notes_storage (World.storage w))) in *.
    destruct (DatabaseService.notDeleted n) eqn:Hlive.
    + apply find_unique.
      * intros x Hx Hid. apply String.eqb_eq in Hid.
        apply elem_of_sort, elem_of_filter_bool in Hx as [Hx _].
        apply elem_of_app in Hx as [Hx|Hx].
        -- exfalso. exact (Hfresh x Hx Hid).
        -- apply list_elem_of_singleton in Hx. exact Hx.
      * apply elem_of_sort, elem_of_filter_bool. split; [|exact Hlive].
        apply elem_of_app. right. left.
      * apply String.eqb_refl.
    + apply find_None_intro. intros x Hx.
      apply elem_of_sort, elem_of_filter_bool in Hx as [Hx Hxlive].
      apply elem_of_app in Hx as [Hx|Hx].
      * apply String.eqb_neq. exact (Hfresh x Hx).
      * apply list_elem_of_singleton in Hx. subst x. congruence.
  - destruct Hstore as (d & d' & Hd & Hd' & Hnotes & Hitems).
    rewrite Hd in Hfresh, Horphan. rewrite Hd'.
    exists (DatabaseService.selectChecklistItems d' (Note.id n)).
    assert (List.filter (fun r => String.eqb (ChecklistRow.note_id r) (Note.id n))
              (Sqlite.checklist_items d')
            = map (DatabaseService.rowOfItem (Note.id n))
                (default [] (NoteInput.checklist input))) as Hsel.
    { rewrite Hitems, List.filter_app.
      rewrite filter_none, filter_all; [reflexivity| |].
      - intros r Hr. apply list_elem_of_fmap in Hr as (item & -> & _).
        apply String.eqb_refl.
      - intros r Hr. apply String.eqb_neq. exact (Horphan r Hr). }
    split; [|split].
    + unfold DatabaseService.selectChecklistItems. rewrite sort_perm, Hsel.
      rewrite map_map. apply Permutation_refl'. apply map_ext.
      intros item. apply itemOfRow_rowOfItem.
    + apply StronglySorted_map. apply (sort_ascending ChecklistRow.created_at).
    + f_equal. rewrite Hnotes.
      assert (DatabaseService.notDeleted n
              = negb (NoteRow.is_deleted (DatabaseService.rowOfNote n))) as Hlive
        by reflexivity.
      destruct (DatabaseService.notDeleted n).
      * rewrite (find_unique _ _ (DatabaseService.rowOfNote n)); [reflexivity| | |].
        -- intros r Hr Hp. apply andb_prop in Hp as [Hid _]. apply String.eqb_eq in Hid.
           apply elem_of_app in Hr as [Hr|Hr].
           ++ exfalso.
              apply (Hfresh (DatabaseService.noteOfRow r
                               (DatabaseService.selectChecklistItems d (NoteRow.id r))));
                [|exact Hid].
              apply list_elem_of_fmap. eauto.
           ++ apply list_elem_of_singleton in Hr. exact Hr.
        -- apply elem_of_app. right. left.
        -- cbn [DatabaseService.rowOfNote NoteRow.id]. rewrite String.eqb_refl.
           cbn [andb]. symmetry. exact Hlive.
      * rewrite find_None_intro; [reflexivity|].
        intros r Hr. apply elem_of_app in Hr as [Hr|Hr].
        -- apply andb_false_intro1. apply String.eqb_neq.
           apply (Hfresh (DatabaseService.noteOfRow r
                            (DatabaseService.selectChecklistItems d (NoteRow.id r)))).
           apply list_elem_of_fmap. eauto.
        -- apply list_elem_of_singleton in Hr. subst r.
           apply andb_false_intro2. symmetry. exact Hlive.
Qed.

Lemma saveNote_then_getNoteById_witness :
  ∃ w' n checklist,
    DatabaseService.saveNote (Sample.shopping) (Sample.native [] ∅) = (w', Ok n)
    ∧ snd (DatabaseService.getNoteById (Note.id n) w')
      = Ok (Some (DatabaseService.noteOfRow (DatabaseService.rowOfNote n) checklist)).
Proof.
  pose (w' := fst (DatabaseService.saveNote (Sample.shopping) (Sample.native [] ∅))).
  pose (n := Note.mk "note_5001_r0" 5000 5000 "devA" (Sample.shopping)).
  assert (DatabaseService.saveNote (Sample.shopping) (Sample.native [] ∅)
          = (w', Ok n)) as Hsave by (vm_compute; reflexivity).
  destruct (saveNote_then_getNoteById _ _ _ _ Hsave) as (checklist & _ & _ & Hget).
  - intros m Hm. inversion Hm.
  - intros r Hr. inversion Hr.
  - exists w', n, checklist. split; [exact Hsave|exact Hget].
Defined.

(** ** Upload and download *)

Lemma mapAsync_uploaded_checklist (items : list ChecklistItem.t) w :
  mapAsync FirebaseSyncService.fromFirebaseItem
    (map FirebaseSyncService.toFirebaseItem items) w
  = (w, Ok (map Spec.respread items)).
Proof.
  induction items as [|[i t c d ks] items IH]; [reflexivity|].
  cbn [map mapAsync]. erewrite bind_Ok by reflexivity.
  erewrite bind_Ok by exact IH. reflexivity.
Qed.

(** What another device reads after an upload that went through: the
    document stored under [syncId || id] maps back to the note with the
    defaults of the upload filled in, [lastSyncAt] set to the time of
    reading and [syncId] set to the note's [id] (not to the document key).
    [folderId], [audioNotes], [priority], [dueDate], [reminderDate],
    [isStarred], [isPinned] and [isArchived] do not travel. Reading takes
    one clock reading. *)
Theorem uploadNote_then_mapFirebaseToNote (n : Note.t) (w w1 : World.t) :
  FirebaseSyncService.uploadNote n w = (w1, Ok tt) →
  ∃ data,
    World.firestore w1 !! Js.or_else (NoteInput.syncId n) (Note.id n) = Some data
    ∧ ∀ w2, FirebaseSyncService.mapFirebaseToNote data w2
            = (fst (now w2), Ok (Spec.downloaded n (Spec.clockReading w2 0))).
Proof.
  unfold FirebaseSyncService.uploadNote, Firestore.setDoc.
  rewrite (bind_Ok get _ w w w) by reflexivity.
  destruct (negb _); [discriminate|].
  unfold bind at 1, request.
  destruct (Env.network _ _); [|discriminate].
  unfold modify. intros [= <-].
  eexists. split.
  - unfold World.set_firestore, World.set_env. world_proj.
    cbn [World.firestore]. apply lookup_insert_eq.
  - intros w2. unfold FirebaseSyncService.mapFirebaseToNote.
    cbn [FirebaseNote.checklist FirebaseNote.createdAt FirebaseNote.updatedAt
         FirebaseSyncService.dateOrNow].
    erewrite bind_Ok.
    2: { erewrite bind_Ok by apply mapAsync_uploaded_checklist. reflexivity. }
    erewrite (bind_Ok (ret _)) by reflexivity.
    erewrite (bind_Ok (ret _)) by reflexivity.
    unfold bind, now, ret, Spec.clockReading, Spec.downloaded. rewrite Nat.add_0_r.
    reflexivity.
Qed.

Lemma uploadNote_then_mapFirebaseToNote_witness :
  ∃ data,
    World.firestore
      (fst (FirebaseSyncService.uploadNote Sample.localNote (Sample.web [] ∅)))
    !! "n1" = Some data
    ∧ FirebaseSyncService.mapFirebaseToNote data (Sample.web [] ∅)
      = (fst (now (Sample.web [] ∅)), Ok (Spec.downloaded Sample.localNote 5000)).
Proof.
  assert (FirebaseSyncService.uploadNote Sample.localNote (Sample.web [] ∅)
          = (fst (FirebaseSyncService.uploadNote Sample.localNote (Sample.web [] ∅)),
             Ok tt)) as Hup by (vm_compute; reflexivity).
  destruct (uploadNote_then_mapFirebaseToNote _ _ _ Hup) as (data & Hdata & Hmap).
  exists data. split; [exact Hdata|apply Hmap].
Defined.

(** ** What a sync pass reports *)

Lemma downloadEach_no_conflict docs w w' conflicts :
  FirebaseSyncService.downloadEach docs w = (w', Ok conflicts) → conflicts = [].
Proof.
  revert w w' conflicts. induction docs as [|data docs IH]; intros w w' conflicts; simpl.
  - intros [= _ <-]. reflexivity.
  - intros H. apply bind_inv_Ok in H as (w1 & c & Hc & H).
    apply bind_inv_Ok in H as (w2 & cs & Hcs & H).
    apply downloadRemoteChange_no_conflict in Hc as ->.
    apply IH in Hcs as ->. injection H as _ <-. reflexivity.
Qed.

Lemma downloadRemoteChanges_no_conflict w w' conflicts :
  FirebaseSyncService.downloadRemoteChanges w = (w', Ok conflicts) → conflicts = [].
Proof.
  unfold FirebaseSyncService.downloadRemoteChanges.
  rewrite (bind_Ok get _ w w w) by reflexivity.
  destruct (negb _); [intros [= _ <-]; reflexivity|].
  intros H.
  apply bind_inv_Ok in H as (w1 & lastSyncTime & _ & H).
  apply bind_inv_Ok in H as (w2 & since & _ & H).
  apply bind_inv_Ok in H as (w3 & docs & _ & H).
  apply bind_inv_Ok in H as (w4 & cs & Hcs & H).
  apply bind_inv_Ok in H as (w5 & ms & _ & H).
  apply bind_inv_Ok in H as (w6 & [] & _ & H).
  apply downloadEach_no_conflict in Hcs as ->.
  injection H as _ <-. reflexivity.
Qed.

(** A sync pass always returns, and the list of conflicts it returns is
    always empty: the pull asks [resolveConflict] only about notes whose
    timestamps differ, and then one side wins. *)
Theorem syncNotes_reports_no_conflict (w : World.t) :
  ∃ success,
    snd (FirebaseSyncService.syncNotes w)
    = Ok {| FirebaseSyncService.success := success;
            FirebaseSyncService.conflicts := [] |}.
Proof.
  unfold FirebaseSyncService.syncNotes.
  rewrite (bind_Ok get _ w w w) by reflexivity.
  destruct (_ || _); [eexists; reflexivity|].
  erewrite (bind_Ok DatabaseService.isOnline) by reflexivity.
  destruct (negb _); [eexists; reflexivity|].
  erewrite (bind_Ok (modify _)) by reflexivity.
  unfold finally, try_catch.
  match goal with
  | |- context [let (_, _) := match ?m ?w0 with _ => _ end in _] =>
      destruct (m w0) as [w1 [r|e]] eqn:Hm
  end; cbn [snd]; [|eexists; reflexivity].
  apply bind_inv_Ok in Hm as (w2 & localNotes & _ & Hm).
  apply bind_inv_Ok in Hm as (w3 & [] & _ & Hm).
  apply bind_inv_Ok in Hm as (w4 & cs & Hcs & Hm).
  apply downloadRemoteChanges_no_conflict in Hcs as ->.
  injection Hm as _ <-. eexists. reflexivity.
Qed.

(** ** A pass while the server cannot be reached *)

Lemma forEach_Ok {A} (I : World.t → Prop) (body : A → Async unit) xs w :
  (∀ x w0, I w0 → ∃ w1, body x w0 = (w1, Ok tt) ∧ I w1) →
  I w → ∃ w', forEach xs body w = (w', Ok tt) ∧ I w'.
Proof.
  intros Hbody. revert w. induction xs as [|x xs IH]; intros w Hw; simpl.
  - exists w. auto.
  - destruct (Hbody x w Hw) as (w1 & Hx & Hw1).
    rewrite (bind_Ok _ _ _ _ _ Hx). apply IH. exact Hw1.
Qed.

Lemma request_network_down w :
  Env.network (World.env w) (Env.requests (World.env w)) = false →
  ∃ w1, request w = (w1, Throw RequestFailed)
        ∧ World.local w1 = World.local w
        ∧ World.firestore w1 = World.firestore w
        ∧ World.sync w1 = World.sync w
        ∧ Env.network (World.env w1) = Env.network (World.env w).
Proof.
  intros Hdown. unfold request. rewrite Hdown. eexists. split; [reflexivity|].
  repeat split.
Qed.

Lemma getSyncMetadata_reads key w :
  fst (DatabaseService.getSyncMetadata key w) = w.
Proof.
  unfold DatabaseService.getSyncMetadata, DatabaseService.getSyncMetadataWeb, bind,
    DatabaseService.isWeb, DatabaseService.getMetadataItem, DatabaseService.requireDb, ret.
  destruct (DatabaseState.isWeb (World.database w)); [reflexivity|].
  destruct (DatabaseState.db (World.database w)); reflexivity.
Qed.

(** With every request to the server failing, a sync pass reports failure
    and leaves both the local store and the remote collection as they were:
    no dirty note is marked as synced and the watermark does not move. *)
Theorem syncNotes_network_down (w : World.t) :
  (∀ k, Env.network (World.env w) k = false) →
  SyncState.db (World.sync w) = true →
  snd (FirebaseSyncService.syncNotes w)
  = Ok {| FirebaseSyncService.success := false; FirebaseSyncService.conflicts := [] |}
  ∧ World.local (fst (FirebaseSyncService.syncNotes w)) = World.local w
  ∧ World.firestore (fst (FirebaseSyncService.syncNotes w)) = World.firestore w.
Proof.
  intros Hdown Hdb.
  pose (I := fun w0 : World.t =>
               World.local w0 = World.local w
               ∧ World.firestore w0 = World.firestore w
               ∧ SyncState.db (World.sync w0) = true
               ∧ Env.network (World.env w0) = Env.network (World.env w)).
  assert (∀ n w0, I w0 →
            ∃ w1, try_catch
                    (FirebaseSyncService.uploadNote n ;;;
                     DatabaseService.markAsSynced (Note.id n)
                       (Js.or_else (NoteInput.syncId n) (Note.id n)))
                    (fun _ => ret tt) w0 = (w1, Ok tt) ∧ I w1) as Hpush.
  { intros n w0 (Hl & Hf & Hd & Hn).
    destruct (request_network_down w0) as (w1 & Hreq & Hl1 & Hf1 & Hs1 & Hn1).
    { rewrite Hn. apply Hdown. }
    exists w1. split.
    - unfold try_catch.
      rewrite (bind_Throw _ _ w0 w1 RequestFailed); [reflexivity|].
      unfold FirebaseSyncService.uploadNote.
      rewrite (bind_Ok get _ w0 w0 w0) by reflexivity. rewrite Hd. cbn [negb].
      unfold Firestore.setDoc. apply bind_Throw. exact Hreq.
    - unfold I. rewrite Hl1, Hf1, Hs1, Hn1. auto. }
  assert (∀ w0, I w0 →
            ∃ w1 e, FirebaseSyncService.downloadRemoteChanges w0 = (w1, Throw e)
                    ∧ World.local w1 = World.local w
                    ∧ World.firestore w1 = World.firestore w) as Hpull.
  { intros w0 (Hl & Hf & Hd & Hn).
    unfold FirebaseSyncService.downloadRemoteChanges.
    rewrite (bind_Ok get _ w0 w0 w0) by reflexivity. rewrite Hd. cbn [negb].
    pose proof (getSyncMetadata_reads "last_sync_time" w0) as Hread.
    destruct (DatabaseService.getSyncMetadata "last_sync_time" w0) as [w1 [v|e]]
      eqn:Hmeta; cbn [fst] in Hread; subst w1.
    2: { exists w0, e. rewrite (bind_Throw _ _ w0 w0 e) by exact Hmeta. auto. }
    rewrite (bind_Ok _ _ w0 w0 v) by exact Hmeta.
    assert ((∃ since, (if Js.truthy v
                       then match Js.parseInt (default "" v) with
                            | Some t => ret (Some t)
                            | None => throw InvalidDate
                            end
                       else ret None) w0 = (w0, Ok since))
            ∨ (if Js.truthy v
               then match Js.parseInt (default "" v) with
                    | Some t => ret (Some t)
                    | None => throw InvalidDate
                    end
               else ret None) w0 = (w0, Throw InvalidDate)) as [[since Hs]|Hs].
    { destruct (Js.truthy v); [|left; eexists; reflexivity].
      destruct (Js.parseInt _); [left; eexists; reflexivity|right; reflexivity]. }
    2: { exists w0, InvalidDate. rewrite (bind_Throw _ _ _ _ _ Hs). auto. }
    rewrite (bind_Ok _ _ _ _ _ Hs).
    destruct (request_network_down w0) as (w1 & Hreq & Hl1 & Hf1 & _).
    { rewrite Hn. apply Hdown. }
    exists w1, RequestFailed. split.
    - apply bind_Throw. unfold Firestore.getDocs. apply bind_Throw. exact Hreq.
    - rewrite Hl1, Hf1. auto. }
  unfold FirebaseSyncService.syncNotes.
  rewrite (bind_Ok get _ w w w) by reflexivity.
  destruct (_ || _); [auto|].
  erewrite (bind_Ok DatabaseService.isOnline) by reflexivity.
  destruct (negb _); [auto|].
  erewrite (bind_Ok (modify _)) by reflexivity.
  set (w0 := FirebaseSyncService.setSyncInProgress true w).
  assert (I w0) as Hw0 by (unfold I; cbn; auto).
  clearbody w0.
  unfold finally.
  match goal with
  | |- context [try_catch ?m ?h w0] =>
      assert (∃ w1, try_catch m h w0
                    = (w1, Ok {| FirebaseSyncService.success := false;
                                 FirebaseSyncService.conflicts := [] |})
                    ∧ World.local w1 = World.local w
                    ∧ World.firestore w1 = World.firestore w)
        as (w1 & -> & Hl1 & Hf1)
  end.
  { unfold try_catch at 1.
    pose proof (getNotesForSync_value w0) as Hdirty.
    destruct (DatabaseService.getNotesForSync w0) as [w1 [localNotes|e]] eqn:Hget;
      injection Hdirty as -> _.
    2: { rewrite (bind_Throw _ _ _ _ _ Hget). destruct Hw0 as (Hl & Hf & _).
         exists w0. auto. }
    rewrite (bind_Ok _ _ _ _ _ Hget).
    destruct (forEach_Ok I _ localNotes w0 Hpush Hw0) as (w2 & Hloop & Hw2).
    rewrite (bind_Ok _ _ _ _ _ Hloop).
    destruct (Hpull w2 Hw2) as (w3 & e & Hdl & Hl3 & Hf3).
    rewrite (bind_Throw _ _ _ _ _ Hdl). exists w3. auto. }
  split; [reflexivity|split; [exact Hl1|exact Hf1]].
Qed.

Lemma syncNotes_network_down_witness :
  let w := World.set_env
             (Env.mk Sample.clock 0 (Env.random Sample.env) 0 (fun _ => false)
                     (Env.serverTime Sample.env) 0 true)
             (Sample.native [Sample.localRow] ∅) in
  snd (FirebaseSyncService.syncNotes w)
  = Ok {| FirebaseSyncService.success := false; FirebaseSyncService.conflicts := [] |}
  ∧ World.local (fst (FirebaseSyncService.syncNotes w)) = World.local w
  ∧ World.firestore (fst (FirebaseSyncService.syncNotes w)) = World.firestore w.
Proof.
  intros w. apply (syncNotes_network_down w); reflexivity.
Defined.

(** ** Pulling the same remote note again *)

Lemma find_None_elim {A} (p : A → bool) (l : list A) :
  List.find p l = None → ∀ x, x ∈ l → p x = false.
Proof. intros H x Hx. apply (find_none _ _ H). apply list_elem_of_In. exact Hx. Qed.

(** When [saveRemoteNote] stores a remote note that was not found locally,
    the copy gets a generated id. Unless that id happens to be the remote
    note's own, a lookup by the remote id finds nothing afterwards either,
    while the store has grown by one note: pulling the same document again
    stores another copy. *)
Theorem saveRemoteNote_copy_not_found_by_remote_id (remote : Note.t) (w w' : World.t) :
  DatabaseService.getNoteById (Note.id remote) w = (w, Ok None) →
  FirebaseSyncService.saveRemoteNote remote w = (w', Ok tt) →
  Note.id remote ≠ "note_" +:+ pretty (Spec.clockReading w 2) +:+ "_"
                   +:+ Env.random (World.env w) (Env.draws (World.env w)) →
  DatabaseService.getNoteById (Note.id remote) w' = (w', Ok None)
  ∧ length (Spec.storedNotes w') = S (length (Spec.storedNotes w)).
Proof.
  intros Hget Hsave Hid.
  unfold FirebaseSyncService.saveRemoteNote in Hsave.
  rewrite (bind_Ok _ _ _ _ _ Hget) in Hsave.
  apply bind_inv_Ok in Hsave as (w2 & date & Hnow & Hsave).
  apply bind_inv_Ok in Hsave as (w3 & n & Hsave & Hret).
  injection Hret as <-. unfold now in Hnow. injection Hnow as <- <-.
  match type of Hsave with
  | DatabaseService.saveNote ?i ?w0 = _ => pose proof (saveNote_isWeb i w0) as Hweb'
  end.
  rewrite Hsave in Hweb'.
  cbn [fst] in Hweb'.
  destruct (saveNote_Ok _ _ _ _ Hsave) as (dev & _ & Hn & Hstore).
  assert (Note.id n ≠ Note.id remote) as Hne.
  { rewrite Hn. cbn [Note.id]. intros Heq. apply Hid. rewrite <- Heq.
    unfold Spec.clockReading. cbn. do 3 f_equal. f_equal. lia. }
  clear Hn Hid Hsave.
  rewrite getNoteById_value in Hget |- *. rewrite Hweb'.
  unfold Spec.storedNotes. rewrite Hweb'.
  cbn [World.database World.set_env World.storage] in *.
  destruct (DatabaseState.isWeb (World.database w)).
  - rewrite Hstore. cbn [default from_option]. unfold id.
    set (stored := default [] (AsyncStorage.notes_storage (World.storage w))) in *.
    injection Hget as Hfind.
    split; [|rewrite length_app; cbn; lia].
    f_equal. f_equal. apply find_None_intro. intros x Hx.
    apply elem_of_sort, elem_of_filter_bool in Hx as [Hx Hlive].
    apply elem_of_app in Hx as [Hx|Hx].
    + apply (find_None_elim _ _ Hfind).
      apply elem_of_sort, elem_of_filter_bool. auto.
    + apply list_elem_of_singleton in Hx. subst x. apply String.eqb_neq. exact Hne.
  - destruct Hstore as (d & d' & Hd & Hd' & Hnotes & _).
    rewrite Hd in Hget |- *. rewrite Hd'. injection Hget as Hfind.
    rewrite Hnotes, !length_map, length_app.
    split; [|cbn; lia].
    f_equal. f_equal. rewrite find_None_intro; [reflexivity|].
    intros r Hr. apply elem_of_app in Hr as [Hr|Hr].
    + destruct (List.find _ (Sqlite.notes d)) eqn:Hrows; [discriminate|].
      apply (find_None_elim _ _ Hrows). exact Hr.
    + apply list_elem_of_singleton in Hr. subst r. apply andb_false_intro1.
      apply String.eqb_neq. exact Hne.
Qed.

Lemma saveRemoteNote_copy_not_found_by_remote_id_witness :
  ∃ w',
    FirebaseSyncService.saveRemoteNote Sample.fetchedNote Sample.freshDevice = (w', Ok tt)
    ∧ DatabaseService.getNoteById "n1" w' = (w', Ok None)
    ∧ length (Spec.storedNotes w') = 1%nat.
Proof.
  exists (fst (FirebaseSyncService.saveRemoteNote Sample.fetchedNote Sample.freshDevice)).
  assert (FirebaseSyncService.saveRemoteNote Sample.fetchedNote Sample.freshDevice
          = (fst (FirebaseSyncService.saveRemoteNote Sample.fetchedNote
                    Sample.freshDevice), Ok tt)) as Hsave by (vm_compute; reflexivity).
  split; [exact Hsave|].
  apply (saveRemoteNote_copy_not_found_by_remote_id Sample.fetchedNote Sample.freshDevice).
  - vm_compute. reflexivity.
  - exact Hsave.
  - vm_compute. discriminate.
Defined.

(** ** A checklist item whose id is taken *)

Lemma insertChecklistRows_clash noteId items w d :
  DatabaseState.db (World.database w) = Some d →
  (∃ item r, item ∈ items ∧ r ∈ Sqlite.checklist_items d
             ∧ ChecklistRow.id r = ChecklistItem.id item) →
  ∃ w' d',
    forEach items
      (fun item => DatabaseService.insertChecklistRow (DatabaseService.rowOfItem noteId item))
      w = (w', Throw ConstraintFailed)
    ∧ DatabaseState.db (World.database w') = Some d'
    ∧ Sqlite.notes d' = Sqlite.notes d.
Proof.
  revert w d. induction items as [|x items IH]; intros w d Hd (item & r & Hitem & Hr & Hid).
  - inversion Hitem.
  - cbn [forEach].
    unfold DatabaseService.insertChecklistRow at 1.
    unfold bind at 1. unfold bind at 1. unfold DatabaseService.requireDb at 1. rewrite Hd.
    destruct (existsb _ (Sqlite.checklist_items d)) eqn:Hex.
    + exists w, d. auto.
    + unfold DatabaseService.putDb, modify.
      match goal with
      | |- context [forEach items ?body ?w0] =>
          destruct (IH w0 (Sqlite.mk (Sqlite.notes d)
                             (Sqlite.checklist_items d
                              ++ [DatabaseService.rowOfItem noteId x])%list
                             (Sqlite.sync_metadata d)) eq_refl)
            as (w' & d' & Hloop & Hd' & Hnotes)
      end.
      * apply elem_of_cons in Hitem as [->|Hitem].
        -- exfalso. apply Bool.not_true_iff_false in Hex. apply Hex.
           apply existsb_exists. exists r. split; [apply list_elem_of_In; exact Hr|].
           apply String.eqb_eq. exact Hid.
        -- exists item, r. split; [exact Hitem|]. split; [|exact Hid].
           cbn. apply elem_of_app. left. exact Hr.
      * exists w', d'. rewrite Hloop. auto.
Qed.

(** On a native device [saveNote] writes the note row first and the
    checklist rows one by one after it, outside any transaction. If one of
    the checklist items has an id that is already in the table, the call
    throws, yet the note's row has been written and stays. *)
Theorem saveNote_native_checklist_clash_keeps_row
    (input : NoteInput.t) (w : World.t) (d : Sqlite.t) (items : list ChecklistItem.t) :
  DatabaseState.isWeb (World.database w) = false →
  DatabaseState.db (World.database w) = Some d →
  Js.truthy (DatabaseState.deviceId (World.database w)) = true →
  (∀ r, r ∈ Sqlite.notes d →
        NoteRow.id r ≠ "note_" +:+ pretty (Spec.clockReading w 1) +:+ "_"
                       +:+ Env.random (World.env w) (Env.draws (World.env w))) →
  NoteInput.checklist input = Some items →
  (∃ item r, item ∈ items ∧ r ∈ Sqlite.checklist_items d
             ∧ ChecklistRow.id r = ChecklistItem.id item) →
  snd (DatabaseService.saveNote input w) = Throw ConstraintFailed
  ∧ ∃ row, Spec.noteRows (fst (DatabaseService.saveNote input w))
           = (Spec.noteRows w ++ [row])%list
           ∧ NoteRow.title row = NoteInput.title input.
Proof.
  intros Hweb Hd Hdev Hfresh Hcl Hclash.
  unfold Spec.noteRows at 2. rewrite Hd.
  unfold DatabaseService.saveNote.
  rewrite (bind_Ok get _ w w w) by reflexivity. rewrite Hdev. cbn [negb].
  erewrite (bind_Ok now) by reflexivity.
  erewrite (bind_Ok now) by reflexivity.
  erewrite (bind_Ok randomSuffix) by reflexivity.
  erewrite (bind_Ok DatabaseService.isWeb) by reflexivity.
  cbn [World.env World.set_env World.database Env.ticks Env.clock Env.random
       Env.draws default].
  rewrite Hweb.
  erewrite (bind_Ok DatabaseService.requireDb)
    by (unfold DatabaseService.requireDb; cbn; rewrite Hd; reflexivity).
  unfold Spec.clockReading in Hfresh. rewrite Nat.add_1_r in Hfresh.
  match goal with
  | |- context [existsb ?p (Sqlite.notes d)] =>
      assert (existsb p (Sqlite.notes d) = false) as ->
  end.
  { apply Bool.not_true_iff_false. intros Hex.
    apply existsb_exists in Hex as (r & Hr & Hid). apply String.eqb_eq in Hid.
    apply list_elem_of_In in Hr. exact (Hfresh r Hr Hid). }
  erewrite (bind_Ok (DatabaseService.putDb _)) by reflexivity.
  rewrite Hcl.
  destruct items as [|item0 items0]; [destruct Hclash as (? & ? & H & _); inversion H|].
  unfold DatabaseService.saveChecklistItems.
  match goal with
  | |- context [bind (bind DatabaseService.requireDb ?k) _ ?w0] =>
      destruct (insertChecklistRows_clash
                  ("note_" +:+ pretty (Env.clock (World.env w) (S (Env.ticks (World.env w))))
                   +:+ "_" +:+ Env.random (World.env w) (Env.draws (World.env w)))
                  (item0 :: items0) w0 _ eq_refl Hclash)
        as (w' & d' & Hloop & Hd' & Hnotes);
      rewrite (bind_Throw (bind DatabaseService.requireDb k) _ w0 w' ConstraintFailed)
  end.
  - unfold Spec.noteRows. cbn [fst snd]. rewrite Hd', Hnotes.
    split; [reflexivity|]. eexists. split; reflexivity.
  - erewrite (bind_Ok DatabaseService.requireDb) by reflexivity. exact Hloop.
Qed.

Lemma saveNote_native_checklist_clash_keeps_row_witness :
  snd (DatabaseService.saveNote Sample.shopping Sample.takenItemId)
  = Throw ConstraintFailed
  ∧ ∃ row, Spec.noteRows (fst (DatabaseService.saveNote Sample.shopping Sample.takenItemId))
           = [row]
           ∧ NoteRow.title row = "shopping".
Proof.
  apply (saveNote_native_checklist_clash_keeps_row Sample.shopping Sample.takenItemId
           (Sqlite.mk [] [DatabaseService.rowOfItem "n0" Sample.milk] ∅) [Sample.milk]).
  - reflexivity.
  - reflexivity.
  - reflexivity.
  - intros r Hr. inversion Hr.
  - reflexivity.
  - exists Sample.milk, (DatabaseService.rowOfItem "n0" Sample.milk).
    split; [left|]. split; [left|reflexivity].
Defined.

(** ** What the store publishes *)

Lemma loadNotes_reads s w : snd (NotesStore.loadNotes s w) = w.
Proof.
  unfold NotesStore.loadNotes, DatabaseService.isOnline.
  rewrite getAllNotes_value, getNotesForSync_value.
  destruct (DatabaseState.isWeb (World.database w)).
  - cbv beta iota.
    destruct (Js.sort _ (List.filter DatabaseService.notDeleted _)); reflexivity.
  - destruct (DatabaseState.db (World.database w)) as [d|]; [|reflexivity].
    cbv beta iota.
    destruct (map _ (Js.sort _ (List.filter (fun r => negb (NoteRow.is_deleted r)) _)));
      reflexivity.
Qed.

(** [loadNotes] only reads: the device is left as it was. It always clears
    [isLoading] and never touches the open conflicts. Either both reads go
    through, and the published notes are those of [getAllNotes] with
    [pendingChanges] the number of notes [getNotesForSync] returns and
    [isOnline] the connectivity reading, or the first read fails and the
    state is otherwise unchanged; there is no half-updated state. *)
Theorem loadNotes_publishes_store (s : NotesStore.State) (w : World.t) :
  snd (NotesStore.loadNotes s w) = w
  ∧ NotesStore.isLoading (fst (NotesStore.loadNotes s w)) = false
  ∧ SyncStatus.conflicts (NotesStore.syncStatus (fst (NotesStore.loadNotes s w)))
    = SyncStatus.conflicts (NotesStore.syncStatus s)
  ∧ ((∃ loaded pending,
        snd (DatabaseService.getAllNotes w) = Ok loaded
        ∧ snd (DatabaseService.getNotesForSync w) = Ok pending
        ∧ NotesStore.notes (fst (NotesStore.loadNotes s w)) = loaded
        ∧ SyncStatus.pendingChanges (NotesStore.syncStatus (fst (NotesStore.loadNotes s w)))
          = Z.of_nat (length pending)
        ∧ SyncStatus.isOnline (NotesStore.syncStatus (fst (NotesStore.loadNotes s w)))
          = Env.online (World.env w))
     ∨ (∃ e, snd (DatabaseService.getAllNotes w) = Throw e
             ∧ fst (NotesStore.loadNotes s w) = NotesStore.setIsLoading false s)).
Proof.
  unfold NotesStore.loadNotes, DatabaseService.isOnline.
  rewrite getAllNotes_value, getNotesForSync_value.
  destruct (DatabaseState.isWeb (World.database w)).
  - match goal with
    | |- context [(w, Ok ?l)] => destruct l as [|n loaded] eqn:Hloaded
    end; (repeat split; left; do 2 eexists; repeat split; reflexivity).
  - destruct (DatabaseState.db (World.database w)) as [d|].
    + match goal with
      | |- context [(w, Ok ?l)] => destruct l as [|n loaded] eqn:Hloaded
      end; (repeat split; left; do 2 eexists; repeat split; reflexivity).
    + repeat split. right. eexists. split; reflexivity.
Qed.

(** The statistics partition the notes: every note is counted once, as a
    note or as a task, and [pendingTasks] is the number of tasks that are
    not completed, so it is never negative. *)
Theorem useNotesStats_partition (allNotes : list Note.t) :
  (NotesStore.totalNotes (NotesStore.useNotesStats allNotes)
   + NotesStore.totalTasks (NotesStore.useNotesStats allNotes))%nat
  = length allNotes
  ∧ NotesStore.pendingTasks (NotesStore.useNotesStats allNotes)
    = Z.of_nat
        (length (List.filter
                   (fun n => NotesStore.isType task n
                             && negb (default false (NoteInput.completed n)))
                   allNotes))
  ∧ 0 <= NotesStore.pendingTasks (NotesStore.useNotesStats allNotes).
Proof.
  assert (NotesStore.pendingTasks (NotesStore.useNotesStats allNotes)
          = Z.of_nat
              (length (List.filter
                         (fun n => NotesStore.isType task n
                                   && negb (default false (NoteInput.completed n)))
                         allNotes))) as Hpending.
  { unfold NotesStore.useNotesStats. cbn [NotesStore.pendingTasks].
    induction allNotes as [|n l IH]; [reflexivity|]. cbn [List.filter].
    destruct (NotesStore.isType task n), (default false (NoteInput.completed n));
      cbn [andb negb length]; lia. }
  split; [|split; [exact Hpending|rewrite Hpending; lia]].
  clear Hpending.
  unfold NotesStore.useNotesStats. cbn [NotesStore.totalNotes NotesStore.totalTasks].
  induction allNotes as [|n l IH]; [reflexivity|]. cbn [List.filter].
  unfold NotesStore.isType in *.
  destruct (NoteInput.type n) eqn:Htype;
    repeat case_bool_decide; try congruence; cbn [length]; lia.
Qed.

(** ** Reading the watermark back *)

Lemma digit_pretty_N_char d :
  (d < 10)%N → Js.digit (pretty_N_char d) = Some (Z.of_N d).
Proof.
  intros Hd.
  assert (d = 0 ∨ d = 1 ∨ d = 2 ∨ d = 3 ∨ d = 4 ∨ d = 5 ∨ d = 6 ∨ d = 7 ∨ d = 8 ∨ d = 9)%N
    as Hcases by lia.
  repeat (destruct Hcases as [->|Hcases]; [reflexivity|]). subst d. reflexivity.
Qed.

Lemma parseDigits_pretty_N_go x s :
  (0 < x)%N →
  Js.parseDigits (pretty_N_go x s) None = Js.parseDigits s (Some (Z.of_N x)).
Proof.
  revert s. induction (N.lt_wf_0 x) as [x _ IH]. intros s Hx.
  rewrite pretty_N_go_step by exact Hx.
  assert (x `mod` 10 < 10)%N as Hmod by (apply N.mod_lt; lia).
  pose proof (N.div_mod x 10 ltac:(lia)) as Hdiv.
  assert (x `div` 10 < x)%N as Hlt by (apply N.div_lt; lia).
  destruct (decide (x `div` 10 = 0)%N) as [Hz|Hnz].
  - rewrite Hz, pretty_N_go_0. cbn [Js.parseDigits].
    rewrite (digit_pretty_N_char _ Hmod). cbn [default]. do 2 f_equal.
    rewrite Hz in Hdiv. remember (x `mod` 10)%N as m in *. clear Heqm. unfold id. lia.
  - rewrite IH by lia. cbn [Js.parseDigits].
    rewrite (digit_pretty_N_char _ Hmod). cbn [default]. do 2 f_equal.
    remember (x `mod` 10)%N as m in *. remember (x `div` 10)%N as q in *.
    clear Heqm Heqq IH. unfold id. lia.
Qed.

Lemma pretty_N_go_head x s :
  (0 < x)%N → ∃ d s', (d < 10)%N ∧ pretty_N_go x s = String (pretty_N_char d) s'.
Proof.
  revert s. induction (N.lt_wf_0 x) as [x _ IH]. intros s Hx.
  rewrite pretty_N_go_step by exact Hx.
  destruct (decide (x `div` 10 = 0)%N) as [Hz|Hnz].
  - rewrite Hz, pretty_N_go_0. exists (x `mod` 10)%N, s.
    split; [apply N.mod_lt; lia|reflexivity].
  - apply IH; [apply N.div_lt; lia|]. apply N.neq_0_lt_0. exact Hnz.
Qed.

Lemma parseInt_digit_head d s :
  (d < 10)%N →
  Js.parseInt (String (pretty_N_char d) s) = Js.parseDigits (String (pretty_N_char d) s) None.
Proof.
  intros Hd.
  assert (d = 0 ∨ d = 1 ∨ d = 2 ∨ d = 3 ∨ d = 4 ∨ d = 5 ∨ d = 6 ∨ d = 7 ∨ d = 8 ∨ d = 9)%N
    as Hcases by lia.
  repeat (destruct Hcases as [->|Hcases]; [reflexivity|]). subst d. reflexivity.
Qed.

(** [parseInt] reads back every number that [toString] writes. *)
Lemma parseInt_pretty (z : Z) : Js.parseInt (pretty z) = Some z.
Proof.
  destruct z as [|p|p].
  - reflexivity.
  - change (pretty (Z.pos p)) with (pretty_N_go (N.pos p) "").
    destruct (pretty_N_go_head (N.pos p) "") as (d & s' & Hd & Hhead); [lia|].
    rewrite Hhead, (parseInt_digit_head _ _ Hd), <- Hhead.
    rewrite parseDigits_pretty_N_go by lia. reflexivity.
  - change (pretty (Z.neg p)) with (String "-" (pretty_N_go (N.pos p) "")).
    cbn [Js.parseInt]. rewrite parseDigits_pretty_N_go by lia. reflexivity.
Qed.

(** After a pull that went through, the stored watermark is a number [t]
    that [parseInt] reads back unchanged. A later pull from any state that
    still has this watermark, with the request going through, therefore does
    not fail on the date: it is the loop of the pull over exactly the
    documents the query returns for [lastModified > t] (the 100 newest),
    followed by the new watermark. A document the server stamped [t] or
    earlier, however late it was written, is not looked at again. *)
Theorem downloadRemoteChanges_next_pull_after_watermark
    (w w' : World.t) (conflicts : list SyncConflict.t) :
  SyncState.db (World.sync w) = true →
  FirebaseSyncService.downloadRemoteChanges w = (w', Ok conflicts) →
  ∃ t,
    Spec.watermark w' = Ok (Some (pretty t))
    ∧ ∀ w2,
        SyncState.db (World.sync w2) = true →
        Spec.watermark w2 = Spec.watermark w' →
        Env.network (World.env w2) (Env.requests (World.env w2)) = true →
        FirebaseSyncService.downloadRemoteChanges w2
        = (found <~ FirebaseSyncService.downloadEach
                      (Firestore.runQuery (Some t) 100 (World.firestore w2)) ;;
           ms <~ now ;;
           DatabaseService.setSyncMetadata "last_sync_time" (pretty ms) ;;;
           ret found)
            (fst (request w2))
        ∧ ∀ d, d ∈ Firestore.runQuery (Some t) 100 (World.firestore w2) →
               t < FirebaseNote.lastModified d.
Proof.
  intros Hdb. unfold FirebaseSyncService.downloadRemoteChanges at 1.
  rewrite (bind_Ok get _ w w w) by reflexivity. rewrite Hdb. cbn [negb].
  intros H.
  apply bind_inv_Ok in H as (w1 & lastSyncTime & _ & H).
  apply bind_inv_Ok in H as (w2 & since & _ & H).
  apply bind_inv_Ok in H as (w3 & docs & _ & H).
  apply bind_inv_Ok in H as (w4 & found & _ & H).
  apply bind_inv_Ok in H as (w5 & ms & _ & H).
  apply bind_inv_Ok in H as (w6 & [] & Hset & H).
  injection H as <- _.
  destruct (setSyncMetadata_read "last_sync_time" _ _ _ eq_refl (pretty_Z_truthy ms) Hset)
    as (Hget & _).
  exists ms. unfold Spec.watermark. rewrite Hget. cbn [snd].
  split; [reflexivity|].
  intros v Hdbv Hmark Hnet. split.
  - assert (DatabaseService.getSyncMetadata "last_sync_time" v
            = (v, Ok (Some (pretty ms)))) as Hread.
    { pose proof (getSyncMetadata_reads "last_sync_time" v) as Hfst.
      destruct (DatabaseService.getSyncMetadata "last_sync_time" v) as [v' r].
      cbn [fst snd] in *. congruence. }
    unfold FirebaseSyncService.downloadRemoteChanges.
    rewrite (bind_Ok get _ v v v) by reflexivity. rewrite Hdbv. cbn [negb].
    rewrite (bind_Ok _ _ _ _ _ Hread).
    rewrite pretty_Z_truthy. cbn [default from_option]. unfold id.
    rewrite parseInt_pretty.
    erewrite (bind_Ok (ret _)) by reflexivity.
    erewrite (bind_Ok (Firestore.getDocs _ _)); [reflexivity|].
    unfold Firestore.getDocs, bind, request, get, ret. rewrite Hnet. reflexivity.
  - intros d Hd. unfold Firestore.runQuery in Hd.
    apply elem_of_take in Hd as (i & Hd & _). apply list_elem_of_lookup_2 in Hd.
    apply list_elem_of_fmap in Hd as ([k x] & -> & Hd).
    apply elem_of_sort, elem_of_filter_bool in Hd as [_ Hd].
    apply Z.ltb_lt in Hd. exact Hd.
Qed.

Lemma downloadRemoteChanges_next_pull_after_watermark_witness :
  ∃ w',
    FirebaseSyncService.downloadRemoteChanges Sample.freshDevice = (w', Ok [])
    ∧ Spec.watermark w' = Ok (Some "5004")
    ∧ let w2 := World.set_firestore
                  {[ "n1" := Sample.remoteDoc 250 4000; "n3" := Sample.laterDoc ]} w' in
      Firestore.runQuery (Some 5004) 100 (World.firestore w2) = [Sample.laterDoc]
      ∧ FirebaseSyncService.downloadRemoteChanges w2
        = (found <~ FirebaseSyncService.downloadEach [Sample.laterDoc] ;;
           ms <~ now ;;
           DatabaseService.setSyncMetadata "last_sync_time" (pretty ms) ;;;
           ret found)
            (fst (request w2)).
Proof.
  exists (fst (FirebaseSyncService.downloadRemoteChanges Sample.freshDevice)).
  assert (FirebaseSyncService.downloadRemoteChanges Sample.freshDevice
          = (fst (FirebaseSyncService.downloadRemoteChanges Sample.freshDevice), Ok []))
    as Hpull by (vm_compute; reflexivity).
  split; [exact Hpull|].
  destruct (downloadRemoteChanges_next_pull_after_watermark
              Sample.freshDevice _ [] eq_refl Hpull) as (t & Hmark & Hnext).
  assert (Spec.watermark (fst (FirebaseSyncService.downloadRemoteChanges Sample.freshDevice))
          = Ok (Some "5004")) as Hval by (vm_compute; reflexivity).
  split; [exact Hval|].
  assert (t = 5004) as ->.
  { rewrite Hval in Hmark. injection Hmark as Hmark.
    apply (f_equal Js.parseInt) in Hmark. rewrite parseInt_pretty in Hmark.
    vm_compute in Hmark. congruence. }
  intros w2.
  assert (Firestore.runQuery (Some 5004) 100 (World.firestore w2) = [Sample.laterDoc])
    as Hdocs by (vm_compute; reflexivity).
  split; [exact Hdocs|].
  rewrite <- Hdocs.
  assert (SyncState.db (World.sync w2) = true) as H1 by (vm_compute; reflexivity).
  assert (Spec.watermark w2
          = Spec.watermark
              (fst (FirebaseSyncService.downloadRemoteChanges Sample.freshDevice)))
    as H2 by (vm_compute; reflexivity).
  assert (Env.network (World.env w2) (Env.requests (World.env w2)) = true) as H3
    by (vm_compute; reflexivity).
  exact (proj1 (Hnext w2 H1 H2 H3)).
Defined.

(** After a pass that reports success, [performSync] publishes
    [pendingChanges = 0] and a new [lastSyncAt], whatever [loadNotes] has
    just counted: the count of dirty notes is overwritten, not recomputed.
    Notes whose upload failed during the pass are still dirty then. *)
Theorem performSync_success_publishes_zero_pending
    (s : NotesStore.State) (w : World.t) (result : FirebaseSyncService.SyncResult) :
  snd (FirebaseSyncService.syncNotes w) = Ok result →
  FirebaseSyncService.success result = true →
  SyncStatus.pendingChanges (NotesStore.syncStatus (fst (NotesStore.performSync s w))) = 0
  ∧ SyncStatus.isSyncing (NotesStore.syncStatus (fst (NotesStore.performSync s w))) = false
  ∧ SyncStatus.lastSyncAt (NotesStore.syncStatus (fst (NotesStore.performSync s w)))
    = Some (Spec.clockReading (fst (FirebaseSyncService.syncNotes w)) 0).
Proof.
  intros Hres Hsuccess. unfold NotesStore.performSync.
  destruct (FirebaseSyncService.syncNotes w) as [w1 [r|e]]; [|discriminate].
  cbn [snd fst] in *. injection Hres as ->. rewrite Hsuccess.
  pose proof (loadNotes_reads
                (NotesStore.setSyncStatus (NotesStore.setIsSyncing true) s) w1) as Hw.
  destruct (NotesStore.loadNotes _ w1) as [s1 w2]. cbn [snd] in Hw. subst w2.
  unfold now, Spec.clockReading. rewrite Nat.add_0_r. cbn. auto.
Qed.

Lemma performSync_success_publishes_zero_pending_witness :
  SyncStatus.pendingChanges
    (NotesStore.syncStatus (fst (NotesStore.performSync (Sample.status []) Sample.flakyBrowser)))
  = 0
  ∧ snd (DatabaseService.getNotesForSync
           (snd (NotesStore.performSync (Sample.status []) Sample.flakyBrowser)))
    = Ok [Sample.unsyncedNote].
Proof.
  split; [|vm_compute; reflexivity].
  refine (proj1 (performSync_success_publishes_zero_pending (Sample.status [])
                   Sample.flakyBrowser
                   {| FirebaseSyncService.success := true;
                      FirebaseSyncService.conflicts := [] |} _ _));
    [vm_compute; reflexivity|reflexivity].
Defined.

(** ** Initialising the browser's storage *)

(** [initializeWebStorage] creates the entries that are missing and
    overwrites nothing: the stored notes and the metadata read as before,
    both entries exist afterwards, and running it again changes nothing. *)
Theorem initializeWebStorage_keeps_content (w : World.t) :
  snd (DatabaseService.initializeWebStorage w) = Ok tt
  ∧ default [] (AsyncStorage.notes_storage
                  (World.storage (fst (DatabaseService.initializeWebStorage w))))
    = default [] (AsyncStorage.notes_storage (World.storage w))
  ∧ default ∅ (AsyncStorage.sync_metadata
                 (World.storage (fst (DatabaseService.initializeWebStorage w))))
    = default ∅ (AsyncStorage.sync_metadata (World.storage w))
  ∧ is_Some (AsyncStorage.notes_storage
               (World.storage (fst (DatabaseService.initializeWebStorage w))))
  ∧ is_Some (AsyncStorage.sync_metadata
               (World.storage (fst (DatabaseService.initializeWebStorage w))))
  ∧ DatabaseService.initializeWebStorage (fst (DatabaseService.initializeWebStorage w))
    = (fst (DatabaseService.initializeWebStorage w), Ok tt).
Proof.
  unfold DatabaseService.initializeWebStorage, bind, DatabaseService.getNotesItem,
    DatabaseService.getMetadataItem, DatabaseService.setNotesItem,
    DatabaseService.setMetadataItem, modify, ret.
  destruct w as [db [[notes|] [metadata|]] sy fs e]; cbn; repeat split; eauto.
Qed.

(** ** The notes an update does not name *)

Lemma filter_insert_same {A} (p : A → bool) (l : list A) i x y :
  l !! i = Some y → p y = false → p x = false →
  List.filter p (<[i := x]> l) = List.filter p l.
Proof.
  revert i. induction l as [|z l IH]; intros [|i] Hy Hpy Hpx; try discriminate.
  - injection Hy as ->. cbn. rewrite Hpy, Hpx. reflexivity.
  - change (<[S i := x]> (z :: l)) with (z :: <[i := x]> l).
    cbn [List.filter]. rewrite (IH i Hy Hpy Hpx). reflexivity.
Qed.

Lemma insertChecklistRow_other_notes row w k :
  k ≠ ChecklistRow.note_id row →
  List.filter (fun r => String.eqb (ChecklistRow.note_id r) k)
    (Spec.checklistRows (fst (DatabaseService.insertChecklistRow row w)))
  = List.filter (fun r => String.eqb (ChecklistRow.note_id r) k) (Spec.checklistRows w).
Proof.
  intros Hk. unfold DatabaseService.insertChecklistRow, bind, DatabaseService.requireDb,
    Spec.checklistRows.
  destruct (DatabaseState.db (World.database w)) as [d|] eqn:Hd; cbn; [|rewrite Hd; reflexivity].
  destruct (existsb _ _); cbn; [rewrite Hd; reflexivity|].
  rewrite List.filter_app. cbn.
  apply String.eqb_neq in Hk. rewrite String.eqb_sym, Hk. apply app_nil_r.
Qed.

Lemma deleteChecklistItems_other_notes id w k :
  k ≠ id →
  List.filter (fun r => String.eqb (ChecklistRow.note_id r) k)
    (Spec.checklistRows (fst (DatabaseService.deleteChecklistItems id w)))
  = List.filter (fun r => String.eqb (ChecklistRow.note_id r) k) (Spec.checklistRows w).
Proof.
  intros Hk. unfold DatabaseService.deleteChecklistItems, bind, DatabaseService.requireDb,
    Spec.checklistRows.
  destruct (DatabaseState.db (World.database w)) as [d|] eqn:Hd; cbn; [|rewrite Hd; reflexivity].
  rewrite filter_filter_and. apply filter_ext_bool. intros r.
  destruct (String.eqb (ChecklistRow.note_id r) k) eqn:Hr; [|apply andb_false_r].
  apply String.eqb_eq in Hr. apply String.eqb_neq in Hk. rewrite Hr, Hk. reflexivity.
Qed.

Lemma updateNote_checklist_other_notes id (items : option (option (list ChecklistItem.t)))
    w k :
  k ≠ id →
  List.filter (fun r => String.eqb (ChecklistRow.note_id r) k)
    (Spec.checklistRows
       (fst (match items with
             | Some (Some items) =>
                 (DatabaseService.deleteChecklistItems id ;;;
                  match items with
                  | [] => ret tt
                  | _ :: _ => DatabaseService.saveChecklistItems id items
                  end)
             | _ => ret tt
             end w)))
  = List.filter (fun r => String.eqb (ChecklistRow.note_id r) k) (Spec.checklistRows w).
Proof.
  intros Hk. destruct items as [[items|]|]; try reflexivity.
  pose proof (deleteChecklistItems_other_notes id w k Hk) as Hdel.
  unfold bind at 1.
  destruct (DatabaseService.deleteChecklistItems id w) as [w1 [[]|e]]; cbn [fst] in *;
    [|exact Hdel].
  rewrite <- Hdel. clear Hdel. destruct items as [|item items]; [reflexivity|].
  unfold DatabaseService.saveChecklistItems, bind, DatabaseService.requireDb.
  destruct (DatabaseState.db (World.database w1)); [|reflexivity].
  apply (forEach_invariant
           (fun w0 =>
              List.filter (fun r => String.eqb (ChecklistRow.note_id r) k)
                (Spec.checklistRows w0)
              = List.filter (fun r => String.eqb (ChecklistRow.note_id r) k)
                  (Spec.checklistRows w1))); [|reflexivity].
  intros x w0 <-. apply insertChecklistRow_other_notes. exact Hk.
Qed.

Lemma storedNotes_native w :
  DatabaseState.isWeb (World.database w) = false →
  Spec.storedNotes w
  = map (fun r =>
           DatabaseService.noteOfRow r
             (map DatabaseService.itemOfRow
                (Js.sort (fun a b => ChecklistRow.created_at a - ChecklistRow.created_at b)
                   (List.filter
                      (fun c => String.eqb (ChecklistRow.note_id c) (NoteRow.id r))
                      (Spec.checklistRows w)))))
        (Spec.noteRows w).
Proof.
  intros Hweb. unfold Spec.storedNotes, Spec.noteRows, Spec.checklistRows. rewrite Hweb.
  destruct (DatabaseState.db (World.database w)); reflexivity.
Qed.

(** [updateNote id] leaves every stored note with another id exactly as it
    was, checklist included, also when it throws half-way. In the browser
    this needs the update not to carry an [id] of its own, since the spread
    would rename the note. *)
Theorem updateNote_other_notes_untouched
    (id : string) (updates : PartialNote.t) (w : World.t) :
  (DatabaseState.isWeb (World.database w) = true → PartialNote.id updates = None) →
  List.filter (fun n => negb (String.eqb (Note.id n) id))
    (Spec.storedNotes (fst (DatabaseService.updateNote id updates w)))
  = List.filter (fun n => negb (String.eqb (Note.id n) id)) (Spec.storedNotes w).
Proof.
  intros Hid. unfold DatabaseService.updateNote.
  rewrite (bind_Ok DatabaseService.isWeb _ w w (DatabaseState.isWeb (World.database w)))
    by reflexivity.
  destruct (DatabaseState.isWeb (World.database w)) eqn:Hweb.
  - specialize (Hid eq_refl).
    unfold DatabaseService.updateNoteWeb, bind, DatabaseService.getNotesItem.
    unfold Spec.storedNotes at 2. rewrite Hweb.
    set (stored := default [] (AsyncStorage.notes_storage (World.storage w))).
    destruct (Js.findIndex _ stored) as [i|] eqn:Hidx.
    + destruct (findIndex_Some _ _ _ Hidx) as (n0 & Hn0 & Hid0).
      unfold now, DatabaseService.setNotesItem, modify, DatabaseService.updateAt,
        Spec.storedNotes.
      rewrite Hn0. cbn. rewrite Hweb. cbn.
      apply (filter_insert_same _ _ _ _ n0 Hn0).
      * rewrite Hid0. reflexivity.
      * cbn. rewrite Hid. cbn. rewrite Hid0. reflexivity.
    + unfold ret, Spec.storedNotes. cbn. rewrite Hweb. reflexivity.
  - clear Hid.
    destruct (DatabaseState.db (World.database w)) as [d|] eqn:Hd.
    2: { unfold bind, DatabaseService.requireDb. rewrite Hd. reflexivity. }
    erewrite (bind_Ok DatabaseService.requireDb)
      by (unfold DatabaseService.requireDb; rewrite Hd; reflexivity).
    erewrite (bind_Ok now) by reflexivity.
    erewrite (bind_Ok (DatabaseService.updateRows _ _)).
    2: { unfold DatabaseService.updateRows, bind, DatabaseService.requireDb. cbn.
         rewrite Hd. reflexivity. }
    match goal with
    | |- context [fst (?m ?w0)] => set (stage := m); set (w2 := w0)
    end.
    pose proof (updateNote_checklist_outside id (PartialNote.checklist updates) w2) as Hout.
    pose proof (fun k => updateNote_checklist_other_notes id
                           (PartialNote.checklist updates) w2 k) as Hother.
    fold stage in Hout, Hother.
    pose proof (outsideChecklist_noteRows _ _ Hout) as Hrows.
    assert (DatabaseState.isWeb (World.database (fst (stage w2))) = false) as Hweb3.
    { unfold Spec.outsideChecklist in Hout. injection Hout as _ _ Hweb3 _ _ _ _.
      rewrite Hweb3. exact Hweb. }
    assert (Spec.checklistRows w2 = Spec.checklistRows w) as Hitems
      by (unfold Spec.checklistRows; rewrite Hd; reflexivity).
    assert (Spec.noteRows w2
            = map (fun r => if String.eqb (NoteRow.id r) id
                            then DatabaseService.setFields updates
                                   (Env.clock (World.env w) (Env.ticks (World.env w))) r
                            else r)
                  (Spec.noteRows w)) as Hrows2
      by (unfold Spec.noteRows; rewrite Hd; reflexivity).
    rewrite (storedNotes_native _ Hweb3), (storedNotes_native _ Hweb), Hrows, Hrows2.
    clearbody stage w2. clear Hout Hrows Hrows2 Hweb3.
    induction (Spec.noteRows w) as [|r rows IH]; [reflexivity|].
    cbn [map List.filter].
    destruct (String.eqb (NoteRow.id r) id) eqn:Hr; cbn [DatabaseService.noteOfRow
      DatabaseService.setFields Note.id NoteRow.id]; rewrite Hr; cbn [negb].
    + exact IH.
    + rewrite IH. f_equal. f_equal.
      rewrite Hother, Hitems; [reflexivity|].
      apply String.eqb_neq. exact Hr.
Qed.

Lemma updateNote_other_notes_untouched_witness :
  (fun n : Note.t => NoteInput.title n)
    <$> (Spec.storedNotes
           (fst (DatabaseService.updateNote "n1" Sample.edit
                   (Sample.web [Sample.localNote; Sample.otherNote] ∅))) !! 0%nat)
  = Some "edited"
  ∧ List.filter (fun n => negb (String.eqb (Note.id n) "n1"))
      (Spec.storedNotes
         (fst (DatabaseService.updateNote "n1" Sample.edit
                 (Sample.web [Sample.localNote; Sample.otherNote] ∅))))
    = [Sample.otherNote].
Proof.
  split; [vm_compute; reflexivity|].
  apply (updateNote_other_notes_untouched "n1" Sample.edit
           (Sample.web [Sample.localNote; Sample.otherNote] ∅)).
  reflexivity.
Defined.

(** ** Fields without a column *)

(** On a native device no read ever returns a value for [folderId],
    [audioNotes], [priority], [dueDate], [reminderDate], [isStarred],
    [isPinned] or [isArchived]: the table has no column for them, so
    whatever was saved or updated, [getAllNotes], [getNotesForSync] and
    [getNoteById] give them back as missing. *)
Theorem native_reads_miss_unstored_fields (w : World.t) :
  DatabaseState.isWeb (World.database w) = false →
  (∀ notes, snd (DatabaseService.getAllNotes w) = Ok notes →
            Forall Spec.unstoredFieldsMissing notes)
  ∧ (∀ notes, snd (DatabaseService.getNotesForSync w) = Ok notes →
              Forall Spec.unstoredFieldsMissing notes)
  ∧ (∀ id n, snd (DatabaseService.getNoteById id w) = Ok (Some n) →
             Spec.unstoredFieldsMissing n).
Proof.
  intros Hweb.
  rewrite getAllNotes_value, getNotesForSync_value. cbn [snd]. rewrite Hweb.
  destruct (DatabaseState.db (World.database w)) as [d|] eqn:Hd.
  - split; [|split].
    + intros notes [= <-]. apply Forall_fmap, Forall_forall. intros r _.
      repeat split.
    + intros notes [= <-]. apply Forall_fmap, Forall_forall. intros r _.
      repeat split.
    + intros id n. rewrite getNoteById_value, Hweb, Hd. cbn [snd].
      destruct (List.find _ _) as [r|]; [|discriminate].
      intros [= <-]. repeat split.
  - split; [discriminate|]. split; [discriminate|].
    intros id n. rewrite getNoteById_value, Hweb, Hd. discriminate.
Qed.

Lemma native_reads_miss_unstored_fields_witness :
  ∃ w' n,
    DatabaseService.saveNote Sample.shopping (Sample.native [] ∅) = (w', Ok n)
    ∧ NoteInput.isStarred n = Some true
    ∧ ∀ m, snd (DatabaseService.getNoteById (Note.id n) w') = Ok (Some m) →
           NoteInput.isStarred m = None.
Proof.
  exists (fst (DatabaseService.saveNote Sample.shopping (Sample.native [] ∅))),
         (Note.mk "note_5001_r0" 5000 5000 "devA" Sample.shopping).
  split; [vm_compute; reflexivity|]. split; [reflexivity|].
  intros m Hm.
  apply (native_reads_miss_unstored_fields
           (fst (DatabaseService.saveNote Sample.shopping (Sample.native [] ∅)))
           ltac:(vm_compute; reflexivity)) in Hm.
  apply Hm.
Defined.

(** ** [updateNote]: what is written and what is not (C10) *)

Lemma updateNote_native_effect id updates w d :
  DatabaseState.isWeb (World.database w) = false →
  DatabaseState.db (World.database w) = Some d →
  DatabaseState.isWeb (World.database (fst (DatabaseService.updateNote id updates w)))
  = false
  ∧ (snd (DatabaseService.updateNote id updates w) = Ok tt →
     Spec.checklistRows (fst (DatabaseService.updateNote id updates w))
     = match PartialNote.checklist updates with
       | Some (Some items) =>
           (List.filter (fun c => negb (String.eqb (ChecklistRow.note_id c) id))
              (Sqlite.checklist_items d)
            ++ map (DatabaseService.rowOfItem id) items)%list
       | _ => Sqlite.checklist_items d
       end).
Proof.
  intros Hweb Hdb.
  unfold DatabaseService.updateNote.
  rewrite (bind_Ok DatabaseService.isWeb _ w w false)
    by (unfold DatabaseService.isWeb; rewrite Hweb; reflexivity).
  rewrite (bind_Ok DatabaseService.requireDb _ w w d)
    by (unfold DatabaseService.requireDb; rewrite Hdb; reflexivity).
  erewrite (bind_Ok now) by reflexivity.
  erewrite (bind_Ok (DatabaseService.updateRows _ _)).
  2:{ unfold DatabaseService.updateRows, bind, DatabaseService.requireDb,
        DatabaseService.putDb, modify. cbn. rewrite Hdb. reflexivity. }
  match goal with
  | |- context [fst (?m ?w0)] => set (stage := m); set (w2 := w0)
  end.
  assert (DatabaseState.isWeb (World.database w2) = false) as Hweb2 by exact Hweb.
  assert (∃ d2, DatabaseState.db (World.database w2) = Some d2
                ∧ Sqlite.checklist_items d2 = Sqlite.checklist_items d)
    as (d2 & Hdb2 & Hitems2) by (eexists; split; reflexivity).
  clearbody w2. split.
  - pose proof (updateNote_checklist_outside id (PartialNote.checklist updates) w2) as Hout.
    fold stage in Hout. unfold Spec.outsideChecklist in Hout.
    injection Hout as _ _ Hweb3 _ _ _ _. rewrite Hweb3. exact Hweb2.
  - subst stage. unfold Spec.checklistRows.
    destruct (PartialNote.checklist updates) as [[items|]|];
      [|intros _; cbn; rewrite Hdb2; exact Hitems2 ..].
    assert (∃ w3 d3, DatabaseService.deleteChecklistItems id w2 = (w3, Ok tt)
                     ∧ DatabaseState.db (World.database w3) = Some d3
                     ∧ Sqlite.checklist_items d3
                       = List.filter
                           (fun c => negb (String.eqb (ChecklistRow.note_id c) id))
                           (Sqlite.checklist_items d))
      as (w3 & d3 & Hdel & Hdb3 & Hitems3).
    { unfold DatabaseService.deleteChecklistItems, bind, DatabaseService.requireDb,
        DatabaseService.putDb, modify. rewrite Hdb2, Hitems2.
      do 2 eexists. split; [reflexivity|]. split; reflexivity. }
    rewrite (bind_Ok _ _ _ _ _ Hdel).
    destruct items as [|item items].
    + intros _. cbn. rewrite Hdb3, Hitems3, app_nil_r. reflexivity.
    + unfold DatabaseService.saveChecklistItems.
      rewrite (bind_Ok DatabaseService.requireDb _ w3 w3 d3)
        by (unfold DatabaseService.requireDb; rewrite Hdb3; reflexivity).
      match goal with
      | |- context [forEach ?xs ?body w3] =>
          destruct (forEach xs body w3) as [w4 [[]|e]] eqn:Hloop; [|discriminate]
      end.
      intros _.
      eapply insertChecklistRows_Ok in Hloop as (d4 & Hdb4 & _ & Hitems4); [|exact Hdb3].
      cbn [fst]. rewrite Hdb4, Hitems4, Hitems3. reflexivity.
Qed.

Lemma filter_checklist_replaced id (old : list ChecklistRow.t) items :
  List.filter (fun c => String.eqb (ChecklistRow.note_id c) id)
    (List.filter (fun c => negb (String.eqb (ChecklistRow.note_id c) id)) old
     ++ map (DatabaseService.rowOfItem id) items)
  = map (DatabaseService.rowOfItem id) items.
Proof.
  rewrite List.filter_app, filter_none, filter_all; [reflexivity| |].
  - intros c Hc. apply list_elem_of_fmap in Hc as (item & -> & _). apply String.eqb_refl.
  - intros c Hc. apply elem_of_filter_bool in Hc as [_ Hc].
    apply negb_true_iff in Hc. exact Hc.
Qed.

(** C10. [updateNote] on a stored note sets its [updatedAt] to the clock
    reading of the call, whatever [updates] holds. On the native path the
    supplied [title], [content], [richContent], [type], [completed] and
    [tags] are written and the ones not supplied stay; a supplied checklist
    replaces the note's checklist rows when the call goes through, and is
    read back in order of creation, each item built anew from its row; the
    stored [syncId], [lastSyncAt], [conflictVersion] and [isDeleted] stay as
    they were, and the outcome depends on [updates] through those seven
    fields only. *)
Theorem updateNote_updatedAt_and_native_frame
  (id : string) (updates : PartialNote.t) (w : World.t) (i : nat) (n : Note.t) :
  Spec.storedNotes w !! i = Some n →
  Js.findIndex (fun m => String.eqb (Note.id m) id) (Spec.storedNotes w) = Some i →
  ∃ n',
    Spec.storedNotes (fst (DatabaseService.updateNote id updates w)) !! i = Some n'
    ∧ Note.updatedAt n' = Spec.clockReading w 0
    ∧ (DatabaseState.isWeb (World.database w) = false →
       NoteInput.title n' = default (NoteInput.title n) (PartialNote.title updates)
       ∧ NoteInput.content n' = default (NoteInput.content n) (PartialNote.content updates)
       ∧ NoteInput.richContent n'
         = match PartialNote.richContent updates with
           | Some (Some segments) => Some segments
           | _ => NoteInput.richContent n
           end
       ∧ NoteInput.type n' = default (NoteInput.type n) (PartialNote.type updates)
       ∧ NoteInput.completed n'
         = match PartialNote.completed updates with
           | Some (Some b) => Some b
           | _ => NoteInput.completed n
           end
       ∧ NoteInput.tags n' = default (NoteInput.tags n) (PartialNote.tags updates)
       ∧ (snd (DatabaseService.updateNote id updates w) = Ok tt →
          match PartialNote.checklist updates with
          | Some (Some items) =>
              ∃ checklist,
                checklist ≡ₚ map Spec.rebuilt items
                ∧ Spec.ascendingBy ChecklistItem.createdAt checklist
                ∧ NoteInput.checklist n'
                  = (if (0 <? length checklist)%nat then Some checklist else None)
          | _ => NoteInput.checklist n' = NoteInput.checklist n
          end)
       ∧ NoteInput.syncId n' = NoteInput.syncId n
       ∧ NoteInput.lastSyncAt n' = NoteInput.lastSyncAt n
       ∧ NoteInput.conflictVersion n' = NoteInput.conflictVersion n
       ∧ NoteInput.isDeleted n' = NoteInput.isDeleted n
       ∧ ∀ updates',
           Spec.sameContentUpdates updates updates' →
           DatabaseService.updateNote id updates' w
           = DatabaseService.updateNote id updates w).
Proof.
  intros Hn Hidx.
  destruct (findIndex_Some _ _ _ Hidx) as (n0 & Hn0 & Hid).
  rewrite Hn in Hn0. injection Hn0 as <-.
  destruct (DatabaseState.isWeb (World.database w)) eqn:Hweb.
  - (* AsyncStorage *)
    unfold Spec.storedNotes in Hn, Hidx. rewrite Hweb in Hn, Hidx.
    unfold DatabaseService.updateNote, DatabaseService.updateNoteWeb, bind,
      DatabaseService.isWeb, DatabaseService.getNotesItem.
    rewrite Hweb, Hidx. unfold now, DatabaseService.setNotesItem, modify. simpl.
    unfold Spec.storedNotes. simpl. rewrite Hweb.
    unfold DatabaseService.updateAt. rewrite Hn.
    eexists. split; [|split; [|discriminate]].
    + apply list_lookup_insert_eq. apply lookup_lt_Some in Hn. exact Hn.
    + unfold Spec.clockReading. simpl. rewrite Nat.add_0_r. reflexivity.
  - (* SQLite *)
    rewrite (storedNotes_native _ Hweb) in Hn.
    unfold Spec.storedNotes in Hidx. rewrite Hweb in Hidx.
    destruct (DatabaseState.db (World.database w)) as [d|] eqn:Hdb;
      [|unfold Spec.noteRows in Hn; rewrite Hdb in Hn; cbn [map] in Hn;
        rewrite lookup_nil in Hn; discriminate].
    clear Hidx.
    assert (Spec.noteRows w = Sqlite.notes d) as Hrows
      by (unfold Spec.noteRows; rewrite Hdb; reflexivity).
    assert (Spec.checklistRows w = Sqlite.checklist_items d) as Hitems
      by (unfold Spec.checklistRows; rewrite Hdb; reflexivity).
    rewrite Hrows, Hitems in Hn. rewrite list_lookup_fmap in Hn.
    destruct (Sqlite.notes d !! i) as [r|] eqn:Hr; [|discriminate].
    cbn in Hn. injection Hn as <-. cbn in Hid.
    destruct (updateNote_native_effect id updates w d Hweb Hdb) as [Hweb' Hcl].
    rewrite (storedNotes_native _ Hweb'), (updateNote_native_rows id updates w d Hweb Hdb).
    rewrite list_lookup_fmap, list_lookup_fmap, Hr. cbn [fmap option_fmap option_map].
    rewrite Hid. eexists. split; [reflexivity|].
    cbn [DatabaseService.noteOfRow DatabaseService.setFields Note.updatedAt Note.fields
         NoteRow.updated_at NoteRow.id NoteRow.title NoteRow.content NoteRow.rich_content
         NoteRow.type NoteRow.completed NoteRow.tags NoteRow.sync_id NoteRow.last_sync_at
         NoteRow.conflict_version NoteRow.is_deleted
         NoteInput.title NoteInput.content NoteInput.richContent NoteInput.type
         NoteInput.completed NoteInput.tags NoteInput.checklist NoteInput.syncId
         NoteInput.lastSyncAt NoteInput.conflictVersion NoteInput.isDeleted].
    split; [reflexivity|]. intros _.
    split; [reflexivity|]. split; [reflexivity|]. split; [reflexivity|].
    split; [reflexivity|].
    split; [destruct (PartialNote.completed updates) as [[b|]|]; reflexivity|].
    split; [reflexivity|].
    split.
    { intros Hok. rewrite (Hcl Hok). apply String.eqb_eq in Hid. rewrite Hid.
      destruct (PartialNote.checklist updates) as [[items|]|]; try reflexivity.
      rewrite filter_checklist_replaced.
      eexists. split; [|split; [|reflexivity]].
      - rewrite sort_perm, map_map. apply Permutation_refl'. apply map_ext.
        intros item. apply itemOfRow_rowOfItem.
      - apply StronglySorted_map. apply (sort_ascending ChecklistRow.created_at). }
    repeat split; try reflexivity.
    intros updates' Hsame. apply updateNote_native_sameContent; [exact Hweb|exact Hsame].
Qed.

Lemma updateNote_updatedAt_and_native_frame_witness :
  Spec.storedNotes (Sample.native [Sample.localRow] ∅) !! 0%nat
  = Some (DatabaseService.noteOfRow Sample.localRow [])
  ∧ ∃ n',
      Spec.storedNotes
        (fst (DatabaseService.updateNote "n1" Sample.edit
                (Sample.native [Sample.localRow] ∅))) !! 0%nat = Some n'
      ∧ Note.updatedAt n' = 5000
      ∧ NoteInput.title n' = "edited"
      ∧ NoteInput.content n' = "body"
      ∧ NoteInput.checklist n' = Some [Sample.milk]
      ∧ NoteInput.syncId n' = Some "n1"
      ∧ NoteInput.lastSyncAt n' = Some 150
      ∧ NoteInput.conflictVersion n' = Some 0
      ∧ NoteInput.isDeleted n' = Some false.
Proof.
  split; [reflexivity|].
  edestruct (updateNote_updatedAt_and_native_frame "n1" Sample.edit
               (Sample.native [Sample.localRow] ∅) 0%nat
               (DatabaseService.noteOfRow Sample.localRow []))
    as (n' & Hn' & Hupd & Hframe); [reflexivity|reflexivity|].
  destruct (Hframe eq_refl) as (Ht & Hc & _ & _ & _ & _ & Hlist & Hs & Hl & Hv & Hd & _).
  destruct (Hlist ltac:(vm_compute; reflexivity)) as (checklist & Hperm & _ & Hcl).
  apply Permutation_singleton_r in Hperm. subst checklist.
  exists n'. repeat split; assumption.
Defined.

(** ** Two calls of [syncNotes] at once (C4) *)

(** C4 fails on the code. The guard of [syncNotes] reads [syncInProgress]
    before [await databaseService.isOnline()] and the flag is raised only
    after it. So a second call made while the first is still waiting for
    that answer passes the guard as the first did; resumed after the first
    has raised the flag, it does not look at the flag again and starts a
    pass of its own; and the first call, when it ends, lowers the flag while
    the second is still in its pass. *)
Theorem syncNotes_second_call_passes_guard (w : World.t) :
  SyncState.isInitialized (World.sync w) = true →
  SyncState.syncInProgress (World.sync w) = false →
  Env.online (World.env w) = true →
  FirebaseSyncService.syncNotes_called w
  = (w, Ok (FirebaseSyncService.AwaitsIsOnline true))
  ∧ ∃ w1 w2 first second,
      FirebaseSyncService.syncNotes_resumed (FirebaseSyncService.AwaitsIsOnline true) w
      = (w1, Ok (FirebaseSyncService.AwaitsNotesForSync first))
      ∧ SyncState.syncInProgress (World.sync w1) = true
      ∧ FirebaseSyncService.syncNotes_resumed (FirebaseSyncService.AwaitsIsOnline true) w1
        = (w2, Ok (FirebaseSyncService.AwaitsNotesForSync second))
      ∧ SyncState.syncInProgress
          (World.sync
             (fst (FirebaseSyncService.syncNotes_resumed
                     (FirebaseSyncService.AwaitsNotesForSync first) w2)))
        = false.
Proof.
  intros Hinit Hflag Honline. split.
  - unfold FirebaseSyncService.syncNotes_called, bind, get, DatabaseService.isOnline.
    rewrite Hinit, Hflag. cbn [negb orb]. rewrite Honline. reflexivity.
  - cbn [FirebaseSyncService.syncNotes_resumed negb]. unfold bind at 1 2, modify.
    eexists _, _, _, _.
    split; [rewrite getNotesForSync_value; reflexivity|].
    split; [reflexivity|].
    split; [rewrite getNotesForSync_value; reflexivity|].
    unfold bind at 1. unfold finally.
    match goal with
    | |- context [try_catch ?m ?h ?w2] => destruct (try_catch m h w2) as [w3 [r|e]]
    end; reflexivity.
Qed.

Lemma syncNotes_second_call_passes_guard_witness :
  let w := Sample.web [Sample.unsyncedNote] ∅ in
  let awaitsIsOnline := FirebaseSyncService.AwaitsIsOnline true in
  let inPass := FirebaseSyncService.AwaitsNotesForSync (Ok [Sample.unsyncedNote]) in
  let done :=
    FirebaseSyncService.Settled
      {| FirebaseSyncService.success := true; FirebaseSyncService.conflicts := [] |} in
  let w1 := fst (FirebaseSyncService.syncNotes_resumed awaitsIsOnline w) in
  let w2 := fst (FirebaseSyncService.syncNotes_resumed awaitsIsOnline w1) in
  let w3 := fst (FirebaseSyncService.syncNotes_resumed inPass w2) in
  FirebaseSyncService.syncNotes_called w = (w, Ok awaitsIsOnline)
  ∧ snd (FirebaseSyncService.syncNotes_resumed awaitsIsOnline w) = Ok inPass
  ∧ snd (FirebaseSyncService.syncNotes_resumed awaitsIsOnline w1) = Ok inPass
  ∧ snd (FirebaseSyncService.syncNotes_resumed inPass w2) = Ok done
  ∧ SyncState.syncInProgress (World.sync w3) = false
  ∧ snd (FirebaseSyncService.syncNotes_resumed inPass w3) = Ok done.
Proof.
  intros w awaitsIsOnline inPass done w1 w2 w3. split.
  - exact (proj1 (syncNotes_second_call_passes_guard w eq_refl eq_refl eq_refl)).
  - repeat apply conj; vm_compute; reflexivity.
Defined.

(** ** The store's conflict set *)

Lemma syncNotes_conflicts_nil w result :
  snd (FirebaseSyncService.syncNotes w) = Ok result →
  FirebaseSyncService.conflicts result = [].
Proof.
  unfold FirebaseSyncService.syncNotes.
  rewrite (bind_Ok get _ w w w) by reflexivity.
  destruct (_ || _); [intros [= <-]; reflexivity|].
  erewrite (bind_Ok DatabaseService.isOnline) by reflexivity.
  destruct (negb _); [intros [= <-]; reflexivity|].
  erewrite (bind_Ok (modify _)) by reflexivity.
  unfold finally, try_catch.
  match goal with
  | |- context [let (_, _) := match ?m ?w0 with _ => _ end in _] =>
      destruct (m w0) as [w1 [r|e]] eqn:Hm
  end; cbn [snd]; [|intros [= <-]; reflexivity].
  intros [= <-].
  apply bind_inv_Ok in Hm as (w2 & localNotes & _ & Hm).
  apply bind_inv_Ok in Hm as (w3 & [] & _ & Hm).
  apply bind_inv_Ok in Hm as (w4 & cs & Hcs & Hm).
  apply downloadRemoteChanges_no_conflict in Hcs as ->.
  injection Hm as _ <-. reflexivity.
Qed.

Lemma resolveConflict_conflicts conflict useLocal s w :
  SyncStatus.conflicts (NotesStore.syncStatus s) = [] →
  SyncStatus.conflicts
    (NotesStore.syncStatus (fst (NotesStore.resolveConflict conflict useLocal s w)))
  = [].
Proof.
  intros Hnone. unfold NotesStore.resolveConflict.
  destruct (FirebaseSyncService.resolveConflictManually conflict useLocal w)
    as [w1 [[]|e]]; [|exact Hnone].
  rewrite loadNotes_conflicts. cbn. rewrite Hnone. reflexivity.
Qed.

(** The store never holds an open conflict. The set starts empty; a sync
    pass replaces it by the conflicts it reports, of which there are none;
    [loadNotes] keeps it and [resolveConflict] only removes from it. *)
Theorem reachable_status_has_no_conflict (s : NotesStore.State) :
  NotesStore.reachable s →
  SyncStatus.conflicts (NotesStore.syncStatus s) = [].
Proof.
  induction 1 as [|s w _ IH|s w _ IH|conflict useLocal s w _ IH|s ? ? ? _ IH].
  - reflexivity.
  - rewrite loadNotes_conflicts. exact IH.
  - rewrite performSync_replaces_conflicts.
    destruct (snd (FirebaseSyncService.syncNotes w)) as [result|e] eqn:Hsync;
      [|exact IH].
    destruct (FirebaseSyncService.success result); [|exact IH].
    exact (syncNotes_conflicts_nil _ _ Hsync).
  - apply resolveConflict_conflicts. exact IH.
  - exact IH.
Qed.

Lemma reachable_status_has_no_conflict_witness :
  let w := Sample.native [Sample.localRow] {[ "n1" := Sample.remoteDoc 100 300 ]} in
  let s := fst (NotesStore.performSync
                  (fst (NotesStore.loadNotes NotesStore.initial w)) w) in
  NotesStore.reachable s
  ∧ SyncStatus.lastSyncAt (NotesStore.syncStatus s) = Some 5003
  ∧ SyncStatus.conflicts (NotesStore.syncStatus s) = [].
Proof.
  intros w s.
  assert (NotesStore.reachable s) as Hs.
  { apply NotesStore.reachable_performSync, NotesStore.reachable_loadNotes,
      NotesStore.reachable_initial. }
  split; [exact Hs|]. split; [vm_compute; reflexivity|].
  exact (reachable_status_has_no_conflict s Hs).
Defined.
